(** * The trading pipeline: Trade, Pricing, P&L and Risk services

    A shallow embedding of the four Flask applications
    ([services/*/src/app.py]) and the properties of their request
    handlers.

    Python values that reach the handlers are parsed JSON; they are kept
    untyped, as Python keeps them.  Numbers are Python numbers: [int] is
    unbounded ([Z]) and [float] is an IEEE 754 binary64 (the kernel's
    primitive [float]).  What the outside world decides (the uuid token,
    the clock, the random draws, the answer of the next service) is read
    from an environment record, so that every handler is a function.

    The file has three parts: the embedding of the Python values and of
    the four services; the definitions the properties are stated with
    (the rules as the specification words them, sequences of requests,
    sample requests); the lemmas and the theorems. *)

From Stdlib Require Import ZArith Bool List String Lia.
From Stdlib Require Import Floats.
Import ListNotations.

#[local] Set Warnings "-inexact-float".

Local Open Scope string_scope.
Local Open Scope Z_scope.

(** ** Python values *)

Module Py.

(** Parsed JSON: [None], [bool], [int], [float], [str], [list], [dict]. *)
#[warnings="-register-all"]
Inductive pyval : Type :=
| PyNone
| PyBool (b : bool)
| PyInt (z : Z)
| PyFloat (f : float)
| PyStr (s : string)
| PyList (l : list pyval)
| PyDict (d : list (pyval * pyval)).

(** A Python [dict] with values in [V]: the insertion-ordered list of its
    items.  Keys are compared the way [dict] compares them ([py_key_eq]). *)
Definition pydict (V : Type) : Type := list (pyval * V).

(** The exceptions the handlers can let escape. *)
Inductive exn : Type := TypeError | AttributeError | OverflowError.

Inductive result (A : Type) : Type :=
| Ok (a : A)
| Raise (e : exn).
Arguments Ok {A} a.
Arguments Raise {A} e.

Definition rbind {A B} (r : result A) (k : A -> result B) : result B :=
  match r with
  | Ok a => k a
  | Raise e => Raise e
  end.

(** *** Numbers *)

(** The numeric reading of a value: [bool] is a subclass of [int]. *)
Inductive num : Type :=
| NInt (z : Z)
| NFloat (f : float).

Definition as_num (v : pyval) : option num :=
  match v with
  | PyBool b => Some (NInt (Z.b2z b))
  | PyInt z => Some (NInt z)
  | PyFloat f => Some (NFloat f)
  | _ => None
  end.

(** An [int] against a [float]: Python compares the exact values. *)
Definition Z_compare_float (z : Z) (f : float) : option comparison :=
  match Prim2SF f with
  | S754_nan => None
  | S754_zero _ => Some (z ?= 0)
  | S754_infinity s => Some (if s then Gt else Lt)
  | S754_finite s m e =>
      let v := cond_Zopp s (Zpos m) in
      Some (if 0 <=? e then z ?= v * 2 ^ e else z * 2 ^ (- e) ?= v)
  end.

Definition float_compare (f g : float) : option comparison :=
  match PrimFloat.compare f g with
  | FEq => Some Eq
  | FLt => Some Lt
  | FGt => Some Gt
  | FNotComparable => None
  end.

(** [None] is "unordered": one side is a NaN. *)
Definition num_compare (x y : num) : option comparison :=
  match x, y with
  | NInt a, NInt b => Some (a ?= b)
  | NInt a, NFloat g => Z_compare_float a g
  | NFloat f, NInt b => option_map CompOpp (Z_compare_float b f)
  | NFloat f, NFloat g => float_compare f g
  end.

(** [v < c] and [v > c] for an [int] literal [c].  A value that is not a
    number raises [TypeError] ([str], [list], [dict] and [None] do not
    order against an [int]). *)
Definition py_lt_int (v : pyval) (c : Z) : result bool :=
  match as_num v with
  | Some x =>
      Ok (match num_compare x (NInt c) with Some Lt => true | _ => false end)
  | None => Raise TypeError
  end.

Definition py_gt_int (v : pyval) (c : Z) : result bool :=
  match as_num v with
  | Some x =>
      Ok (match num_compare x (NInt c) with Some Gt => true | _ => false end)
  | None => Raise TypeError
  end.

(** [int] to [float], as the arithmetic operators convert: the nearest
    double, ties to even; an [int] that rounds beyond the largest double
    raises [OverflowError]. *)
Definition float_of_Z (z : Z) : result float :=
  match binary_normalize prec emax z 0 false with
  | S754_infinity _ => Raise OverflowError
  | sf => Ok (SF2Prim sf)
  end.

Definition to_float (v : pyval) : result float :=
  match as_num v with
  | Some (NInt z) => float_of_Z z
  | Some (NFloat f) => Ok f
  | None => Raise TypeError
  end.

(** [v - c] for a [float] [c], and [f * v] for a [float] [f]: the other
    operand is converted to [float]; a non-number raises [TypeError]. *)
Definition py_sub_float (v : pyval) (c : float) : result float :=
  rbind (to_float v) (fun f => Ok (f - c)%float).

Definition py_float_mul (f : float) (v : pyval) : result float :=
  rbind (to_float v) (fun g => Ok (f * g)%float).

(** *** Truth value *)

Definition py_truthy (v : pyval) : bool :=
  match v with
  | PyNone => false
  | PyBool b => b
  | PyInt z => negb (z =? 0)
  | PyFloat f => negb (f =? 0)%float
  | PyStr s => negb (s =? EmptyString)%string
  | PyList l => match l with [] => false | _ => true end
  | PyDict d => match d with [] => false | _ => true end
  end.

Definition is_None (v : pyval) : bool :=
  match v with PyNone => true | _ => false end.

(** *** Dictionaries *)

Definition py_hashable (v : pyval) : bool :=
  match v with
  | PyList _ | PyDict _ => false
  | _ => true
  end.

(** Equality of two hashable keys: [None] with [None], strings by content,
    numbers by exact value ([True == 1 == 1.0]); a NaN equals nothing. *)
Definition py_key_eq (a b : pyval) : bool :=
  match a, b with
  | PyNone, PyNone => true
  | PyStr s, PyStr t => (s =? t)%string
  | _, _ =>
      match as_num a, as_num b with
      | Some x, Some y =>
          match num_compare x y with Some Eq => true | _ => false end
      | _, _ => false
      end
  end.

Fixpoint dict_find {V} (d : pydict V) (k : pyval) : option V :=
  match d with
  | [] => None
  | (k', v) :: d' => if py_key_eq k' k then Some v else dict_find d' k
  end.

(** [d[k] = v]: the value of an equal key is replaced in place (the old
    key object stays), a new key goes to the end. *)
Fixpoint dict_update {V} (d : pydict V) (k : pyval) (v : V) : pydict V :=
  match d with
  | [] => [(k, v)]
  | (k', v') :: d' =>
      if py_key_eq k' k then (k', v) :: d' else (k', v') :: dict_update d' k v
  end.

(** [d.get(k, default)]; an unhashable key raises [TypeError]. *)
Definition dict_get {V} (d : pydict V) (k : pyval) (default : V) : result V :=
  if py_hashable k then
    Ok (match dict_find d k with Some v => v | None => default end)
  else Raise TypeError.

Definition dict_setitem {V} (d : pydict V) (k : pyval) (v : V)
  : result (pydict V) :=
  if py_hashable k then Ok (dict_update d k v) else Raise TypeError.

(** [data.get(name)] on the parsed request body: [AttributeError] when the
    body is not an object. *)
Definition py_get (data : pyval) (name : string) : result pyval :=
  match data with
  | PyDict d => dict_get d (PyStr name) PyNone
  | _ => Raise AttributeError
  end.

(** A dict display with string keys, [{"a": x, "b": y}]. *)
Definition obj (items : list (string * pyval)) : pyval :=
  PyDict (map (fun kv => (PyStr (fst kv), snd kv)) items).

End Py.
Import Py.

(** ** Requests, responses and effects *)

Inductive level : Type := INFO | WARNING | ERROR.

(** An outbound [requests.post(url, json=..., headers=...)]. *)
Record call : Type := {
  url : string;
  json : pyval;
  headers : list (string * string) }.

(** What [requests.post] does: it returns a response with a status code,
    or it raises. *)
Inductive post_result : Type :=
| Responded (status_code : Z)
| Failed.

(** What a handler does besides answering, in the order it does it.  Of a
    log record the level, the message and the [trace_id] of [extra] are
    kept. *)
Inductive event : Type :=
| Log (lvl : level) (msg : string) (trace_id : string)
| Sleep (seconds : float)
| Post (c : call).

(** [jsonify(body), status]. *)
Record response : Type := {
  status : Z;
  body : pyval }.

(** The inbound request: the [X-Trace-Id] header when the caller sent one,
    and what [request.get_json()] returns. *)
Record request : Type := {
  x_trace_id : option string;
  get_json : pyval }.

(** The outside world during one request. *)
Record env : Type := {
  uuid4 : string;                          (* str(uuid.uuid4()) *)
  now_isoformat : string;                  (* datetime.now().isoformat() *)
  random_random : float;                   (* random.random() *)
  random_uniform : float -> float -> float; (* random.uniform(a, b), the
                                              bounds read as floats *)
  requests_post : call -> post_result }.

(** [request.headers.get('X-Trace-Id', str(uuid.uuid4()))]. *)
Definition trace_id_of (E : env) (x : option string) : string :=
  match x with
  | Some t => t
  | None => E.(uuid4)
  end.

(** ** Handlers: state, early return and uncaught exceptions *)

Section Handler.
Context {V : Type}.

(** The service's module-level dict and the effects so far. *)
Record world : Type := {
  store : pydict V;
  events : list event }.

Inductive flow (A : Type) : Type :=
| Next (a : A) (w : world)
| Return (r : response) (w : world)
| Uncaught (e : exn) (w : world).
Arguments Next {A} a w.
Arguments Return {A} r w.
Arguments Uncaught {A} e w.

Definition handler (A : Type) : Type := world -> flow A.

Definition pure {A} (a : A) : handler A := fun w => Next a w.

Definition bind {A B} (m : handler A) (k : A -> handler B) : handler B :=
  fun w =>
    match m w with
    | Next a w' => k a w'
    | Return r w' => Return r w'
    | Uncaught e w' => Uncaught e w'
    end.

(** [return jsonify(...), status] before the end of the function. *)
Definition respond {A} (r : response) : handler A := fun w => Return r w.

Definition lift {A} (r : result A) : handler A :=
  fun w =>
    match r with
    | Ok a => Next a w
    | Raise e => Uncaught e w
    end.

Definition emit (ev : event) : handler unit :=
  fun w => Next tt {| store := w.(store); events := w.(events) ++ [ev] |}.

Definition get_store : handler (pydict V) := fun w => Next w.(store) w.

Definition set_store (s : pydict V) : handler unit :=
  fun w => Next tt {| store := s; events := w.(events) |}.

Definition when (b : bool) (h : handler unit) : handler unit :=
  if b then h else pure tt.

(** The answer of a handler: its response, or the exception Flask turns
    into a 500, and the world it leaves. *)
Definition run (h : handler response) (w : world) : result response * world :=
  match h w with
  | Next r w' => (Ok r, w')
  | Return r w' => (Ok r, w')
  | Uncaught e w' => (Raise e, w')
  end.

End Handler.
Arguments world V : clear implicits.
Arguments handler V A : clear implicits.
Arguments flow V A : clear implicits.
Arguments Next {V A} a w.
Arguments Return {V A} r w.
Arguments Uncaught {V A} e w.

Declare Scope handler_scope.
Delimit Scope handler_scope with handler.
Notation "x <- m ;; k" := (bind m (fun x => k))
  (at level 61, m at next level, right associativity) : handler_scope.
Notation "m ;; k" := (bind m (fun _ => k))
  (at level 61, right associativity) : handler_scope.
Local Open Scope handler_scope.

Definition log {V} (lvl : level) (msg trace_id : string) : handler V unit :=
  emit (Log lvl msg trace_id).

(** The [try: requests.post(...) ... except Exception] block that ends
    three of the handlers: the call is made, its outcome is logged, and
    nothing of it is kept. *)
Definition post_downstream {V} (E : env) (c : call)
    (ok bad err trace_id : string) : handler V unit :=
  emit (Post c) ;;
  match E.(requests_post) c with
  | Responded sc =>
      if sc =? 200 then log INFO ok trace_id else log WARNING bad trace_id
  | Failed => log ERROR err trace_id
  end.

(** ** TradeService *)

Module TradeService.

(** Modelled from the spec: the class [Trade] of [models] is not among the
    sources; the data model gives its six fields.  An instance of it is
    true ([if not trade] only tests for [None]). *)
Record Trade : Type := {
  trade_id : pyval;
  symbol : pyval;
  quantity : pyval;
  price : pyval;
  trade_type : pyval;
  timestamp : string }.

Definition create_trade_object (E : env)
    (trade_id symbol quantity price trade_type : pyval) : Trade :=
  let timestamp := E.(now_isoformat) in
  {| trade_id := trade_id;
     symbol := symbol;
     quantity := quantity;
     price := price;
     trade_type := trade_type;
     timestamp := timestamp |}.

Definition create_trade (E : env) (req : request) : handler Trade response :=
  let trace_id := trace_id_of E req.(x_trace_id) in
  log INFO "Received trade creation request" trace_id ;;
  let data := req.(get_json) in
  when (negb (py_truthy data))
    (log ERROR "Invalid JSON payload" trace_id ;;
     respond {| status := 400;
                body := obj [("error", PyStr "Invalid JSON")] |}) ;;
  trade_id <- lift (py_get data "trade_id") ;;
  symbol <- lift (py_get data "symbol") ;;
  quantity <- lift (py_get data "quantity") ;;
  price <- lift (py_get data "price") ;;
  trade_type <- lift (py_get data "trade_type") ;;
  when (negb (forallb py_truthy
                [trade_id; symbol; quantity; price; trade_type]))
    (log ERROR "Missing required fields" trace_id ;;
     respond {| status := 400;
                body := obj [("error", PyStr "Missing required fields")] |}) ;;
  let trade :=
    create_trade_object E trade_id symbol quantity price trade_type in
  trades <- get_store ;;
  trades' <- lift (dict_setitem trades trade_id trade) ;;
  set_store trades' ;;
  log INFO "Trade created successfully" trace_id ;;
  post_downstream E
    {| url := "http://localhost:5001/prices";
       json := obj [("trade_id", trade_id); ("symbol", symbol);
                    ("quantity", quantity)];
       headers := [("X-Trace-Id", trace_id)] |}
    "Pricing service called successfully" "Pricing service call failed"
    "Error calling pricing service" trace_id ;;
  pure {| status := 201;
          body := obj [("message", PyStr "Trade created");
                       ("trade_id", trade_id)] |}.

Definition get_trade (E : env) (x : option string) (trade_id : string)
  : handler Trade response :=
  let trace_id := trace_id_of E x in
  log INFO "Fetching trade" trace_id ;;
  trades <- get_store ;;
  match dict_find trades (PyStr trade_id) with
  | None =>
      log WARNING "Trade not found" trace_id ;;
      respond {| status := 404;
                 body := obj [("error", PyStr "Trade not found")] |}
  | Some trade =>
      pure {| status := 200;
              body := obj [("trade_id", trade.(TradeService.trade_id));
                           ("symbol", trade.(symbol));
                           ("quantity", trade.(quantity));
                           ("price", trade.(price));
                           ("trade_type", trade.(trade_type));
                           ("timestamp", PyStr trade.(timestamp))] |}
  end.

End TradeService.

(** ** PricingService *)

Module PricingService.

(** The table local to [compute_price]. *)
Definition base_prices : pydict float :=
  [(PyStr "AAPL", 150); (PyStr "GOOGL", 2800); (PyStr "MSFT", 300)]%float.

(** The service keeps no store: its world has an empty one. *)
Definition compute_price (E : env) (symbol : pyval)
  : handler Empty_set float :=
  emit (Sleep (E.(random_uniform) 0.1 0.5)) ;;
  base <- lift (dict_get base_prices symbol 100%float) ;;
  pure (base + E.(random_uniform) (-5) 5)%float.

Definition compute_trade_price (E : env) (req : request)
  : handler Empty_set response :=
  let trace_id := trace_id_of E req.(x_trace_id) in
  log INFO "Received price computation request" trace_id ;;
  let data := req.(get_json) in
  when (negb (py_truthy data))
    (log ERROR "Invalid JSON payload" trace_id ;;
     respond {| status := 400;
                body := obj [("error", PyStr "Invalid JSON")] |}) ;;
  trade_id <- lift (py_get data "trade_id") ;;
  symbol <- lift (py_get data "symbol") ;;
  quantity <- lift (py_get data "quantity") ;;
  when (negb (py_truthy trade_id) || negb (py_truthy symbol)
        || is_None quantity)
    (log ERROR "Missing trade_id, symbol, or quantity" trace_id ;;
     respond {| status := 400;
                body :=
                  obj [("error",
                        PyStr "Missing trade_id, symbol, or quantity")] |}) ;;
  when (E.(random_random) <? 0.1)%float
    (emit (Sleep 5) ;;
     log ERROR "Price computation timed out" trace_id ;;
     respond {| status := 504; body := obj [("error", PyStr "Timeout")] |}) ;;
  computed_price <- compute_price E symbol ;;
  log INFO "Price computed successfully" trace_id ;;
  post_downstream E
    {| url := "http://localhost:5002/pnl";
       json := obj [("trade_id", trade_id); ("symbol", symbol);
                    ("price", PyFloat computed_price); ("quantity", quantity)];
       headers := [("X-Trace-Id", trace_id)] |}
    "P&L service called successfully" "P&L service call failed"
    "Error calling P&L service" trace_id ;;
  pure {| status := 200;
          body := obj [("trade_id", trade_id);
                       ("computed_price", PyFloat computed_price)] |}.

End PricingService.

(** ** PnLService *)

Module PnLService.

(** The table local to [compute_pnl]. *)
Definition base_costs : pydict float :=
  [(PyStr "AAPL", 140); (PyStr "GOOGL", 2700); (PyStr "MSFT", 280)]%float.

Definition compute_pnl (E : env) (req : request) : handler pyval response :=
  let trace_id := trace_id_of E req.(x_trace_id) in
  log INFO "Received P&L computation request" trace_id ;;
  let data := req.(get_json) in
  when (negb (py_truthy data))
    (log ERROR "Invalid JSON payload" trace_id ;;
     respond {| status := 400;
                body := obj [("error", PyStr "Invalid JSON")] |}) ;;
  trade_id <- lift (py_get data "trade_id") ;;
  symbol <- lift (py_get data "symbol") ;;
  price <- lift (py_get data "price") ;;
  quantity <- lift (py_get data "quantity") ;;
  when (negb (forallb py_truthy [trade_id; symbol; price; quantity]))
    (log ERROR "Missing required fields" trace_id ;;
     respond {| status := 400;
                body := obj [("error", PyStr "Missing required fields")] |}) ;;
  cost <- lift (dict_get base_costs symbol 90%float) ;;
  diff <- lift (py_sub_float price cost) ;;
  pnl_value <- lift (py_float_mul diff quantity) ;;
  when (E.(random_random) <? 0.05)%float
    (log ERROR "P&L computation failed due to data inconsistency" trace_id ;;
     respond {| status := 500;
                body := obj [("error", PyStr "Data inconsistency")] |}) ;;
  pnls <- get_store ;;
  pnls' <- lift (dict_setitem pnls trade_id
                   (obj [("pnl_value", PyFloat pnl_value); ("symbol", symbol);
                         ("price", price); ("quantity", quantity);
                         ("cost", PyFloat cost)])) ;;
  set_store pnls' ;;
  log INFO "P&L computed successfully" trace_id ;;
  post_downstream E
    {| url := "http://localhost:5003/risk";
       json := obj [("trade_id", trade_id); ("pnl_value", PyFloat pnl_value);
                    ("quantity", quantity)];
       headers := [("X-Trace-Id", trace_id)] |}
    "Risk service called successfully" "Risk service call failed"
    "Error calling Risk service" trace_id ;;
  pure {| status := 200;
          body := obj [("trade_id", trade_id);
                       ("pnl_value", PyFloat pnl_value)] |}.

Definition get_pnl (E : env) (x : option string) (trade_id : string)
  : handler pyval response :=
  let trace_id := trace_id_of E x in
  log INFO "Fetching P&L" trace_id ;;
  pnls <- get_store ;;
  pnl <- lift (dict_get pnls (PyStr trade_id) PyNone) ;;
  when (negb (py_truthy pnl))
    (log WARNING "P&L not found" trace_id ;;
     respond {| status := 404;
                body := obj [("error", PyStr "P&L not found")] |}) ;;
  pure {| status := 200; body := pnl |}.

End PnLService.

(** ** RiskService *)

Module RiskService.

Definition assess_risk (pnl_value quantity : pyval) : result string :=
  rbind (py_lt_int pnl_value 0) (fun negative =>
  rbind (if negative then py_gt_int quantity 50 else Ok false) (fun high =>
  if high then Ok "HIGH"
  else
    rbind (py_lt_int pnl_value (-100)) (fun medium =>
    if medium then Ok "MEDIUM" else Ok "LOW"))).

Definition assess_trade_risk (E : env) (req : request)
  : handler pyval response :=
  let trace_id := trace_id_of E req.(x_trace_id) in
  log INFO "Received risk assessment request" trace_id ;;
  let data := req.(get_json) in
  when (negb (py_truthy data))
    (log ERROR "Invalid JSON payload" trace_id ;;
     respond {| status := 400;
                body := obj [("error", PyStr "Invalid JSON")] |}) ;;
  trade_id <- lift (py_get data "trade_id") ;;
  pnl_value <- lift (py_get data "pnl_value") ;;
  quantity <- lift (py_get data "quantity") ;;
  when (negb (forallb py_truthy
                [trade_id; PyBool (negb (is_None pnl_value));
                 PyBool (negb (is_None quantity))]))
    (log ERROR "Missing required fields" trace_id ;;
     respond {| status := 400;
                body := obj [("error", PyStr "Missing required fields")] |}) ;;
  risk_level <- lift (assess_risk pnl_value quantity) ;;
  when (E.(random_random) <? 0.03)%float
    (log ERROR "Risk assessment failed due to external data unavailability"
       trace_id ;;
     respond {| status := 503;
                body :=
                  obj [("error", PyStr "External data unavailability")] |}) ;;
  risks <- get_store ;;
  risks' <- lift (dict_setitem risks trade_id
                    (obj [("risk_level", PyStr risk_level);
                          ("pnl_value", pnl_value); ("quantity", quantity)])) ;;
  set_store risks' ;;
  log INFO "Risk assessed successfully" trace_id ;;
  pure {| status := 200;
          body := obj [("trade_id", trade_id);
                       ("risk_level", PyStr risk_level)] |}.

Definition get_risk (E : env) (x : option string) (trade_id : string)
  : handler pyval response :=
  let trace_id := trace_id_of E x in
  log INFO "Fetching risk assessment" trace_id ;;
  risks <- get_store ;;
  risk <- lift (dict_get risks (PyStr trade_id) PyNone) ;;
  when (negb (py_truthy risk))
    (log WARNING "Risk assessment not found" trace_id ;;
     respond {| status := 404;
                body :=
                  obj [("error", PyStr "Risk assessment not found")] |}) ;;
  pure {| status := 200; body := risk |}.

End RiskService.

(** ** Routes *)

Module Routes.

(** The converter of [<trade_id>] in [@app.route('/trades/<trade_id>')],
    [/pnl/<trade_id>] and [/risk/<trade_id>] is the default one: it takes
    one path segment, at least one character and no slash. *)
Fixpoint has_slash (s : string) : bool :=
  match s with
  | EmptyString => false
  | String c s' => (String c EmptyString =? "/")%string || has_slash s'
  end.

Definition segment (s : string) : bool :=
  negb (s =? EmptyString)%string && negb (has_slash s).

(** The view function a GET on the path of the id reaches.  For an id
    that is not one segment no rule matches: Flask answers 404 Not Found
    on its own and calls no view function. *)
Definition view_for {V} (view : string -> handler V response) (id : string)
  : option (handler V response) :=
  if segment id then Some (view id) else None.

(** The answer of the view function to a GET on the path of the id, in
    the world [w]; none when Flask answers in its place. *)
Definition served {V} (view : string -> handler V response) (id : string)
    (w : world V) : option (result response) :=
  option_map (fun h => fst (run h w)) (view_for view id).

End Routes.

(** * What the properties are stated with *)

(** Runs of handlers one after the other, each from the world the
    previous one left. *)
Definition exec {V Op : Type} (handle : Op -> handler V response)
    (ops : list Op) (w : world V) : world V :=
  fold_left (fun w o => snd (run (handle o) w)) ops w.

(** The world of a service that just started: the module-level dict is
    empty. *)
Definition started {V} : world V := {| store := []; events := [] |}.

(** ** The risk classification *)

Module RiskRule.
Import RiskService.

(** The rule as the specification words it, on the numeric value of the
    two fields: a field that is not a number is below or above nothing. *)
Definition below (v : pyval) (c : Z) : bool :=
  match as_num v with
  | Some x => match num_compare x (NInt c) with Some Lt => true | _ => false end
  | None => false
  end.

Definition above (v : pyval) (c : Z) : bool :=
  match as_num v with
  | Some x => match num_compare (NInt c) x with Some Lt => true | _ => false end
  | None => false
  end.

Definition risk_level_rule (pnl_value quantity : pyval) : string :=
  if below pnl_value 0 && above quantity 50 then "HIGH"
  else if below pnl_value (-100) then "MEDIUM"
  else "LOW".

(** The record [assess_trade_risk] writes for a request. *)
Definition risk_record (risk_level : string) (pnl_value quantity : pyval)
  : pyval :=
  obj [("risk_level", PyStr risk_level); ("pnl_value", pnl_value);
       ("quantity", quantity)].

(** A record whose level is what [assess_risk] returns on the pnl_value
    and the quantity of the same record. *)
Definition consistent (record : pyval) : Prop :=
  exists risk_level pnl_value quantity,
    record = obj [("risk_level", PyStr risk_level); ("pnl_value", pnl_value);
                  ("quantity", quantity)] /\
    assess_risk pnl_value quantity = Ok risk_level.

End RiskRule.

(** ** The cost basis *)

Module CostBasis.

(** The cost basis as the specification words it. *)
Definition cost_lookup (symbol : pyval) : float :=
  match symbol with
  | PyStr s =>
      if (s =? "AAPL")%string then 140
      else if (s =? "GOOGL")%string then 2700
      else if (s =? "MSFT")%string then 280
      else 90
  | _ => 90
  end%float.

(** The record [compute_pnl] writes for a request. *)
Definition pnl_record (pnl_value : float) (symbol price quantity : pyval)
    (cost : float) : pyval :=
  obj [("pnl_value", PyFloat pnl_value); ("symbol", symbol); ("price", price);
       ("quantity", quantity); ("cost", PyFloat cost)].

End CostBasis.

(** ** Sequences of requests *)

Module TradeOps.
Import TradeService.

(** The requests the service answers. *)
Inductive op : Type :=
| Create (E : env) (req : request)
| Fetch (E : env) (x : option string) (trade_id : string).

Definition handle (o : op) : handler Trade response :=
  match o with
  | Create E req => create_trade E req
  | Fetch E x trade_id => get_trade E x trade_id
  end.

End TradeOps.

Module RiskOps.
Import RiskService.

(** The requests the service answers. *)
Inductive op : Type :=
| Assess (E : env) (req : request)
| Fetch (E : env) (x : option string) (trade_id : string).

Definition handle (o : op) : handler pyval response :=
  match o with
  | Assess E req => assess_trade_risk E req
  | Fetch E x trade_id => get_risk E x trade_id
  end.

End RiskOps.

(** ** The call to the next service *)

Module Downstream.

(** The environment with another behaviour of [requests.post]. *)
Definition with_requests_post (E : env) (post : call -> post_result) : env :=
  {| uuid4 := E.(uuid4);
     now_isoformat := E.(now_isoformat);
     random_random := E.(random_random);
     random_uniform := E.(random_uniform);
     requests_post := post |}.

(** What a handler sends on: whatever the request and its outcome, every
    call it makes goes to [next] and carries the one header
    [X-Trace-Id: trace_id]; and an answer with status [success] has made
    the call. *)
Definition forwards {V} (h : handler V response) (success : Z)
    (next trace_id : string) : Prop :=
  forall (w w' : world V) (res : result response),
    run h w = (res, w') ->
    exists evs,
      w'.(events) = (w.(events) ++ evs)%list /\
      (forall c, In (Post c) evs ->
                 c.(url) = next /\ c.(headers) = [("X-Trace-Id", trace_id)]) /\
      (forall r, res = Ok r -> r.(status) = success ->
                 exists c, In (Post c) evs).

End Downstream.

(** ** Sample requests and worlds *)

Module Samples.
Import TradeService RiskRule CostBasis.

(** An environment in which no simulated failure fires and the next
    service is unreachable. *)
Definition quiet_env : env :=
  {| uuid4 := "5f1c0c1e";
     now_isoformat := "2024-01-01T00:00:00";
     random_random := 0.5;
     random_uniform := fun a b => ((a + b) / 2)%float;
     requests_post := fun _ => Failed |}.

Definition failing_env : env :=
  {| uuid4 := "5f1c0c1e";
     now_isoformat := "2024-01-01T00:00:00";
     random_random := 0.01;
     random_uniform := fun a b => a;
     requests_post := fun _ => Responded 200 |}.

Definition unreachable : call -> post_result := fun _ => Failed.

Definition trade_request (trade_id : string)
    (symbol quantity price trade_type : pyval) : request :=
  {| x_trace_id := None;
     get_json := obj [("trade_id", PyStr trade_id); ("symbol", symbol);
                      ("quantity", quantity); ("price", price);
                      ("trade_type", trade_type)] |}.

(** A request with quantity -5 and the trade it stores. *)
Definition negative_request : request :=
  trade_request "T9" (PyStr "AAPL") (PyInt (-5)) (PyFloat 150) (PyStr "sell").

Definition negative_trade : Trade :=
  {| trade_id := PyStr "T9";
     symbol := PyStr "AAPL";
     quantity := PyInt (-5);
     price := PyFloat 150;
     trade_type := PyStr "sell";
     timestamp := "2024-01-01T00:00:00" |}.

(** Two bodies outside the data model: an [int] and a [list] for
    trade_id. *)
Definition numbered_request : request :=
  {| x_trace_id := None;
     get_json := obj [("trade_id", PyInt 5); ("symbol", PyStr "AAPL");
                      ("quantity", PyInt 10); ("price", PyFloat 150);
                      ("trade_type", PyStr "buy")] |}.

Definition listed_request : request :=
  {| x_trace_id := None;
     get_json := obj [("trade_id", PyList [PyStr "T1"]);
                      ("symbol", PyStr "AAPL"); ("quantity", PyInt 10);
                      ("price", PyFloat 150); ("trade_type", PyStr "buy")] |}.

Definition zero_request : request :=
  trade_request "T0" (PyStr "AAPL") (PyInt 0) (PyFloat 150) (PyStr "buy").

Definition traced_request : request :=
  {| x_trace_id := Some "abc-123";
     get_json := obj [("trade_id", PyStr "T1"); ("symbol", PyStr "AAPL");
                      ("quantity", PyInt 10); ("price", PyInt 150);
                      ("trade_type", PyStr "buy")] |}.

Definition traced_call : call :=
  {| url := "http://localhost:5001/prices";
     json := obj [("trade_id", PyStr "T1"); ("symbol", PyStr "AAPL");
                  ("quantity", PyInt 10)];
     headers := [("X-Trace-Id", "abc-123")] |}.

Definition unknown_request : request :=
  {| x_trace_id := None;
     get_json := obj [("trade_id", PyStr "T1"); ("symbol", PyStr "XXX");
                      ("quantity", PyInt 10)] |}.

Definition unknown_answer : response :=
  {| status := 200;
     body := obj [("trade_id", PyStr "T1");
                  ("computed_price", PyFloat 100)] |}.

Definition pnl_request (trade_id symbol : string) (price quantity : pyval)
  : request :=
  {| x_trace_id := Some "trace-1";
     get_json := obj [("trade_id", PyStr trade_id); ("symbol", PyStr symbol);
                      ("price", price); ("quantity", quantity)] |}.

Definition aapl_answer : response :=
  {| status := 200;
     body := obj [("trade_id", PyStr "T1"); ("pnl_value", PyFloat 100)] |}.

Definition aapl_world : world pyval :=
  {| store := [(PyStr "T1",
                pnl_record 100 (PyStr "AAPL") (PyInt 150) (PyInt 10) 140)];
     events :=
       [Log INFO "Received P&L computation request" "trace-1";
        Log INFO "P&L computed successfully" "trace-1";
        Post {| url := "http://localhost:5003/risk";
                json := obj [("trade_id", PyStr "T1");
                             ("pnl_value", PyFloat 100);
                             ("quantity", PyInt 10)];
                headers := [("X-Trace-Id", "trace-1")] |};
        Log ERROR "Error calling Risk service" "trace-1"] |}.

Definition inconsistency_answer : response :=
  {| status := 500; body := obj [("error", PyStr "Data inconsistency")] |}.

Definition risk_request (trade_id : string) (pnl_value quantity : pyval)
  : request :=
  {| x_trace_id := Some "trace-1";
     get_json := obj [("trade_id", PyStr trade_id); ("pnl_value", pnl_value);
                      ("quantity", quantity)] |}.

Definition high_answer : response :=
  {| status := 200;
     body := obj [("trade_id", PyStr "T1"); ("risk_level", PyStr "HIGH")] |}.

Definition high_world : world pyval :=
  {| store := [(PyStr "T1", risk_record "HIGH" (PyFloat (-50)) (PyInt 60))];
     events := [Log INFO "Received risk assessment request" "trace-1";
                Log INFO "Risk assessed successfully" "trace-1"] |}.

Definition first_risk : request :=
  {| x_trace_id := None;
     get_json := obj [("trade_id", PyStr "T1"); ("pnl_value", PyFloat (-150));
                      ("quantity", PyInt 10)] |}.

Definition second_risk : request :=
  {| x_trace_id := None;
     get_json := obj [("trade_id", PyStr "T1"); ("pnl_value", PyFloat 20);
                      ("quantity", PyInt 10)] |}.

End Samples.

(** ** What a request adds to the events *)

(** The outbound calls among some events, in order. *)
Fixpoint calls (evs : list event) : list call :=
  match evs with
  | [] => []
  | Post c :: evs' => c :: calls evs'
  | _ :: evs' => calls evs'
  end.

(** The seconds slept among some events, in order. *)
Fixpoint sleeps (evs : list event) : list float :=
  match evs with
  | [] => []
  | Sleep d :: evs' => d :: sleeps evs'
  | _ :: evs' => sleeps evs'
  end.

(** The body posts the string [tid] as its trade_id. *)
Definition posts (tid : string) (req : request) : bool :=
  match py_get req.(get_json) "trade_id" with
  | Ok (PyStr s) => (s =? tid)%string
  | _ => false
  end.

Module PnLOps.
Import PnLService.

(** The requests the service answers. *)
Inductive op : Type :=
| Compute (E : env) (req : request)
| Fetch (E : env) (x : option string) (trade_id : string).

Definition handle (o : op) : handler pyval response :=
  match o with
  | Compute E req => compute_pnl E req
  | Fetch E x trade_id => get_pnl E x trade_id
  end.

End PnLOps.

(** ** The price table *)

Module PriceTable.

(** The base price of a symbol, as [base_prices.get(symbol, 100.0)]
    gives it for a hashable symbol. *)
Definition price_lookup (symbol : pyval) : float :=
  match symbol with
  | PyStr s =>
      if (s =? "AAPL")%string then 150
      else if (s =? "GOOGL")%string then 2800
      else if (s =? "MSFT")%string then 300
      else 100
  | _ => 100
  end%float.

End PriceTable.

(** ** What a run adds, and which requests post an id *)

(** The events a run added to those of the world it started from. *)
Definition added {V} (w w' : world V) : list event :=
  skipn (List.length w.(events)) w'.(events).

(** An event under the trace id [tr]: a log record whose [extra] holds
    it, a call whose headers are [{'X-Trace-Id': tr}]; a sleep bears
    none. *)
Definition traced (tr : string) (ev : event) : Prop :=
  match ev with
  | Log _ _ t => t = tr
  | Sleep _ => True
  | Post c => c.(headers) = [("X-Trace-Id", tr)]
  end.

(** A request of a sequence that posts the string [tid]. *)
Definition trade_posts (tid : string) (o : TradeOps.op) : bool :=
  match o with
  | TradeOps.Create _ req => posts tid req
  | TradeOps.Fetch _ _ _ => false
  end.

Definition pnl_posts (tid : string) (o : PnLOps.op) : bool :=
  match o with
  | PnLOps.Compute _ req => posts tid req
  | PnLOps.Fetch _ _ _ => false
  end.

Definition risk_posts (tid : string) (o : RiskOps.op) : bool :=
  match o with
  | RiskOps.Assess _ req => posts tid req
  | RiskOps.Fetch _ _ _ => false
  end.

(** ** The records of the P&L store *)

Module PnLRule.
Import CostBasis.

(** A record whose pnl_value is (price - cost) * quantity on the price and
    the quantity of the same record, read as floats, with the cost basis
    of its symbol for cost. *)
Definition balanced (record : pyval) : Prop :=
  exists (symbol price quantity : pyval) (p q : float),
    to_float price = Ok p /\
    to_float quantity = Ok q /\
    record = pnl_record ((p - cost_lookup symbol) * q) symbol price quantity
               (cost_lookup symbol).

End PnLRule.

(** ** From one service to the next *)

Module Wire.

(** [headers.get(name)] on the headers of a call. *)
Fixpoint header (name : string) (hs : list (string * string))
  : option string :=
  match hs with
  | [] => None
  | (n, v) :: hs' => if (n =? name)%string then Some v else header name hs'
  end.

(** The request the called service reads for a call: [request.get_json()]
    is the [json] that was sent, [request.headers] are the [headers] that
    were sent. *)
Definition inbound (c : call) : request :=
  {| x_trace_id := header "X-Trace-Id" c.(headers);
     get_json := c.(json) |}.

(** The body [requests.post(..., json=body)] can encode: [requests]
    serialises with [allow_nan=False], so a NaN or an infinity anywhere in
    the body raises before anything is sent. *)
Fixpoint encodable (v : pyval) : bool :=
  match v with
  | PyFloat f => is_finite f
  | PyList l => forallb encodable l
  | PyDict d => forallb (fun kv : pyval * pyval =>
                          let (k, x) := kv in encodable k && encodable x) d
  | _ => true
  end.

(** What [requests.post] returns for the answer of the called handler:
    its status code, and 500 when the handler let an exception escape. *)
Definition answered (res : result response) : post_result :=
  match res with
  | Ok r => Responded r.(status)
  | Raise _ => Responded 500
  end.

End Wire.

(** ** The four services together *)

Module Pipeline.
Import TradeService PricingService PnLService RiskService Downstream Wire.

(** The four processes side by side, each with its own store and log. *)
Record system : Type := {
  trade_world : world Trade;
  pricing_world : world Empty_set;
  pnl_world : world pyval;
  risk_world : world pyval }.

(** What each process reads from its clock and its random generator
    during one request of the chain.  The [requests_post] of these is not
    used: a call is answered by the service it addresses. *)
Record draws : Type := {
  trade_env : env;
  pricing_env : env;
  pnl_env : env;
  risk_env : env }.

(** [requests.post(c.url, json=c.json, headers=c.headers)] towards the
    service [serve]: the body is encoded first, and when it cannot be the
    call raises and the service is not contacted. *)
Definition send (serve : call -> system -> post_result * system) (c : call)
    (S : system) : post_result * system :=
  if encodable c.(json) then serve c S else (Failed, S).

(** The calls a handler made, sent in order. *)
Definition deliver (serve : call -> system -> post_result * system)
    (cs : list call) (S : system) : system :=
  fold_left (fun S c => snd (send serve c S)) cs S.

(** Port 5003, route /risk. *)
Definition serve_risk (D : draws) (c : call) (S : system)
  : post_result * system :=
  if (c.(url) =? "http://localhost:5003/risk")%string then
    let (res, w) :=
      run (assess_trade_risk D.(risk_env) (inbound c)) S.(risk_world) in
    (answered res,
     {| trade_world := S.(trade_world);
        pricing_world := S.(pricing_world);
        pnl_world := S.(pnl_world);
        risk_world := w |})
  else (Failed, S).

(** Port 5002, route /pnl: the handler runs with the risk service behind
    its [requests.post]. *)
Definition serve_pnl (D : draws) (c : call) (S : system)
  : post_result * system :=
  if (c.(url) =? "http://localhost:5002/pnl")%string then
    let E :=
      with_requests_post D.(pnl_env)
        (fun c' => fst (send (serve_risk D) c' S)) in
    let (res, w) := run (compute_pnl E (inbound c)) S.(pnl_world) in
    (answered res,
     deliver (serve_risk D) (calls (added S.(pnl_world) w))
       {| trade_world := S.(trade_world);
          pricing_world := S.(pricing_world);
          pnl_world := w;
          risk_world := S.(risk_world) |})
  else (Failed, S).

(** Port 5001, route /prices. *)
Definition serve_prices (D : draws) (c : call) (S : system)
  : post_result * system :=
  if (c.(url) =? "http://localhost:5001/prices")%string then
    let E :=
      with_requests_post D.(pricing_env)
        (fun c' => fst (send (serve_pnl D) c' S)) in
    let (res, w) :=
      run (compute_trade_price E (inbound c)) S.(pricing_world) in
    (answered res,
     deliver (serve_pnl D) (calls (added S.(pricing_world) w))
       {| trade_world := S.(trade_world);
          pricing_world := w;
          pnl_world := S.(pnl_world);
          risk_world := S.(risk_world) |})
  else (Failed, S).

(** A client's POST /trades on port 5000. *)
Definition post_trade (D : draws) (req : request) (S : system)
  : result response * system :=
  let E :=
    with_requests_post D.(trade_env)
      (fun c' => fst (send (serve_prices D) c' S)) in
  let (res, w) := run (create_trade E req) S.(trade_world) in
  (res,
   deliver (serve_prices D) (calls (added S.(trade_world) w))
     {| trade_world := w;
        pricing_world := S.(pricing_world);
        pnl_world := S.(pnl_world);
        risk_world := S.(risk_world) |}).

End Pipeline.

(** ** Sample systems *)

Module Systems.
Import Pipeline Samples.

(** The four services just started. *)
Definition idle : system :=
  {| trade_world := started;
     pricing_world := started;
     pnl_world := started;
     risk_world := started |}.

(** No simulated failure fires in any service. *)
Definition quiet_draws : draws :=
  {| trade_env := quiet_env;
     pricing_env := quiet_env;
     pnl_env := quiet_env;
     risk_env := quiet_env |}.

(** Every simulated failure fires. *)
Definition failing_draws : draws :=
  {| trade_env := failing_env;
     pricing_env := failing_env;
     pnl_env := failing_env;
     risk_env := failing_env |}.

End Systems.

(** ** More sample requests *)

Module Scenarios.
Import TradeService Samples.

Definition retyped_request : request :=
  trade_request "T1" (PyStr "MSFT") (PyInt 7) (PyFloat 300) (PyStr "sell").

Definition scalar_request : request :=
  {| x_trace_id := None; get_json := PyInt 5 |}.

(** A trade service that holds the trade T1. *)
Definition aapl_trades : world Trade :=
  {| store := [(PyStr "T1",
                {| trade_id := PyStr "T1";
                   symbol := PyStr "AAPL";
                   quantity := PyInt 10;
                   price := PyFloat 150;
                   trade_type := PyStr "buy";
                   timestamp := "2024-01-01T00:00:00" |})];
     events := [Log INFO "Received trade creation request" "trace-1"] |}.

(** A P&L request whose price is a word. *)
Definition worded_pnl : request :=
  pnl_request "T7" "AAPL" (PyStr "high") (PyInt 10).

(** A trade whose trade_id holds a slash. *)
Definition slashed_request : request :=
  trade_request "a/b" (PyStr "AAPL") (PyInt 10) (PyFloat 150) (PyStr "buy").

(** Two P&L requests and two risk requests under the number 5. *)
Definition numbered_pnl (price : pyval) : request :=
  {| x_trace_id := None;
     get_json := obj [("trade_id", PyInt 5); ("symbol", PyStr "AAPL");
                      ("price", price); ("quantity", PyInt 10)] |}.

Definition numbered_risk (pnl_value : pyval) : request :=
  {| x_trace_id := None;
     get_json := obj [("trade_id", PyInt 5); ("pnl_value", pnl_value);
                      ("quantity", PyInt 10)] |}.

(** A trade whose quantity is an infinity, as [json.loads] reads the
    literal [Infinity]. *)
Definition boundless_request : request :=
  trade_request "T1" (PyStr "AAPL") (PyFloat infinity) (PyFloat 150)
    (PyStr "buy").

(** A trade whose symbol is a list. *)
Definition listed_symbol_request : request :=
  trade_request "T1" (PyList [PyStr "AAPL"]) (PyInt 10) (PyFloat 150)
    (PyStr "buy").

(** A pricing request whose quantity is 0. *)
Definition unsized_request : request :=
  {| x_trace_id := Some "trace-1";
     get_json := obj [("trade_id", PyStr "T1"); ("symbol", PyStr "AAPL");
                      ("quantity", PyInt 0)] |}.

Definition priced_request : request :=
  {| x_trace_id := Some "trace-1";
     get_json := obj [("trade_id", PyStr "T1"); ("symbol", PyStr "AAPL");
                      ("quantity", PyInt 10)] |}.

End Scenarios.

(** * Properties *)

(** ** Python values on sample inputs *)

Example truthy_samples :
  map py_truthy
    [PyNone; PyBool false; PyInt 0; PyFloat 0; PyFloat (-0); PyStr EmptyString;
     PyList []; PyDict []; PyInt (-5); PyFloat nan; PyStr "0"; PyList [PyNone]]
  = [false; false; false; false; false; false; false; false;
     true; true; true; true].
Proof. vm_compute. reflexivity. Qed.

Example key_eq_samples :
  py_key_eq (PyInt 1) (PyFloat 1) = true /\
  py_key_eq (PyBool true) (PyInt 1) = true /\
  py_key_eq (PyInt 5) (PyStr "5") = false /\
  py_key_eq (PyFloat nan) (PyFloat nan) = false /\
  py_key_eq (PyInt (2 ^ 53 + 1)) (PyFloat 9007199254740992) = false.
Proof. repeat split; vm_compute; reflexivity. Qed.

Example float_of_Z_samples :
  float_of_Z 150 = Ok 150%float /\
  float_of_Z (2 ^ 53 + 1) = Ok 9007199254740992%float /\
  float_of_Z (2 ^ 1024 - 2 ^ 970 - 1) = Ok 0x1.fffffffffffffp+1023%float /\
  float_of_Z (2 ^ 1024 - 2 ^ 970) = Raise OverflowError.
Proof. repeat split; vm_compute; reflexivity. Qed.

Example comparison_samples :
  py_lt_int (PyFloat (-0.5)) 0 = Ok true /\
  py_lt_int (PyFloat nan) 0 = Ok false /\
  py_gt_int (PyFloat infinity) 50 = Ok true /\
  py_gt_int (PyBool true) 0 = Ok true /\
  py_lt_int (PyStr "1") 0 = Raise TypeError /\
  py_lt_int PyNone 0 = Raise TypeError.
Proof. repeat split; vm_compute; reflexivity. Qed.

(** ** Dictionaries: lookups after an assignment *)

Section DictFacts.
Context {V : Type}.

Lemma dict_find_update_str (d : pydict V) (k : string) (v : V) :
  dict_find (dict_update d (PyStr k) v) (PyStr k) = Some v.
Proof.
  induction d as [|[k' v'] d IH]; cbn [dict_update dict_find].
  - cbn [py_key_eq]. now rewrite String.eqb_refl.
  - destruct (py_key_eq k' (PyStr k)) eqn:Hk; cbn [dict_find]; rewrite Hk.
    + reflexivity.
    + exact IH.
Qed.

(** An assignment changes no other value and adds at most one item. *)
Lemma dict_update_values (P : V -> Prop) (d : pydict V) (k : pyval) (v : V) :
  Forall (fun kv => P (snd kv)) d -> P v ->
  Forall (fun kv => P (snd kv)) (dict_update d k v).
Proof.
  intros Hd Hv. induction Hd as [|[k' v'] d Hk' Hd IH]; cbn [dict_update].
  - now constructor.
  - destruct (py_key_eq k' k); constructor; auto.
Qed.

Lemma dict_update_In (d : pydict V) (k : pyval) (v : V) :
  In v (map snd (dict_update d k v)).
Proof.
  induction d as [|[k' v'] d IH]; cbn [dict_update].
  - now left.
  - destruct (py_key_eq k' k); cbn [map snd In]; auto.
Qed.

(** Assigning to a key that is there replaces its value in place. *)
Lemma dict_update_length_str (d : pydict V) (k : string) (v v' : V) :
  List.length (dict_update (dict_update d (PyStr k) v) (PyStr k) v')
  = List.length (dict_update d (PyStr k) v).
Proof.
  induction d as [|[k0 v0] d IH]; cbn [dict_update].
  - cbn [py_key_eq]. now rewrite String.eqb_refl.
  - destruct (py_key_eq k0 (PyStr k)) eqn:Hk; cbn [dict_update]; rewrite Hk.
    + reflexivity.
    + cbn [List.length]. now rewrite IH.
Qed.

End DictFacts.

Lemma py_get_truthy (data : pyval) (name : string) (v : pyval) :
  py_get data name = Ok v -> py_truthy v = true -> py_truthy data = true.
Proof.
  destruct data as [| | | | | |d]; try discriminate.
  destruct d; [|reflexivity].
  cbn. intros [= <-]. discriminate.
Qed.

Lemma exec_invariant {V Op : Type} (handle : Op -> handler V response)
    (P : pydict V -> Prop) :
  (forall o w, P w.(store) -> P (snd (run (handle o) w)).(store)) ->
  forall ops w, P w.(store) -> P (exec handle ops w).(store).
Proof.
  intros Hstep ops. induction ops as [|o ops IH]; intros w Hw.
  - exact Hw.
  - apply IH, Hstep, Hw.
Qed.


(** ** Routes *)

Lemma served_segment {V} (view : string -> handler V response) (id : string)
    (w : world V) :
  Routes.segment id = true ->
  Routes.served view id w = Some (fst (run (view id) w)).
Proof.
  intros H. unfold Routes.served, Routes.view_for. now rewrite H.
Qed.

(** ** Following a handler along one path *)

Ltac unfold_handler :=
  unfold post_downstream in *;
  unfold run, bind, when, log, emit, lift, respond, pure, get_store,
    set_store in *;
  cbn [store events] in *.

Ltac conj := repeat match goal with |- _ /\ _ => split end.

(** Splits the hypothesis that runs a handler at each test of the handler,
    and drops the paths whose answer is not the one assumed. *)
Ltac follow H :=
  repeat first
    [ discriminate H
    | progress cbv beta iota in H
    | match type of H with
      | context [if ?b then _ else _] => destruct b eqn:?
      | context [match ?x with Ok _ => _ | Raise _ => _ end] => destruct x eqn:?
      | context [match ?x with Some _ => _ | None => _ end] => destruct x eqn:?
      | context [match ?x with Responded _ => _ | Failed => _ end] =>
          destruct x eqn:?
      end ].


(** ** RiskService: what a request does *)

Module RiskFacts.
Import RiskService RiskRule.

Lemma num_compare_int_swap (x : num) (c : Z) :
  num_compare x (NInt c) = option_map CompOpp (num_compare (NInt c) x).
Proof.
  destruct x as [a|f]; cbn [num_compare option_map].
  - now rewrite (Z.compare_antisym c a).
  - reflexivity.
Qed.

Lemma py_gt_int_above (v : pyval) (c : Z) (b : bool) :
  py_gt_int v c = Ok b -> b = above v c.
Proof.
  unfold py_gt_int, above. destruct (as_num v) as [x|]; [|discriminate].
  rewrite (num_compare_int_swap x c).
  destruct (num_compare (NInt c) x) as [[]|]; cbn; congruence.
Qed.

Lemma py_lt_int_below (v : pyval) (c : Z) (b : bool) :
  py_lt_int v c = Ok b -> b = below v c.
Proof.
  unfold py_lt_int, below. destruct (as_num v) as [x|]; congruence.
Qed.

(** The source's [if]/[elif]/[else] computes the rule whenever it returns. *)
Lemma assess_risk_rule (pnl_value quantity : pyval) (risk_level : string) :
  assess_risk pnl_value quantity = Ok risk_level ->
  risk_level = risk_level_rule pnl_value quantity.
Proof.
  unfold assess_risk, risk_level_rule, rbind.
  destruct (py_lt_int pnl_value 0) as [neg|] eqn:Hneg; [|discriminate].
  apply py_lt_int_below in Hneg. rewrite <- Hneg.
  destruct neg; cbn [andb].
  - destruct (py_gt_int quantity 50) as [high|] eqn:Hhigh; [|discriminate].
    apply py_gt_int_above in Hhigh. rewrite <- Hhigh.
    destruct high; [congruence|].
    destruct (py_lt_int pnl_value (-100)) as [med|] eqn:Hmed; [|discriminate].
    apply py_lt_int_below in Hmed. rewrite <- Hmed. destruct med; congruence.
  - destruct (py_lt_int pnl_value (-100)) as [med|] eqn:Hmed; [|discriminate].
    apply py_lt_int_below in Hmed. rewrite <- Hmed. destruct med; congruence.
Qed.

(** On two numbers the classification always returns. *)
Lemma assess_risk_total (pnl_value quantity : pyval) (x y : num) :
  as_num pnl_value = Some x -> as_num quantity = Some y ->
  assess_risk pnl_value quantity = Ok (risk_level_rule pnl_value quantity).
Proof.
  intros Hx Hy.
  destruct (assess_risk pnl_value quantity) as [l|e] eqn:H.
  - now rewrite (assess_risk_rule _ _ _ H).
  - exfalso. revert H. unfold assess_risk, py_lt_int, py_gt_int, rbind.
    rewrite Hx, Hy.
    repeat match goal with
           | |- context [if ?b then _ else _] => destruct b
           end; discriminate.
Qed.

(** The path that answers 200. *)
Lemma assess_trade_risk_200 (E : env) (req : request) (w w' : world pyval)
    (r : response) :
  run (assess_trade_risk E req) w = (Ok r, w') ->
  r.(status) = 200 ->
  exists trade_id pnl_value quantity risk_level,
    py_get req.(get_json) "trade_id" = Ok trade_id /\
    py_get req.(get_json) "pnl_value" = Ok pnl_value /\
    py_get req.(get_json) "quantity" = Ok quantity /\
    assess_risk pnl_value quantity = Ok risk_level /\
    r = {| status := 200;
           body := obj [("trade_id", trade_id);
                        ("risk_level", PyStr risk_level)] |} /\
    dict_setitem w.(store) trade_id (risk_record risk_level pnl_value quantity)
      = Ok w'.(store).
Proof.
  intros H Hs. unfold assess_trade_risk in H. unfold_handler. follow H.
  all: injection H as <- <-; try discriminate Hs.
  do 4 eexists. conj; first [eassumption | reflexivity].
Qed.

(** Every path leaves the store as it was or writes one record, whose
    level is the classification of the two numbers next to it. *)
Lemma assess_trade_risk_store (E : env) (req : request) (w w' : world pyval)
    (res : result response) :
  run (assess_trade_risk E req) w = (res, w') ->
  w'.(store) = w.(store) \/
  exists trade_id pnl_value quantity risk_level,
    assess_risk pnl_value quantity = Ok risk_level /\
    dict_setitem w.(store) trade_id (risk_record risk_level pnl_value quantity)
      = Ok w'.(store).
Proof.
  intros H. unfold assess_trade_risk in H. unfold_handler. follow H.
  all: injection H as <- <-; cbn [store]; auto.
  right. do 4 eexists. split; eassumption.
Qed.

Lemma as_num_not_None (v : pyval) (x : num) :
  as_num v = Some x -> is_None v = false.
Proof. destruct v; (discriminate || reflexivity). Qed.

(** A body with a true, hashable trade_id and numbers for pnl_value and
    quantity is answered 200 and stored when the simulated failure does
    not fire. *)
Lemma assess_trade_risk_accepts (E : env) (req : request) (w : world pyval)
    (trade_id pnl_value quantity : pyval) (x y : num) :
  py_get req.(get_json) "trade_id" = Ok trade_id ->
  py_get req.(get_json) "pnl_value" = Ok pnl_value ->
  py_get req.(get_json) "quantity" = Ok quantity ->
  py_truthy trade_id = true ->
  py_hashable trade_id = true ->
  as_num pnl_value = Some x ->
  as_num quantity = Some y ->
  (E.(random_random) <? 0.03)%float = false ->
  let risk_level := risk_level_rule pnl_value quantity in
  exists w',
    run (assess_trade_risk E req) w
    = (Ok {| status := 200;
             body := obj [("trade_id", trade_id);
                          ("risk_level", PyStr risk_level)] |}, w') /\
    w'.(store)
    = dict_update w.(store) trade_id
        (risk_record risk_level pnl_value quantity).
Proof.
  intros Ht Hp Hq Htrue Hh Hx Hy Hr risk_level.
  pose proof (py_get_truthy _ _ _ Ht Htrue) as Hdata.
  unfold assess_trade_risk. unfold_handler.
  rewrite Hdata, Ht, Hp, Hq. cbn [forallb py_truthy].
  rewrite Htrue, (as_num_not_None _ _ Hx), (as_num_not_None _ _ Hy).
  rewrite (assess_risk_total _ _ _ _ Hx Hy), Hr. unfold dict_setitem.
  rewrite Hh. cbv beta iota. cbn [negb andb].
  eexists. split; reflexivity.
Qed.

End RiskFacts.

(** ** The risk level of a request *)

Module RiskClassification.
Import RiskService RiskRule RiskFacts Samples.

(** C1.  For a request to POST /risk with the fields trade_id, pnl_value
    and quantity, let risk_level be the level of the ordered rules, first
    match wins: HIGH when pnl_value < 0 and quantity > 50, else MEDIUM
    when pnl_value < -100, else LOW.  Whenever the request is answered 200
    (it passed the validation and did not take the simulated failure),
    that risk_level is the one returned and the one stored; and the
    request is answered 200 whenever trade_id is true and hashable, the
    two other fields are numbers and the simulated failure does not fire.
    The three sample classifications are part of the statement, for an
    [int] and for a [float] pnl_value. *)
Theorem risk_level_first_match_wins :
  forall (E : env) (req : request) (w : world pyval)
         (trade_id pnl_value quantity : pyval),
    py_get req.(get_json) "trade_id" = Ok trade_id ->
    py_get req.(get_json) "pnl_value" = Ok pnl_value ->
    py_get req.(get_json) "quantity" = Ok quantity ->
    let risk_level := risk_level_rule pnl_value quantity in
    let answer :=
      {| status := 200;
         body := obj [("trade_id", trade_id);
                      ("risk_level", PyStr risk_level)] |} in
    let record :=
      obj [("risk_level", PyStr risk_level); ("pnl_value", pnl_value);
           ("quantity", quantity)] in
    (forall (r : response) (w' : world pyval),
        run (assess_trade_risk E req) w = (Ok r, w') ->
        r.(status) = 200 ->
        r = answer /\ dict_setitem w.(store) trade_id record = Ok w'.(store)) /\
    (forall x y : num,
        py_truthy trade_id = true ->
        py_hashable trade_id = true ->
        as_num pnl_value = Some x ->
        as_num quantity = Some y ->
        (E.(random_random) <? 0.03)%float = false ->
        exists w',
          run (assess_trade_risk E req) w = (Ok answer, w') /\
          w'.(store) = dict_update w.(store) trade_id record) /\
    assess_risk (PyInt (-50)) (PyInt 60) = Ok "HIGH" /\
    assess_risk (PyInt (-150)) (PyInt 10) = Ok "MEDIUM" /\
    assess_risk (PyInt 10) (PyInt 1000) = Ok "LOW" /\
    assess_risk (PyFloat (-50)) (PyInt 60) = Ok "HIGH" /\
    assess_risk (PyFloat (-150)) (PyInt 10) = Ok "MEDIUM" /\
    assess_risk (PyFloat 10) (PyInt 1000) = Ok "LOW".
Proof.
  intros E req w tid p q Ht Hp Hq risk_level answer record. split; [|split].
  - intros r w' H Hs.
    destruct (assess_trade_risk_200 E req w w' r H Hs)
      as (tid' & p' & q' & l & Ht' & Hp' & Hq' & Hl & -> & Hset).
    rewrite Ht in Ht'. injection Ht' as <-.
    rewrite Hp in Hp'. injection Hp' as <-.
    rewrite Hq in Hq'. injection Hq' as <-.
    apply assess_risk_rule in Hl. subst l. split; [reflexivity | exact Hset].
  - intros x y Htrue Hh Hx Hy Hr.
    exact (assess_trade_risk_accepts E req w tid p q x y Ht Hp Hq Htrue Hh
             Hx Hy Hr).
  - conj; vm_compute; reflexivity.
Qed.

Lemma risk_level_first_match_wins_witness :
  py_get (risk_request "T1" (PyFloat (-50)) (PyInt 60)).(get_json) "trade_id"
  = Ok (PyStr "T1") /\
  py_get (risk_request "T1" (PyFloat (-50)) (PyInt 60)).(get_json) "pnl_value"
  = Ok (PyFloat (-50)) /\
  py_get (risk_request "T1" (PyFloat (-50)) (PyInt 60)).(get_json) "quantity"
  = Ok (PyInt 60) /\
  exists w',
    run (assess_trade_risk quiet_env
           (risk_request "T1" (PyFloat (-50)) (PyInt 60))) started
    = (Ok high_answer, w') /\
    w'.(store) = high_world.(store).
Proof.
  split; [reflexivity | split; [reflexivity | split; [reflexivity |]]].
  exact (proj1 (proj2 (risk_level_first_match_wins quiet_env
                         (risk_request "T1" (PyFloat (-50)) (PyInt 60))
                         started (PyStr "T1") (PyFloat (-50)) (PyInt 60)
                         eq_refl eq_refl eq_refl))
           (NFloat (-50)) (NInt 60) eq_refl eq_refl eq_refl eq_refl eq_refl).
Defined.

End RiskClassification.

(** ** PnLService: what a request does *)

Module PnLFacts.
Import PnLService CostBasis.

Lemma py_key_eq_str (a : string) (b : pyval) :
  py_key_eq (PyStr a) b
  = match b with PyStr t => (a =? t)%string | _ => false end.
Proof. destruct b; reflexivity. Qed.

Lemma base_costs_lookup (symbol : pyval) (c : float) :
  dict_get base_costs symbol 90%float = Ok c -> c = cost_lookup symbol.
Proof.
  unfold dict_get, base_costs, dict_find. rewrite !py_key_eq_str.
  destruct symbol; cbn [py_hashable cost_lookup]; try discriminate;
    try (intros [= <-]; reflexivity).
  rewrite (String.eqb_sym s "AAPL"), (String.eqb_sym s "GOOGL"),
    (String.eqb_sym s "MSFT").
  destruct ("AAPL" =? s)%string; [intros [= <-]; reflexivity|].
  destruct ("GOOGL" =? s)%string; [intros [= <-]; reflexivity|].
  destruct ("MSFT" =? s)%string; intros [= <-]; reflexivity.
Qed.

Lemma py_sub_float_inv (v : pyval) (c d : float) :
  py_sub_float v c = Ok d -> exists p, to_float v = Ok p /\ d = (p - c)%float.
Proof.
  unfold py_sub_float, rbind. destruct (to_float v) as [p|]; [|discriminate].
  intros [= <-]. now exists p.
Qed.

Lemma py_float_mul_inv (f : float) (v : pyval) (d : float) :
  py_float_mul f v = Ok d -> exists q, to_float v = Ok q /\ d = (f * q)%float.
Proof.
  unfold py_float_mul, rbind. destruct (to_float v) as [q|]; [|discriminate].
  intros [= <-]. now exists q.
Qed.

(** The path that answers 200. *)
Lemma compute_pnl_200 (E : env) (req : request) (w w' : world pyval)
    (r : response) :
  run (compute_pnl E req) w = (Ok r, w') ->
  r.(status) = 200 ->
  exists trade_id symbol price quantity p q,
    py_get req.(get_json) "trade_id" = Ok trade_id /\
    py_get req.(get_json) "symbol" = Ok symbol /\
    py_get req.(get_json) "price" = Ok price /\
    py_get req.(get_json) "quantity" = Ok quantity /\
    to_float price = Ok p /\
    to_float quantity = Ok q /\
    let cost := cost_lookup symbol in
    let pnl_value := ((p - cost) * q)%float in
    r = {| status := 200;
           body := obj [("trade_id", trade_id);
                        ("pnl_value", PyFloat pnl_value)] |} /\
    dict_setitem w.(store) trade_id
      (pnl_record pnl_value symbol price quantity cost) = Ok w'.(store).
Proof.
  intros H Hs. unfold compute_pnl in H. unfold_handler. follow H.
  all: injection H as <- <-; try discriminate Hs.
  all: match goal with
       | Hc : dict_get base_costs _ _ = Ok _ |- _ =>
           apply base_costs_lookup in Hc; subst
       end.
  all: match goal with
       | Hd : py_sub_float _ _ = Ok _ |- _ =>
           apply py_sub_float_inv in Hd; destruct Hd as (p & Hp & ->)
       end.
  all: match goal with
       | Hm : py_float_mul _ _ = Ok _ |- _ =>
           apply py_float_mul_inv in Hm; destruct Hm as (q & Hq & ->)
       end.
  all: do 4 eexists; exists p, q; cbv zeta; cbn [store];
    conj; try eassumption; reflexivity.
Qed.

Lemma base_costs_lookup_hashable (symbol : pyval) :
  py_hashable symbol = true ->
  dict_get base_costs symbol 90%float = Ok (cost_lookup symbol).
Proof.
  intros Hh. destruct (dict_get base_costs symbol 90%float) as [c|e] eqn:Hc.
  - now rewrite (base_costs_lookup _ _ Hc).
  - unfold dict_get in Hc. now rewrite Hh in Hc.
Qed.

(** A body with four true fields, numbers for price and quantity and
    hashable trade_id and symbol is answered 200 and stored when the
    simulated failure does not fire, whatever the next service does. *)
Lemma compute_pnl_accepts (E : env) (req : request) (w : world pyval)
    (trade_id symbol price quantity : pyval) (p q : float) :
  py_get req.(get_json) "trade_id" = Ok trade_id ->
  py_get req.(get_json) "symbol" = Ok symbol ->
  py_get req.(get_json) "price" = Ok price ->
  py_get req.(get_json) "quantity" = Ok quantity ->
  forallb py_truthy [trade_id; symbol; price; quantity] = true ->
  py_hashable trade_id = true ->
  py_hashable symbol = true ->
  to_float price = Ok p ->
  to_float quantity = Ok q ->
  (E.(random_random) <? 0.05)%float = false ->
  let cost := cost_lookup symbol in
  let pnl_value := ((p - cost) * q)%float in
  exists w',
    run (compute_pnl E req) w
    = (Ok {| status := 200;
             body := obj [("trade_id", trade_id);
                          ("pnl_value", PyFloat pnl_value)] |}, w') /\
    w'.(store)
    = dict_update w.(store) trade_id
        (pnl_record pnl_value symbol price quantity cost).
Proof.
  intros Ht Hs Hp Hq Hall Hht Hhs Hfp Hfq Hr cost pnl_value.
  assert (Hdata : py_truthy req.(get_json) = true).
  { apply (py_get_truthy _ _ _ Ht). cbn [forallb] in Hall.
    now apply andb_prop in Hall. }
  unfold compute_pnl. unfold_handler.
  rewrite Hdata, Ht, Hs, Hp, Hq, Hall, (base_costs_lookup_hashable _ Hhs).
  unfold py_sub_float, py_float_mul, rbind, dict_setitem.
  rewrite Hfp, Hfq, Hr, Hht. cbv beta iota. cbn [negb].
  destruct (requests_post E _) as [sc|]; [destruct (sc =? 200)|];
    eexists; split; reflexivity.
Qed.

(** The same body is answered 500 and nothing is stored when the
    simulated failure fires. *)
Lemma compute_pnl_fails (E : env) (req : request) (w : world pyval)
    (trade_id symbol price quantity : pyval) (p q : float) :
  py_get req.(get_json) "trade_id" = Ok trade_id ->
  py_get req.(get_json) "symbol" = Ok symbol ->
  py_get req.(get_json) "price" = Ok price ->
  py_get req.(get_json) "quantity" = Ok quantity ->
  forallb py_truthy [trade_id; symbol; price; quantity] = true ->
  py_hashable symbol = true ->
  to_float price = Ok p ->
  to_float quantity = Ok q ->
  (E.(random_random) <? 0.05)%float = true ->
  exists w',
    run (compute_pnl E req) w
    = (Ok {| status := 500;
             body := obj [("error", PyStr "Data inconsistency")] |}, w') /\
    w'.(store) = w.(store).
Proof.
  intros Ht Hs Hp Hq Hall Hhs Hfp Hfq Hr.
  assert (Hdata : py_truthy req.(get_json) = true).
  { apply (py_get_truthy _ _ _ Ht). cbn [forallb] in Hall.
    now apply andb_prop in Hall. }
  unfold compute_pnl. unfold_handler.
  rewrite Hdata, Ht, Hs, Hp, Hq, Hall, (base_costs_lookup_hashable _ Hhs).
  unfold py_sub_float, py_float_mul, rbind.
  rewrite Hfp, Hfq, Hr. cbv beta iota. cbn [negb].
  eexists. split; reflexivity.
Qed.

End PnLFacts.

(** ** The P&L of a request *)

Module PnLValue.
Import PnLService CostBasis PnLFacts Samples.

(** C2.  For a request to POST /pnl with the fields trade_id, symbol,
    price and quantity, let cost be 140.0 for AAPL, 2700.0 for GOOGL,
    280.0 for MSFT and 90.0 for any other symbol.  Whenever the request is
    answered 200, price and quantity are numbers and the pnl_value
    returned and stored is (price - cost) * quantity, in Python's float
    arithmetic; and the request is answered 200 whenever the four fields
    are true, price and quantity are numbers within the range of a float,
    trade_id and symbol are hashable and the simulated failure does not
    fire.  For AAPL at price 150 and quantity 10 the pnl_value is 100.0. *)
Theorem pnl_value_is_price_minus_cost_times_quantity :
  forall (E : env) (req : request) (w : world pyval)
         (trade_id symbol price quantity : pyval),
    py_get req.(get_json) "trade_id" = Ok trade_id ->
    py_get req.(get_json) "symbol" = Ok symbol ->
    py_get req.(get_json) "price" = Ok price ->
    py_get req.(get_json) "quantity" = Ok quantity ->
    let cost := cost_lookup symbol in
    let answer (pnl_value : float) :=
      {| status := 200;
         body := obj [("trade_id", trade_id);
                      ("pnl_value", PyFloat pnl_value)] |} in
    let record (pnl_value : float) :=
      obj [("pnl_value", PyFloat pnl_value); ("symbol", symbol);
           ("price", price); ("quantity", quantity);
           ("cost", PyFloat cost)] in
    (forall (r : response) (w' : world pyval),
        run (compute_pnl E req) w = (Ok r, w') ->
        r.(status) = 200 ->
        exists p q : float,
          to_float price = Ok p /\
          to_float quantity = Ok q /\
          r = answer ((p - cost) * q)%float /\
          dict_setitem w.(store) trade_id (record ((p - cost) * q)%float)
          = Ok w'.(store)) /\
    (forall p q : float,
        forallb py_truthy [trade_id; symbol; price; quantity] = true ->
        py_hashable trade_id = true ->
        py_hashable symbol = true ->
        to_float price = Ok p ->
        to_float quantity = Ok q ->
        (E.(random_random) <? 0.05)%float = false ->
        exists w',
          run (compute_pnl E req) w
          = (Ok (answer ((p - cost) * q)%float), w') /\
          w'.(store)
          = dict_update w.(store) trade_id (record ((p - cost) * q)%float)) /\
    cost_lookup (PyStr "AAPL") = 140%float /\
    to_float (PyInt 150) = Ok 150%float /\
    to_float (PyInt 10) = Ok 10%float /\
    ((150 - 140) * 10)%float = 100%float.
Proof.
  intros E req w tid sym price qty Ht Hs Hp Hq cost answer record.
  split; [|split].
  - intros r w' H Hst.
    destruct (compute_pnl_200 E req w w' r H Hst)
      as (tid' & sym' & price' & qty' & p & q & Ht' & Hs' & Hp' & Hq' & Hfp
          & Hfq & -> & Hset).
    rewrite Ht in Ht'. injection Ht' as <-.
    rewrite Hs in Hs'. injection Hs' as <-.
    rewrite Hp in Hp'. injection Hp' as <-.
    rewrite Hq in Hq'. injection Hq' as <-.
    exists p, q. conj; first [assumption | reflexivity | exact Hset].
  - intros p q Hall Hht Hhs Hfp Hfq Hr.
    exact (compute_pnl_accepts E req w tid sym price qty p q Ht Hs Hp Hq
             Hall Hht Hhs Hfp Hfq Hr).
  - conj; reflexivity.
Qed.

Lemma pnl_value_is_price_minus_cost_times_quantity_witness :
  py_get (pnl_request "T1" "AAPL" (PyInt 150) (PyInt 10)).(get_json) "symbol"
  = Ok (PyStr "AAPL") /\
  py_get (pnl_request "T1" "AAPL" (PyInt 150) (PyInt 10)).(get_json) "price"
  = Ok (PyInt 150) /\
  py_get (pnl_request "T1" "AAPL" (PyInt 150) (PyInt 10)).(get_json)
    "quantity" = Ok (PyInt 10) /\
  exists w',
    run (compute_pnl quiet_env
           (pnl_request "T1" "AAPL" (PyInt 150) (PyInt 10))) started
    = (Ok aapl_answer, w') /\
    w'.(store) = aapl_world.(store).
Proof.
  split; [reflexivity | split; [reflexivity | split; [reflexivity |]]].
  exact (proj1 (proj2 (pnl_value_is_price_minus_cost_times_quantity
                         quiet_env
                         (pnl_request "T1" "AAPL" (PyInt 150) (PyInt 10))
                         started (PyStr "T1") (PyStr "AAPL") (PyInt 150)
                         (PyInt 10) eq_refl eq_refl eq_refl eq_refl))
           150%float 10%float eq_refl eq_refl eq_refl eq_refl eq_refl
           eq_refl).
Defined.

(** C3.  When POST /pnl answers 500, it is the simulated data
    inconsistency: pnl_value has been computed and the store is exactly
    what it was, no record is written or modified.  And a valid request
    does take that path when the draw is below 0.05. *)
Theorem data_inconsistency_leaves_store_unchanged :
  forall (E : env) (req : request) (w : world pyval),
    (forall (r : response) (w' : world pyval),
        run (compute_pnl E req) w = (Ok r, w') ->
        r.(status) = 500 ->
        w'.(store) = w.(store) /\
        r.(body) = obj [("error", PyStr "Data inconsistency")] /\
        (E.(random_random) <? 0.05)%float = true /\
        exists symbol price quantity p q,
          py_get req.(get_json) "symbol" = Ok symbol /\
          py_get req.(get_json) "price" = Ok price /\
          py_get req.(get_json) "quantity" = Ok quantity /\
          to_float price = Ok p /\
          to_float quantity = Ok q /\
          py_float_mul (p - cost_lookup symbol) quantity
          = Ok ((p - cost_lookup symbol) * q)%float) /\
    (forall (trade_id symbol price quantity : pyval) (p q : float),
        py_get req.(get_json) "trade_id" = Ok trade_id ->
        py_get req.(get_json) "symbol" = Ok symbol ->
        py_get req.(get_json) "price" = Ok price ->
        py_get req.(get_json) "quantity" = Ok quantity ->
        forallb py_truthy [trade_id; symbol; price; quantity] = true ->
        py_hashable symbol = true ->
        to_float price = Ok p ->
        to_float quantity = Ok q ->
        (E.(random_random) <? 0.05)%float = true ->
        exists w',
          run (compute_pnl E req) w
          = (Ok {| status := 500;
                   body := obj [("error", PyStr "Data inconsistency")] |}, w')
          /\ w'.(store) = w.(store)).
Proof.
  intros E req w. split.
  - intros r w' H Hs. unfold compute_pnl in H. unfold_handler.
    follow H.
    all: injection H as <- <-; try discriminate Hs.
    match goal with
    | Hc : dict_get base_costs _ _ = Ok _ |- _ =>
        apply base_costs_lookup in Hc; subst
    end.
    match goal with
    | Hd : py_sub_float _ _ = Ok _ |- _ =>
        apply py_sub_float_inv in Hd; destruct Hd as (p & Hp & ->)
    end.
    match goal with
    | Hm : py_float_mul _ _ = Ok _ |- _ =>
        pose proof Hm as Hm'; apply py_float_mul_inv in Hm';
        destruct Hm' as (q & Hq & ->)
    end.
    cbn [store body]. conj; try reflexivity.
    do 3 eexists. exists p, q. conj; first [reflexivity | eassumption].
  - intros tid sym price qty p q. apply compute_pnl_fails.
Qed.

Lemma data_inconsistency_leaves_store_unchanged_witness :
  (failing_env.(random_random) <? 0.05)%float = true /\
  exists w',
    run (compute_pnl failing_env
           (pnl_request "T1" "AAPL" (PyInt 170) (PyInt 3))) aapl_world
    = (Ok inconsistency_answer, w') /\
    w'.(store) = aapl_world.(store).
Proof.
  split; [reflexivity|].
  exact (proj2 (data_inconsistency_leaves_store_unchanged failing_env
                  (pnl_request "T1" "AAPL" (PyInt 170) (PyInt 3)) aapl_world)
           (PyStr "T1") (PyStr "AAPL") (PyInt 170) (PyInt 3) 170%float 3%float
           eq_refl eq_refl eq_refl eq_refl eq_refl eq_refl eq_refl eq_refl
           eq_refl).
Defined.

End PnLValue.

(** ** TradeService: what a request does *)

Module TradeFacts.
Import TradeService.

(** A body with five true fields and a hashable trade_id is answered 201
    and stored, whatever the environment. *)
Lemma create_trade_accepts (E : env) (req : request) (w : world Trade)
    (trade_id symbol quantity price trade_type : pyval) :
  py_get req.(get_json) "trade_id" = Ok trade_id ->
  py_get req.(get_json) "symbol" = Ok symbol ->
  py_get req.(get_json) "quantity" = Ok quantity ->
  py_get req.(get_json) "price" = Ok price ->
  py_get req.(get_json) "trade_type" = Ok trade_type ->
  forallb py_truthy [trade_id; symbol; quantity; price; trade_type] = true ->
  py_hashable trade_id = true ->
  exists w',
    run (create_trade E req) w
    = (Ok {| status := 201;
             body := obj [("message", PyStr "Trade created");
                          ("trade_id", trade_id)] |}, w') /\
    w'.(store)
    = dict_update w.(store) trade_id
        (create_trade_object E trade_id symbol quantity price trade_type).
Proof.
  intros Ht Hs Hq Hp Hty Hall Hh.
  assert (Hdata : py_truthy req.(get_json) = true).
  { apply (py_get_truthy _ _ _ Ht). cbn [forallb] in Hall.
    now apply andb_prop in Hall. }
  unfold create_trade. unfold_handler.
  rewrite Hdata, Ht, Hs, Hq, Hp, Hty, Hall. unfold dict_setitem.
  rewrite Hh. cbv beta iota. cbn [negb].
  destruct (requests_post E _) as [sc|]; [destruct (sc =? 200)|];
    eexists; split; reflexivity.
Qed.

(** Every path leaves the store as it was or assigns one trade, whose
    five fields are true. *)
Lemma create_trade_store (E : env) (req : request) (w w' : world Trade)
    (res : result response) :
  run (create_trade E req) w = (res, w') ->
  w'.(store) = w.(store) \/
  exists trade_id symbol quantity price trade_type,
    forallb py_truthy [trade_id; symbol; quantity; price; trade_type] = true /\
    w'.(store)
    = dict_update w.(store) trade_id
        (create_trade_object E trade_id symbol quantity price trade_type).
Proof.
  intros H. unfold create_trade in H. unfold_handler. follow H.
  all: injection H as <- <-; cbn [store]; auto.
  all: right; do 5 eexists; split;
    [ match goal with
      | Hv : negb (forallb _ _) = false |- _ =>
          apply negb_false_iff in Hv; exact Hv
      end
    | match goal with
      | Hd : dict_setitem _ _ _ = Ok _ |- _ =>
          unfold dict_setitem in Hd;
          destruct (py_hashable _); [now injection Hd as <-|discriminate]
      end ].
Qed.

Lemma get_trade_store (E : env) (x : option string) (tid : string)
    (w : world Trade) :
  (snd (run (get_trade E x tid) w)).(store) = w.(store).
Proof.
  unfold get_trade. unfold_handler.
  destruct (dict_find _ _); reflexivity.
Qed.

Lemma get_trade_found (E : env) (x : option string) (tid : string)
    (w : world Trade) (t : Trade) :
  dict_find w.(store) (PyStr tid) = Some t ->
  fst (run (get_trade E x tid) w)
  = Ok {| status := 200;
          body := obj [("trade_id", t.(trade_id)); ("symbol", t.(symbol));
                       ("quantity", t.(quantity)); ("price", t.(price));
                       ("trade_type", t.(trade_type));
                       ("timestamp", PyStr t.(timestamp))] |}.
Proof.
  intros Hf. unfold get_trade. unfold_handler. now rewrite Hf.
Qed.

End TradeFacts.

(** ** The trade store *)

Module TradeStore.
Import TradeService TradeOps Downstream TradeFacts Routes Samples Scenarios.

(** C4.  A POST /trades whose five fields are true, with for trade_id a
    string that is one path segment (not empty, no slash), is accepted,
    and a GET /trades/{trade_id} that follows reaches [get_trade] and
    returns the submitted symbol, quantity, price and trade_type with the
    timestamp the server read from its clock at the POST. *)
Theorem get_after_create_round_trip :
  forall (E : env) (req : request) (w : world Trade) (tid : string)
         (symbol quantity price trade_type : pyval),
    py_get req.(get_json) "trade_id" = Ok (PyStr tid) ->
    py_get req.(get_json) "symbol" = Ok symbol ->
    py_get req.(get_json) "quantity" = Ok quantity ->
    py_get req.(get_json) "price" = Ok price ->
    py_get req.(get_json) "trade_type" = Ok trade_type ->
    forallb py_truthy [PyStr tid; symbol; quantity; price; trade_type]
      = true ->
    segment tid = true ->
    exists w',
      run (create_trade E req) w
      = (Ok {| status := 201;
               body := obj [("message", PyStr "Trade created");
                            ("trade_id", PyStr tid)] |}, w') /\
      forall (E' : env) (x : option string),
        served (get_trade E' x) tid w'
        = Some (Ok {| status := 200;
                      body := obj [("trade_id", PyStr tid);
                                   ("symbol", symbol);
                                   ("quantity", quantity); ("price", price);
                                   ("trade_type", trade_type);
                                   ("timestamp",
                                    PyStr E.(now_isoformat))] |}).
Proof.
  intros E req w tid sym q p ty Ht Hs Hq Hp Hty Hall Hseg.
  destruct (create_trade_accepts E req w _ _ _ _ _ Ht Hs Hq Hp Hty Hall
              eq_refl) as (w' & Hrun & Hstore).
  exists w'. split; [exact Hrun|].
  intros E' x. rewrite (served_segment _ _ _ Hseg). f_equal.
  rewrite (get_trade_found E' x tid w'
             (create_trade_object E (PyStr tid) sym q p ty)).
  - reflexivity.
  - rewrite Hstore. apply dict_find_update_str.
Qed.

Lemma get_after_create_round_trip_witness :
  forallb py_truthy
    [PyStr "T1"; PyStr "AAPL"; PyInt 10; PyFloat 150.5; PyStr "buy"] = true /\
  segment "T1" = true /\
  exists w',
    run (create_trade quiet_env
           (trade_request "T1" (PyStr "AAPL") (PyInt 10) (PyFloat 150.5)
              (PyStr "buy"))) started
    = (Ok {| status := 201;
             body := obj [("message", PyStr "Trade created");
                          ("trade_id", PyStr "T1")] |}, w') /\
    forall (E' : env) (x : option string),
      served (get_trade E' x) "T1" w'
      = Some (Ok {| status := 200;
                    body := obj [("trade_id", PyStr "T1");
                                 ("symbol", PyStr "AAPL");
                                 ("quantity", PyInt 10);
                                 ("price", PyFloat 150.5);
                                 ("trade_type", PyStr "buy");
                                 ("timestamp",
                                  PyStr quiet_env.(now_isoformat))] |}).
Proof.
  split; [vm_compute; reflexivity|]. split; [reflexivity|].
  refine (get_after_create_round_trip quiet_env
           (trade_request "T1" (PyStr "AAPL") (PyInt 10) (PyFloat 150.5)
              (PyStr "buy")) started "T1" (PyStr "AAPL") (PyInt 10)
           (PyFloat 150.5) (PyStr "buy") _ _ _ _ _ _ _);
    vm_compute; reflexivity.
Defined.

(** C4, as the claim words it, fails.  A body whose trade_id is the
    number 5 has five true fields and is answered 201, but the trade is
    stored under the number, and GET /trades/5, whose id is the text "5",
    answers 404.  A body whose trade_id is "a/b" is answered 201 and
    stored, and no GET reaches it: /trades/a/b matches no route. *)
Lemma accepted_trade_is_not_returned :
  forallb py_truthy
    [PyInt 5; PyStr "AAPL"; PyInt 10; PyFloat 150; PyStr "buy"] = true /\
  fst (run (create_trade quiet_env numbered_request) started)
  = Ok {| status := 201;
          body := obj [("message", PyStr "Trade created");
                       ("trade_id", PyInt 5)] |} /\
  served (get_trade quiet_env None) "5"
    (snd (run (create_trade quiet_env numbered_request) started))
  = Some (Ok {| status := 404;
                body := obj [("error", PyStr "Trade not found")] |}) /\
  fst (run (create_trade quiet_env slashed_request) started)
  = Ok {| status := 201;
          body := obj [("message", PyStr "Trade created");
                       ("trade_id", PyStr "a/b")] |} /\
  map fst (snd (run (create_trade quiet_env slashed_request) started)).(store)
  = [PyStr "a/b"] /\
  served (get_trade quiet_env None) "a/b"
    (snd (run (create_trade quiet_env slashed_request) started))
  = None.
Proof. conj; vm_compute; reflexivity. Qed.

(** The call to PricingService decides nothing of the answer or of the
    store, on any request. *)
Lemma create_trade_ignores_downstream (E : env) (post : call -> post_result)
    (req : request) (w : world Trade) :
  fst (run (create_trade (with_requests_post E post) req) w)
  = fst (run (create_trade E req) w) /\
  (snd (run (create_trade (with_requests_post E post) req) w)).(store)
  = (snd (run (create_trade E req) w)).(store).
Proof.
  unfold create_trade, create_trade_object, with_requests_post, trace_id_of.
  unfold_handler. cbn [uuid4 now_isoformat requests_post].
  repeat first
    [ progress cbv beta iota
    | match goal with
      | |- context [if negb ?b then _ else _] => destruct b; cbn [negb]
      | |- context [match ?x with Ok _ => _ | Raise _ => _ end] => destruct x
      end ].
  all: try (split; reflexivity).
  all: destruct (post _) as [sc|]; [destruct (sc =? 200)|];
    (destruct (requests_post E _) as [sc'|]; [destruct (sc' =? 200)|]);
    split; reflexivity.
Qed.

(** C6.  A POST /trades that passes the validation (five true fields)
    and whose trade_id is hashable (any value but a list or an object) is
    answered 201 with the submitted trade_id and the trade is stored,
    whatever [requests.post] does: an exception or a status other than
    200 changes neither the answer nor the store. *)
Theorem downstream_outcome_never_changes_answer :
  forall (E : env) (req : request) (w : world Trade)
         (trade_id symbol quantity price trade_type : pyval),
    py_get req.(get_json) "trade_id" = Ok trade_id ->
    py_get req.(get_json) "symbol" = Ok symbol ->
    py_get req.(get_json) "quantity" = Ok quantity ->
    py_get req.(get_json) "price" = Ok price ->
    py_get req.(get_json) "trade_type" = Ok trade_type ->
    forallb py_truthy [trade_id; symbol; quantity; price; trade_type]
      = true ->
    py_hashable trade_id = true ->
    forall post : call -> post_result,
      let answer :=
        {| status := 201;
           body := obj [("message", PyStr "Trade created");
                        ("trade_id", trade_id)] |} in
      let stored :=
        {| TradeService.trade_id := trade_id;
           TradeService.symbol := symbol;
           TradeService.quantity := quantity;
           TradeService.price := price;
           TradeService.trade_type := trade_type;
           timestamp := E.(now_isoformat) |} in
      fst (run (create_trade (with_requests_post E post) req) w) = Ok answer /\
      (snd (run (create_trade (with_requests_post E post) req) w)).(store)
      = dict_update w.(store) trade_id stored /\
      In stored
        (map snd (snd (run (create_trade (with_requests_post E post) req) w))
                   .(store)).
Proof.
  intros E req w tid sym q p ty Ht Hs Hq Hp Hty Hall Hh post answer stored.
  destruct (create_trade_accepts (with_requests_post E post) req w
              _ _ _ _ _ Ht Hs Hq Hp Hty Hall Hh) as (w' & Hrun & Hstore).
  rewrite Hrun. cbn [fst snd]. rewrite Hstore. conj; try reflexivity.
  apply dict_update_In.
Qed.

Lemma downstream_outcome_never_changes_answer_witness :
  let req :=
    trade_request "T1" (PyStr "AAPL") (PyInt 10) (PyFloat 150.5)
      (PyStr "buy") in
  forallb py_truthy
    [PyStr "T1"; PyStr "AAPL"; PyInt 10; PyFloat 150.5; PyStr "buy"] = true /\
  py_hashable (PyStr "T1") = true /\
  fst (run (create_trade (with_requests_post quiet_env unreachable) req)
         started)
  = Ok {| status := 201;
          body := obj [("message", PyStr "Trade created");
                       ("trade_id", PyStr "T1")] |}.
Proof.
  cbv zeta. split; [reflexivity | split; [reflexivity |]].
  exact (proj1 (downstream_outcome_never_changes_answer quiet_env
                  (trade_request "T1" (PyStr "AAPL") (PyInt 10)
                     (PyFloat 150.5) (PyStr "buy"))
                  started (PyStr "T1") (PyStr "AAPL") (PyInt 10)
                  (PyFloat 150.5) (PyStr "buy")
                  eq_refl eq_refl eq_refl eq_refl eq_refl eq_refl eq_refl
                  unreachable)).
Defined.

(** C6, as the claim words it, fails.  A body whose trade_id is the list
    ["T1"] passes the validation (its five fields are true), and the
    assignment [trades[trade_id] = trade] raises [TypeError]: the request
    is answered 500, not 201, and nothing is stored, before any call to
    the pricing service. *)
Lemma validated_list_id_raises :
  py_get listed_request.(get_json) "trade_id" = Ok (PyList [PyStr "T1"]) /\
  forallb py_truthy
    [PyList [PyStr "T1"]; PyStr "AAPL"; PyInt 10; PyFloat 150; PyStr "buy"]
  = true /\
  fst (run (create_trade quiet_env listed_request) started) = Raise TypeError /\
  (snd (run (create_trade quiet_env listed_request) started)).(store) = [] /\
  calls (snd (run (create_trade quiet_env listed_request) started)).(events)
  = [].
Proof. conj; vm_compute; reflexivity. Qed.

(** C9, as the claim words it, fails: the quantity -5 is not greater than
    0, the request is answered 201, the trade is in the store with that
    quantity and a GET returns it. *)
Lemma negative_quantity_is_stored :
  py_gt_int (PyInt (-5)) 0 = Ok false /\
  fst (run (create_trade quiet_env negative_request) started)
  = Ok {| status := 201;
          body := obj [("message", PyStr "Trade created");
                       ("trade_id", PyStr "T9")] |} /\
  (snd (run (create_trade quiet_env negative_request) started)).(store)
  = [(PyStr "T9", negative_trade)] /\
  fst (run (get_trade quiet_env None "T9")
         (snd (run (create_trade quiet_env negative_request) started)))
  = Ok {| status := 200;
          body := obj [("trade_id", PyStr "T9"); ("symbol", PyStr "AAPL");
                       ("quantity", PyInt (-5)); ("price", PyFloat 150);
                       ("trade_type", PyStr "sell");
                       ("timestamp", PyStr "2024-01-01T00:00:00")] |}.
Proof. conj; vm_compute; reflexivity. Qed.

Lemma py_get_dict (d : list (pyval * pyval)) (name : string) :
  exists v, py_get (PyDict d) name = Ok v.
Proof. cbn [py_get]. unfold dict_get. cbn [py_hashable]. eauto. Qed.

(** A body whose quantity is false (0, 0.0, false, null or absent, an
    empty string, list or object) is answered 400 and nothing is stored. *)
Lemma create_trade_rejects_false_quantity (E : env) (req : request)
    (w : world Trade) (quantity : pyval) :
  py_get req.(get_json) "quantity" = Ok quantity ->
  py_truthy quantity = false ->
  exists r w',
    run (create_trade E req) w = (Ok r, w') /\
    r.(status) = 400 /\
    w'.(store) = w.(store).
Proof.
  intros Hq Hfalse.
  destruct (get_json req) as [| | | | | |d] eqn:Hdata; try discriminate Hq.
  destruct (py_get_dict d "trade_id") as (tid & Ht).
  destruct (py_get_dict d "symbol") as (sym & Hs).
  destruct (py_get_dict d "price") as (p & Hp).
  destruct (py_get_dict d "trade_type") as (ty & Hty).
  unfold create_trade. unfold_handler. rewrite Hdata.
  destruct (py_truthy (PyDict d)); cbn [negb]; cbv beta iota.
  - rewrite Ht, Hs, Hq, Hp, Hty. cbv beta iota.
    cbn [forallb]. rewrite Hfalse. cbn [andb]. rewrite !andb_false_r.
    cbn [negb]. cbv beta iota. eauto.
  - eauto.
Qed.

(** C9, as the code has it.  Every trade in the store of a service that
    started empty has a true quantity (a number other than 0 when it is a
    number, of either sign), and a POST /trades whose quantity is false is
    answered 400 and stores nothing. *)
Theorem stored_quantity_is_truthy :
  forall (E : env) (req : request) (w : world Trade) (quantity : pyval),
    py_get req.(get_json) "quantity" = Ok quantity ->
    py_truthy quantity = false ->
    (exists r w',
        run (create_trade E req) w = (Ok r, w') /\
        r.(status) = 400 /\
        w'.(store) = w.(store)) /\
    (forall ops : list op,
        Forall (fun kt => py_truthy (snd kt).(TradeService.quantity) = true)
          (exec handle ops started).(store)).
Proof.
  intros E req w quantity Hq Hfalse. split.
  - exact (create_trade_rejects_false_quantity E req w quantity Hq Hfalse).
  - intros ops.
    apply (exec_invariant handle
             (Forall (fun kt =>
                        py_truthy (snd kt).(TradeService.quantity) = true)));
      [|constructor].
    intros [E1 req1|E1 x tid] w1 Hinv; cbn [handle].
    + destruct (run (create_trade E1 req1) w1) as [res w1'] eqn:Hrun.
      cbn [snd].
      destruct (create_trade_store E1 req1 w1 w1' res Hrun)
        as [->|(t & s0 & q0 & p0 & ty0 & Hall & ->)]; [exact Hinv|].
      apply (dict_update_values
               (fun t => py_truthy t.(TradeService.quantity) = true));
        [exact Hinv|].
      cbn [forallb] in Hall. cbn [create_trade_object TradeService.quantity].
      destruct (py_truthy t), (py_truthy s0), (py_truthy q0);
        try discriminate Hall; reflexivity.
    + rewrite get_trade_store. exact Hinv.
Qed.

Lemma stored_quantity_is_truthy_witness :
  py_get zero_request.(get_json) "quantity" = Ok (PyInt 0) /\
  py_truthy (PyInt 0) = false /\
  exists r w',
    run (create_trade quiet_env zero_request) started = (Ok r, w') /\
    r.(status) = 400 /\
    w'.(store) = [].
Proof.
  split; [reflexivity | split; [reflexivity |]].
  exact (proj1 (stored_quantity_is_truthy quiet_env zero_request started
                  (PyInt 0) eq_refl eq_refl)).
Defined.

End TradeStore.

(** ** Last write wins *)

Module Overwrite.
Import PnLService RiskService RiskRule CostBasis PnLFacts RiskFacts Routes
  Samples Scenarios.

Lemma get_pnl_found (E : env) (x : option string) (tid : string)
    (w : world pyval) (record : pyval) :
  dict_find w.(store) (PyStr tid) = Some record ->
  py_truthy record = true ->
  fst (run (get_pnl E x tid) w) = Ok {| status := 200; body := record |}.
Proof.
  intros Hf Ht. unfold get_pnl, dict_get. unfold_handler.
  cbn [py_hashable]. rewrite Hf. cbv beta iota. now rewrite Ht.
Qed.

Lemma get_risk_found (E : env) (x : option string) (tid : string)
    (w : world pyval) (record : pyval) :
  dict_find w.(store) (PyStr tid) = Some record ->
  py_truthy record = true ->
  fst (run (get_risk E x tid) w) = Ok {| status := 200; body := record |}.
Proof.
  intros Hf Ht. unfold get_risk, dict_get. unfold_handler.
  cbn [py_hashable]. rewrite Hf. cbv beta iota. now rewrite Ht.
Qed.

Lemma dict_setitem_str {V} (d d' : pydict V) (k : string) (v : V) :
  dict_setitem d (PyStr k) v = Ok d' -> d' = dict_update d (PyStr k) v.
Proof. unfold dict_setitem. cbn [py_hashable]. now intros [= <-]. Qed.

(** C5.  Of two POSTs to /pnl (or two to /risk) answered 200 for the same
    trade_id, a string that is one path segment, the second replaces the
    record of the first in place: the store gets no new item, and a GET
    for that trade_id that follows reaches the view function and returns
    the record of the second request and nothing of the first. *)
Theorem later_write_replaces_earlier :
  forall (tid : string) (E1 E2 : env) (req1 req2 : request)
         (w w1 w2 : world pyval) (r1 r2 : response),
    py_get req1.(get_json) "trade_id" = Ok (PyStr tid) ->
    py_get req2.(get_json) "trade_id" = Ok (PyStr tid) ->
    segment tid = true ->
    (run (compute_pnl E1 req1) w = (Ok r1, w1) -> r1.(status) = 200 ->
     run (compute_pnl E2 req2) w1 = (Ok r2, w2) -> r2.(status) = 200 ->
     exists symbol price quantity p q,
       py_get req2.(get_json) "symbol" = Ok symbol /\
       py_get req2.(get_json) "price" = Ok price /\
       py_get req2.(get_json) "quantity" = Ok quantity /\
       to_float price = Ok p /\
       to_float quantity = Ok q /\
       List.length w2.(store) = List.length w1.(store) /\
       forall (E : env) (x : option string),
         served (get_pnl E x) tid w2
         = Some (Ok {| status := 200;
                       body := obj [("pnl_value",
                                     PyFloat ((p - cost_lookup symbol) * q));
                                    ("symbol", symbol); ("price", price);
                                    ("quantity", quantity);
                                    ("cost",
                                     PyFloat (cost_lookup symbol))] |})) /\
    (run (assess_trade_risk E1 req1) w = (Ok r1, w1) -> r1.(status) = 200 ->
     run (assess_trade_risk E2 req2) w1 = (Ok r2, w2) -> r2.(status) = 200 ->
     exists pnl_value quantity,
       py_get req2.(get_json) "pnl_value" = Ok pnl_value /\
       py_get req2.(get_json) "quantity" = Ok quantity /\
       List.length w2.(store) = List.length w1.(store) /\
       forall (E : env) (x : option string),
         served (get_risk E x) tid w2
         = Some (Ok {| status := 200;
                       body := obj [("risk_level",
                                     PyStr (risk_level_rule pnl_value
                                              quantity));
                                    ("pnl_value", pnl_value);
                                    ("quantity", quantity)] |})).
Proof.
  intros tid E1 E2 req1 req2 w w1 w2 r1 r2 Hid1 Hid2 Hseg. split.
  - intros H1 Hs1 H2 Hs2.
    destruct (compute_pnl_200 _ _ _ _ _ H1 Hs1)
      as (t1 & s1 & pr1 & q1 & p1 & f1 & Ht1 & _ & _ & _ & _ & _ & _ & Hset1).
    destruct (compute_pnl_200 _ _ _ _ _ H2 Hs2)
      as (t2 & s2 & pr2 & q2 & p2 & f2 & Ht2 & Hs & Hp & Hq & Hfp & Hfq & _
          & Hset2).
    rewrite Hid1 in Ht1. injection Ht1 as <-.
    rewrite Hid2 in Ht2. injection Ht2 as <-.
    apply dict_setitem_str in Hset1, Hset2.
    exists s2, pr2, q2, p2, f2. conj; try assumption.
    + rewrite Hset2, Hset1. apply dict_update_length_str.
    + intros E x. rewrite (served_segment _ _ _ Hseg). f_equal.
      apply get_pnl_found; [|reflexivity].
      rewrite Hset2. apply dict_find_update_str.
  - intros H1 Hs1 H2 Hs2.
    destruct (assess_trade_risk_200 _ _ _ _ _ H1 Hs1)
      as (t1 & p1 & q1 & l1 & Ht1 & _ & _ & _ & _ & Hset1).
    destruct (assess_trade_risk_200 _ _ _ _ _ H2 Hs2)
      as (t2 & p2 & q2 & l2 & Ht2 & Hp & Hq & Hl & _ & Hset2).
    rewrite Hid1 in Ht1. injection Ht1 as <-.
    rewrite Hid2 in Ht2. injection Ht2 as <-.
    apply dict_setitem_str in Hset1, Hset2.
    apply assess_risk_rule in Hl. subst l2.
    exists p2, q2. conj; try assumption.
    + rewrite Hset2, Hset1. apply dict_update_length_str.
    + intros E x. rewrite (served_segment _ _ _ Hseg). f_equal.
      apply get_risk_found; [|reflexivity].
      rewrite Hset2. apply dict_find_update_str.
Qed.

(** Both halves on runs: two POSTs to /pnl for T1 (prices 150 then 170),
    and two POSTs to /risk for T1 (pnl_value -150.0 then 20.0), each
    answered 200. *)
Lemma later_write_replaces_earlier_witness :
  let first_pnl := pnl_request "T1" "AAPL" (PyInt 150) (PyInt 10) in
  let second_pnl := pnl_request "T1" "AAPL" (PyInt 170) (PyInt 3) in
  let p1 := snd (run (compute_pnl quiet_env first_pnl) started) in
  let p2 := snd (run (compute_pnl quiet_env second_pnl) p1) in
  let w1 := snd (run (assess_trade_risk quiet_env first_risk) started) in
  let w2 := snd (run (assess_trade_risk quiet_env second_risk) w1) in
  segment "T1" = true /\
  (fst (run (compute_pnl quiet_env first_pnl) started)
   = Ok {| status := 200;
           body := obj [("trade_id", PyStr "T1");
                        ("pnl_value", PyFloat 100)] |} /\
   fst (run (compute_pnl quiet_env second_pnl) p1)
   = Ok {| status := 200;
           body := obj [("trade_id", PyStr "T1");
                        ("pnl_value", PyFloat 90)] |} /\
   exists symbol price quantity p q,
     py_get second_pnl.(get_json) "symbol" = Ok symbol /\
     py_get second_pnl.(get_json) "price" = Ok price /\
     py_get second_pnl.(get_json) "quantity" = Ok quantity /\
     to_float price = Ok p /\
     to_float quantity = Ok q /\
     List.length p2.(store) = List.length p1.(store) /\
     forall (E : env) (x : option string),
       served (get_pnl E x) "T1" p2
       = Some (Ok {| status := 200;
                     body := obj [("pnl_value",
                                   PyFloat ((p - cost_lookup symbol) * q));
                                  ("symbol", symbol); ("price", price);
                                  ("quantity", quantity);
                                  ("cost",
                                   PyFloat (cost_lookup symbol))] |})) /\
  (fst (run (assess_trade_risk quiet_env first_risk) started)
   = Ok {| status := 200;
           body := obj [("trade_id", PyStr "T1");
                        ("risk_level", PyStr "MEDIUM")] |} /\
   fst (run (assess_trade_risk quiet_env second_risk) w1)
   = Ok {| status := 200;
           body := obj [("trade_id", PyStr "T1");
                        ("risk_level", PyStr "LOW")] |} /\
   exists pnl_value quantity,
     py_get second_risk.(get_json) "pnl_value" = Ok pnl_value /\
     py_get second_risk.(get_json) "quantity" = Ok quantity /\
     List.length w2.(store) = List.length w1.(store) /\
     forall (E : env) (x : option string),
       served (get_risk E x) "T1" w2
       = Some (Ok {| status := 200;
                     body := obj [("risk_level",
                                   PyStr (risk_level_rule pnl_value
                                            quantity));
                                  ("pnl_value", pnl_value);
                                  ("quantity", quantity)] |})).
Proof.
  cbv zeta. split; [reflexivity|]. split.
  - split; [vm_compute; reflexivity|]. split; [vm_compute; reflexivity|].
    refine (proj1 (later_write_replaces_earlier "T1" quiet_env quiet_env
                     (pnl_request "T1" "AAPL" (PyInt 150) (PyInt 10))
                     (pnl_request "T1" "AAPL" (PyInt 170) (PyInt 3))
                     started _ _ _ _ eq_refl eq_refl eq_refl)
              _ _ _ _); vm_compute; reflexivity.
  - split; [vm_compute; reflexivity|]. split; [vm_compute; reflexivity|].
    refine (proj2 (later_write_replaces_earlier "T1" quiet_env quiet_env
                     first_risk second_risk started _ _ _ _ eq_refl eq_refl
                     eq_refl)
              _ _ _ _); vm_compute; reflexivity.
Defined.

(** C5, as the claim words it, fails.  Two POSTs to /pnl under the number
    5 are both answered 200 and the second replaces the first, but the GET
    that follows, whose id is the text "5", answers 404 and returns
    nothing of either; the same on /risk. *)
Lemma numbered_writes_are_not_returned :
  let p1 := snd (run (compute_pnl quiet_env (numbered_pnl (PyInt 150)))
                   started) in
  let p2 := snd (run (compute_pnl quiet_env (numbered_pnl (PyInt 170))) p1) in
  let w1 := snd (run (assess_trade_risk quiet_env
                        (numbered_risk (PyFloat (-150)))) started) in
  let w2 := snd (run (assess_trade_risk quiet_env
                        (numbered_risk (PyFloat 20))) w1) in
  (fst (run (compute_pnl quiet_env (numbered_pnl (PyInt 150))) started)
   = Ok {| status := 200;
           body := obj [("trade_id", PyInt 5);
                        ("pnl_value", PyFloat 100)] |} /\
   fst (run (compute_pnl quiet_env (numbered_pnl (PyInt 170))) p1)
   = Ok {| status := 200;
           body := obj [("trade_id", PyInt 5);
                        ("pnl_value", PyFloat 300)] |} /\
   List.length p2.(store) = 1%nat /\
   served (get_pnl quiet_env None) "5" p2
   = Some (Ok {| status := 404;
                 body := obj [("error", PyStr "P&L not found")] |})) /\
  (fst (run (assess_trade_risk quiet_env (numbered_risk (PyFloat (-150))))
          started)
   = Ok {| status := 200;
           body := obj [("trade_id", PyInt 5);
                        ("risk_level", PyStr "MEDIUM")] |} /\
   fst (run (assess_trade_risk quiet_env (numbered_risk (PyFloat 20))) w1)
   = Ok {| status := 200;
           body := obj [("trade_id", PyInt 5);
                        ("risk_level", PyStr "LOW")] |} /\
   List.length w2.(store) = 1%nat /\
   served (get_risk quiet_env None) "5" w2
   = Some (Ok {| status := 404;
                 body :=
                   obj [("error", PyStr "Risk assessment not found")] |})).
Proof. cbv zeta. conj; vm_compute; reflexivity. Qed.

End Overwrite.

(** ** The risk store *)

Module RiskStore.
Import RiskService RiskRule RiskOps RiskFacts.

Lemma get_risk_store (E : env) (x : option string) (tid : string)
    (w : world pyval) :
  (snd (run (get_risk E x tid) w)).(store) = w.(store).
Proof.
  unfold get_risk, dict_get. unfold_handler. cbn [py_hashable].
  cbv beta iota. destruct (negb _); reflexivity.
Qed.

Lemma handle_keeps_consistent (o : op) (w : world pyval) :
  Forall (fun kv => consistent (snd kv)) w.(store) ->
  Forall (fun kv => consistent (snd kv)) (snd (run (handle o) w)).(store).
Proof.
  intros Hinv. destruct o as [E req|E x tid]; cbn [handle].
  - destruct (run (assess_trade_risk E req) w) as [res w'] eqn:Hrun.
    cbn [snd].
    destruct (assess_trade_risk_store E req w w' res Hrun)
      as [->|(t & p & q & l & Hl & Hset)]; [exact Hinv|].
    unfold dict_setitem in Hset.
    destruct (py_hashable t); [|discriminate]. injection Hset as <-.
    apply (dict_update_values consistent); [exact Hinv|].
    exists l, p, q. split; [reflexivity | exact Hl].
  - rewrite get_risk_store. exact Hinv.
Qed.

(** C10.  After any sequence of POST /risk and GET /risk/{trade_id} on a
    service that started with an empty store, every stored record has the
    risk_level that [assess_risk] gives for the pnl_value and the quantity
    of that record. *)
Theorem stored_risk_level_is_consistent :
  forall ops : list op,
    Forall (fun kv => consistent (snd kv)) (exec handle ops started).(store).
Proof.
  intros ops.
  apply (exec_invariant handle (Forall (fun kv => consistent (snd kv)))).
  - intros o w. apply handle_keeps_consistent.
  - constructor.
Qed.

End RiskStore.

(** ** The trace id on the downstream call *)

Module TraceId.
Import TradeService PricingService PnLService Downstream Samples.

Ltac forwards_path H :=
  injection H as <- <-; cbn [events]; rewrite <- ?app_assoc;
  eexists; split; [reflexivity|]; cbn [app]; split;
  [ let c := fresh "c" in
    let Hin := fresh "Hin" in
    intros c Hin; cbn [In] in Hin;
    repeat (destruct Hin as [Hin|Hin]; try discriminate Hin);
    first [ contradiction | injection Hin as <-; split; reflexivity ]
  | let r := fresh "r" in
    let Hr := fresh "Hr" in
    let Hs := fresh "Hs" in
    intros r Hr Hs; first
      [ discriminate Hr
      | injection Hr as <-; first
          [ discriminate Hs
          | eexists; cbn [In]; eauto 8 ] ] ].

Lemma create_trade_forwards (E : env) (req : request) :
  forwards (create_trade E req) 201 "http://localhost:5001/prices"
    (trace_id_of E req.(x_trace_id)).
Proof.
  intros w w' res H. unfold create_trade in H. unfold_handler. follow H.
  all: forwards_path H.
Qed.

Lemma compute_trade_price_forwards (E : env) (req : request) :
  forwards (compute_trade_price E req) 200 "http://localhost:5002/pnl"
    (trace_id_of E req.(x_trace_id)).
Proof.
  intros w w' res H. unfold compute_trade_price, compute_price in H.
  unfold_handler. follow H.
  all: forwards_path H.
Qed.

Lemma compute_pnl_forwards (E : env) (req : request) :
  forwards (compute_pnl E req) 200 "http://localhost:5003/risk"
    (trace_id_of E req.(x_trace_id)).
Proof.
  intros w w' res H. unfold compute_pnl in H. unfold_handler. follow H.
  all: forwards_path H.
Qed.

(** C7.  The call each of the three handlers makes to the next service
    carries in [X-Trace-Id] the trace id of the inbound request: the value
    of the caller's [X-Trace-Id] header when there is one, the token the
    server generated otherwise; and each handler that answers with its
    success status has made that call. *)
Theorem trace_id_is_forwarded :
  forall (E : env) (req : request),
    let trace_id :=
      match req.(x_trace_id) with
      | Some sent => sent
      | None => E.(uuid4)
      end in
    forwards (create_trade E req) 201 "http://localhost:5001/prices" trace_id /\
    forwards (compute_trade_price E req) 200 "http://localhost:5002/pnl"
      trace_id /\
    forwards (compute_pnl E req) 200 "http://localhost:5003/risk" trace_id.
Proof.
  intros E req trace_id. conj.
  - apply create_trade_forwards.
  - apply compute_trade_price_forwards.
  - apply compute_pnl_forwards.
Qed.

Lemma trace_id_is_forwarded_witness :
  exists evs,
    (snd (run (create_trade quiet_env traced_request) started)).(events)
    = evs /\
    In (Post traced_call) evs /\
    forall c, In (Post c) evs -> c.(headers) = [("X-Trace-Id", "abc-123")].
Proof.
  destruct (proj1 (trace_id_is_forwarded quiet_env traced_request)
              started
              (snd (run (create_trade quiet_env traced_request) started))
              (fst (run (create_trade quiet_env traced_request) started))
              (surjective_pairing _))
    as (evs & Hev & Hall & _).
  change (events started ++ evs)%list with evs in Hev.
  exists evs. conj.
  - exact Hev.
  - rewrite <- Hev. vm_compute. auto.
  - intros c Hc. exact (proj2 (Hall c Hc)).
Defined.

End TraceId.

(** ** Binary64 rounding *)

Module Binary64.

Lemma digits2_pos_bounds (p : positive) :
  2 ^ (Zpos (digits2_pos p) - 1) <= Zpos p < 2 ^ Zpos (digits2_pos p).
Proof.
  induction p as [p IH|p IH|]; cbn [digits2_pos].
  - rewrite Pos2Z.inj_succ, Z.pow_succ_r by lia.
    replace (Z.succ (Zpos (digits2_pos p)) - 1)
      with (Z.succ (Zpos (digits2_pos p) - 1)) by lia.
    rewrite Z.pow_succ_r by lia. lia.
  - rewrite Pos2Z.inj_succ, Z.pow_succ_r by lia.
    replace (Z.succ (Zpos (digits2_pos p)) - 1)
      with (Z.succ (Zpos (digits2_pos p) - 1)) by lia.
    rewrite Z.pow_succ_r by lia. lia.
  - cbn. lia.
Qed.

Lemma digits2_pos_unique (p : positive) (n : Z) :
  2 ^ (n - 1) <= Zpos p < 2 ^ n -> Zpos (digits2_pos p) = n.
Proof.
  intros [Hlo Hhi]. pose proof (digits2_pos_bounds p) as [Dlo Dhi].
  assert (0 < n).
  { destruct (Z.lt_trichotomy 0 n) as [|[<-|Hn]]; [assumption| |].
    - cbn in Hhi. lia.
    - rewrite Z.pow_neg_r in Hhi by lia. lia. }
  destruct (Z.lt_trichotomy (Zpos (digits2_pos p)) n) as [Hlt|[Heq|Hgt]];
    [|exact Heq|].
  - assert (2 ^ Zpos (digits2_pos p) <= 2 ^ (n - 1))
      by (apply Z.pow_le_mono_r; lia).
    lia.
  - assert (2 ^ n <= 2 ^ (Zpos (digits2_pos p) - 1))
      by (apply Z.pow_le_mono_r; lia).
    lia.
Qed.

(** The two sticky bits of a shift record as one flag: something nonzero
    was shifted out. *)
Local Abbreviation inexact mrs := (shr_r mrs || shr_s mrs).

Lemma shr_1_spec (mrs : shr_record) :
  0 <= shr_m mrs ->
  shr_m (shr_1 mrs) = shr_m mrs / 2 /\
  inexact (shr_1 mrs) = Z.odd (shr_m mrs) || inexact mrs.
Proof.
  destruct mrs as [m r s]. cbn [shr_m shr_r shr_s shr_1].
  intros Hm. destruct m as [|[p|p|]|p]; try lia; cbn [shr_m shr_r shr_s].
  - split; [reflexivity|]. cbn. reflexivity.
  - split; [|reflexivity].
    rewrite Pos2Z.inj_xI. apply (Z.div_unique _ _ _ 1); lia.
  - split; [|reflexivity].
    rewrite Pos2Z.inj_xO. apply (Z.div_unique _ _ _ 0); lia.
  - split; reflexivity.
Qed.

Lemma iter_pos_nat {A} (f : A -> A) (n : positive) (x : A) :
  iter_pos f n x = Nat.iter (Pos.to_nat n) f x.
Proof.
  revert x. induction n as [n IH|n IH|]; intros x; cbn [iter_pos].
  - rewrite !IH, Pos2Nat.inj_xI.
    replace (S (2 * Pos.to_nat n))
      with (Pos.to_nat n + (Pos.to_nat n + 1))%nat by lia.
    now rewrite !Nat.iter_add.
  - rewrite !IH, Pos2Nat.inj_xO.
    replace (2 * Pos.to_nat n)%nat
      with (Pos.to_nat n + Pos.to_nat n)%nat by lia.
    now rewrite Nat.iter_add.
  - reflexivity.
Qed.

Lemma shr_iter_spec (n : nat) (mrs : shr_record) :
  0 <= shr_m mrs ->
  shr_m (Nat.iter n shr_1 mrs) = shr_m mrs / 2 ^ Z.of_nat n /\
  inexact (Nat.iter n shr_1 mrs)
  = negb (shr_m mrs mod 2 ^ Z.of_nat n =? 0) || inexact mrs.
Proof.
  intros Hm. induction n as [|n [IHm IHf]].
  - change (Nat.iter 0 shr_1 mrs) with mrs.
    cbn [Z.of_nat]. rewrite Z.pow_0_r, Z.div_1_r, Z.mod_1_r.
    split; reflexivity.
  - change (Nat.iter (S n) shr_1 mrs) with (shr_1 (Nat.iter n shr_1 mrs)).
    assert (Hpos : 0 < 2 ^ Z.of_nat n) by (apply Z.pow_pos_nonneg; lia).
    assert (Hq : 0 <= shr_m (Nat.iter n shr_1 mrs)).
    { rewrite IHm. apply Z.div_pos; lia. }
    destruct (shr_1_spec _ Hq) as [Sm Sf].
    rewrite Sm, Sf, IHm, IHf, Nat2Z.inj_succ, Z.pow_succ_r by lia.
    split.
    + rewrite Z.div_div by lia. f_equal. lia.
    + rewrite (Z.mul_comm 2), Z.rem_mul_r by lia.
      rewrite orb_assoc. f_equal.
      pose proof (Z.mod_pos_bound (shr_m mrs) (2 ^ Z.of_nat n) Hpos).
      rewrite (Zmod_odd (shr_m mrs / 2 ^ Z.of_nat n)).
      destruct (Z.odd (shr_m mrs / 2 ^ Z.of_nat n));
        destruct (Z.eqb_spec (shr_m mrs mod 2 ^ Z.of_nat n) 0);
        cbn [negb orb];
        match goal with
        | |- _ = negb (?a =? 0) => destruct (Z.eqb_spec a 0)
        end; cbn [negb]; solve [reflexivity | lia].
Qed.

Lemma round_nearest_even_spec (mrs : shr_record) :
  let m := round_nearest_even (shr_m mrs) (loc_of_shr_record mrs) in
  shr_m mrs <= m <= shr_m mrs + 1 /\ (inexact mrs = false -> m = shr_m mrs).
Proof.
  destruct mrs as [m [|] [|]];
    cbn [shr_m shr_r shr_s loc_of_shr_record round_nearest_even orb];
    try destruct (Z.even m); split; try lia; try discriminate; reflexivity.
Qed.

Lemma fexp_normal (d e : Z) :
  emin <= d + e - prec -> fexp prec emax (d + e) = d + e - prec.
Proof. unfold fexp. fold emin. lia. Qed.

(** Rounding [z * 2^e] when it lies between two doubles [L * 2^e0] and
    [U * 2^e0] of one binade, [e < e0]: the result is a double of that
    binade between the two. *)
Lemma binary_normalize_window (z e e0 L U : Z) :
  e < e0 -> emin <= e0 <= emax - prec ->
  2 ^ (prec - 1) <= L -> U < 2 ^ prec ->
  L * 2 ^ (e0 - e) <= z <= U * 2 ^ (e0 - e) ->
  exists pm,
    binary_normalize prec emax z e false = S754_finite false pm e0 /\
    L <= Zpos pm <= U.
Proof.
  intros He He0 HL HU Hz.
  remember (e0 - e) as k eqn:Hk.
  destruct k as [|kp|kp]; try lia.
  assert (Hpow : 0 < 2 ^ Zpos kp) by (apply Z.pow_pos_nonneg; lia).
  assert (H52 : 0 < 2 ^ (prec - 1)) by reflexivity.
  assert (Hprec : 2 ^ prec = 2 * 2 ^ (prec - 1)) by reflexivity.
  assert (Hp : 0 < prec) by reflexivity.
  destruct z as [|pz|pz]; try nia.
  assert (Hdz : Zpos (digits2_pos pz) = prec + Zpos kp).
  { apply digits2_pos_unique.
    replace (prec + Zpos kp - 1) with ((prec - 1) + Zpos kp) by lia.
    rewrite !Z.pow_add_r by lia. nia. }
  cbn [binary_normalize]. unfold binary_round.
  rewrite Hdz.
  replace (prec + Zpos kp + e) with (prec + e0) by lia.
  rewrite fexp_normal by (unfold emin in *; lia).
  replace (prec + e0 - prec) with e0 by lia.
  unfold shl_align. rewrite <- Hk.
  unfold binary_round_aux, shr_fexp. cbn [Zdigits2 shr_record_of_loc].
  rewrite Hdz.
  replace (prec + Zpos kp + e) with (prec + e0) by lia.
  rewrite fexp_normal by (unfold emin in *; lia).
  replace (prec + e0 - prec - e) with (Zpos kp) by lia.
  cbn [shr]. rewrite iter_pos_nat.
  set (mrs0 := {| shr_m := Zpos pz; shr_r := false; shr_s := false |}).
  destruct (shr_iter_spec (Pos.to_nat kp) mrs0 ltac:(cbn; lia)) as [Hm Hf].
  rewrite positive_nat_Z in Hm, Hf. cbn [shr_m mrs0] in Hm, Hf.
  set (mrs1 := Nat.iter (Pos.to_nat kp) shr_1 mrs0) in *.
  destruct (round_nearest_even_spec mrs1) as [Hr Hex].
  set (m1 := round_nearest_even (shr_m mrs1) (loc_of_shr_record mrs1)) in *.
  assert (HqL : L <= shr_m mrs1).
  { rewrite Hm. apply Z.div_le_lower_bound; lia. }
  assert (HqU : shr_m mrs1 <= U).
  { rewrite Hm. apply Z.div_le_upper_bound; lia. }
  assert (Hm1 : L <= m1 <= U).
  { split; [lia|].
    destruct (Z.eq_dec (shr_m mrs1) U) as [HeqU|]; [|lia].
    rewrite Hex; [lia|]. rewrite Hf. cbn [mrs0 shr_r shr_s orb].
    rewrite ?orb_false_r.
    assert (Hzeq : Zpos pz = U * 2 ^ Zpos kp).
    { pose proof (Z.mul_div_le (Zpos pz) (2 ^ Zpos kp) Hpow).
      rewrite <- Hm, HeqU in H. lia. }
    rewrite Hzeq, Z.mod_mul by lia. reflexivity. }
  destruct m1 as [|pm|pm] eqn:Em1; try lia.
  assert (Hdm : Zpos (digits2_pos pm) = prec)
    by (apply digits2_pos_unique; lia).
  cbn [Zdigits2]. rewrite Hdm.
  replace (e + Zpos kp) with e0 by lia.
  rewrite fexp_normal by (unfold emin in *; lia).
  replace (prec + e0 - prec - e0) with 0 by lia.
  cbn [shr shr_m].
  destruct (Z.leb_spec e0 (emax - prec)); [|lia].
  exists pm. split; [reflexivity | exact Hm1].
Qed.

(** A finite double: its mantissa has at most [prec] bits and its
    exponent is at least [emin]. *)
Lemma bounded_inv (m : positive) (e : Z) :
  bounded prec emax m e = true -> emin <= e /\ Zpos m < 2 ^ prec.
Proof.
  unfold bounded, canonical_mantissa, fexp. fold emin.
  intros H. apply andb_prop in H as [H _]. apply Z.eqb_eq in H.
  pose proof (digits2_pos_bounds m) as [_ Hhi].
  assert (Hd : Zpos (digits2_pos m) <= prec) by lia.
  split; [lia|].
  apply Z.lt_le_trans with (1 := Hhi). apply Z.pow_le_mono_r; lia.
Qed.

Lemma SFleb_same_exponent (m n : positive) (e : Z) :
  SFleb (S754_finite false m e) (S754_finite false n e) = true <->
  Zpos m <= Zpos n.
Proof.
  unfold SFleb, SFcompare. rewrite Z.compare_refl.
  change (Pos.compare_cont Eq m n) with (Pos.compare m n).
  destruct (Pos.compare_spec m n); split; intros; try reflexivity;
    try discriminate; lia.
Qed.

(** A finite double of magnitude at most [c * 2^ec], with [c] a full
    mantissa: its exponent is at most [ec], and at [ec] its mantissa is at
    most [c]. *)
Lemma SFleb_magnitude (s : bool) (m c : positive) (e ec : Z) :
  SFleb (S754_finite true c ec) (S754_finite s m e) = true ->
  SFleb (S754_finite s m e) (S754_finite false c ec) = true ->
  e < ec \/ (e = ec /\ Zpos m <= Zpos c).
Proof.
  unfold SFleb, SFcompare.
  change (Pos.compare_cont Eq m c) with (Pos.compare m c).
  change (Pos.compare_cont Eq c m) with (Pos.compare c m).
  destruct s.
  - intros H _. revert H.
    destruct (Z.compare_spec ec e); try discriminate; [|lia].
    destruct (Pos.compare_spec c m); try discriminate; lia.
  - intros _. destruct (Z.compare_spec e ec); try discriminate; [|lia].
    destruct (Pos.compare_spec m c); try discriminate; lia.
Qed.

(** The price of an unknown symbol: 100.0 plus a double between -5.0 and
    5.0 is a double between 95.0 and 105.0. *)
Lemma default_price_window (u : float) :
  (-5 <=? u)%float = true -> (u <=? 5)%float = true ->
  (95 <=? 100 + u)%float = true /\ (100 + u <=? 105)%float = true.
Proof.
  rewrite !leb_spec, add_spec.
  change (Prim2SF (-5)) with (S754_finite true 5629499534213120 (-50)).
  change (Prim2SF 5) with (S754_finite false 5629499534213120 (-50)).
  change (Prim2SF 95) with (S754_finite false 6685030696878080 (-46)).
  change (Prim2SF 100) with (S754_finite false 7036874417766400 (-46)).
  change (Prim2SF 105) with (S754_finite false 7388718138654720 (-46)).
  pose proof (Prim2SF_valid u) as Hv.
  destruct (Prim2SF u) as [s|s| |s m e]; intros Hlo Hhi.
  - split; reflexivity.
  - destruct s; discriminate.
  - discriminate.
  - cbn [valid_binary] in Hv. apply bounded_inv in Hv as [Hemin Hm].
    destruct (SFleb_magnitude s m _ e _ Hlo Hhi) as [He|[He Hm5]].
    all: unfold SF64add, SFadd; rewrite Z.min_r by lia.
    all: unfold shl_align; rewrite Z.sub_diag.
    all: destruct (e - -46) as [|d|d] eqn:Hd; try lia.
    all: cbn [fst cond_Zopp].
    all: change (Pos.iter xO 7036874417766400%positive d)
           with (shift_pos d 7036874417766400).
    all: rewrite shift_pos_correct;
      change (Zpower_pos 2 d) with (2 ^ Zpos d).
    all: assert (Hpow : 0 < 2 ^ Zpos d) by (apply Z.pow_pos_nonneg; lia).
    all: assert (Hbound : Zpos m <= 351843720888320 * 2 ^ Zpos d)
      by (first
            [ replace (Zpos d) with 4 by lia; change (2 ^ 4) with 16; lia
            | assert (2 ^ 5 <= 2 ^ Zpos d) by (apply Z.pow_le_mono_r; lia);
              change (2 ^ 5) with 32 in *;
              change (2 ^ prec) with 9007199254740992 in *; lia ]).
    all: destruct (binary_normalize_window
                     (2 ^ Zpos d * 7036874417766400 + cond_Zopp s (Zpos m))
                     e (-46) 6685030696878080 7388718138654720)
           as (pm & -> & Hpm);
      [ lia | split; [discriminate | discriminate]
      | discriminate | reflexivity
      | replace (-46 - e) with (Zpos d) by lia;
        destruct s; cbn [cond_Zopp]; lia
      | rewrite !SFleb_same_exponent; lia ].
Qed.

End Binary64.

(** ** The price of an unknown symbol *)

Module DefaultPrice.
Import PricingService Samples.

Lemma base_prices_default (symbol : pyval) (base : float) :
  symbol <> PyStr "AAPL" -> symbol <> PyStr "GOOGL" ->
  symbol <> PyStr "MSFT" ->
  dict_get base_prices symbol 100%float = Ok base -> base = 100%float.
Proof.
  intros Ha Hg Hm. unfold dict_get, base_prices, dict_find.
  rewrite !PnLFacts.py_key_eq_str.
  destruct symbol; cbn [py_hashable]; try discriminate;
    try (intros [= <-]; reflexivity).
  destruct (String.eqb_spec "AAPL" s) as [<-|_]; [now elim Ha|].
  destruct (String.eqb_spec "GOOGL" s) as [<-|_]; [now elim Hg|].
  destruct (String.eqb_spec "MSFT" s) as [<-|_]; [now elim Hm|].
  now intros [= <-].
Qed.

(** The path that answers 200. *)
Lemma compute_trade_price_200 (E : env) (req : request)
    (w w' : world Empty_set) (r : response) :
  run (compute_trade_price E req) w = (Ok r, w') ->
  r.(status) = 200 ->
  exists trade_id symbol base,
    py_get req.(get_json) "trade_id" = Ok trade_id /\
    py_get req.(get_json) "symbol" = Ok symbol /\
    dict_get base_prices symbol 100%float = Ok base /\
    r = {| status := 200;
           body := obj [("trade_id", trade_id);
                        ("computed_price",
                         PyFloat (base + E.(random_uniform) (-5) 5))] |}.
Proof.
  intros H Hs. unfold compute_trade_price, compute_price in H.
  unfold_handler. follow H.
  all: injection H as <- <-; try discriminate Hs.
  all: do 3 eexists; conj; try eassumption; reflexivity.
Qed.

(** A body with true trade_id and symbol and a quantity is answered 200
    when the simulated timeout does not fire. *)
Lemma compute_trade_price_accepts (E : env) (req : request)
    (w : world Empty_set) (trade_id symbol quantity : pyval) (base : float) :
  py_get req.(get_json) "trade_id" = Ok trade_id ->
  py_get req.(get_json) "symbol" = Ok symbol ->
  py_get req.(get_json) "quantity" = Ok quantity ->
  py_truthy trade_id = true ->
  py_truthy symbol = true ->
  is_None quantity = false ->
  dict_get base_prices symbol 100%float = Ok base ->
  (E.(random_random) <? 0.1)%float = false ->
  exists w',
    run (compute_trade_price E req) w
    = (Ok {| status := 200;
             body := obj [("trade_id", trade_id);
                          ("computed_price",
                           PyFloat (base + E.(random_uniform) (-5) 5))] |},
       w').
Proof.
  intros Ht Hs Hq Htt Hst Hqn Hbase Hr.
  pose proof (py_get_truthy _ _ _ Ht Htt) as Hdata.
  unfold compute_trade_price, compute_price. unfold_handler.
  rewrite Hdata, Ht, Hs, Hq, Htt, Hst, Hqn, Hr, Hbase.
  cbv beta iota. cbn [negb orb].
  destruct (requests_post E _) as [sc|]; [destruct (sc =? 200)|];
    eexists; reflexivity.
Qed.

Lemma base_prices_default_hashable (symbol : pyval) :
  symbol <> PyStr "AAPL" -> symbol <> PyStr "GOOGL" ->
  symbol <> PyStr "MSFT" -> py_hashable symbol = true ->
  dict_get base_prices symbol 100%float = Ok 100%float.
Proof.
  intros Ha Hg Hm Hh.
  destruct (dict_get base_prices symbol 100%float) as [b|e] eqn:Hb.
  - now rewrite (base_prices_default _ _ Ha Hg Hm Hb).
  - unfold dict_get in Hb. now rewrite Hh in Hb.
Qed.

(** C8.  For a request to POST /prices with a symbol other than AAPL,
    GOOGL and MSFT, let u be the draw [random.uniform(-5, 5)], between
    -5.0 and 5.0 as that function returns it.  Then 100.0 + u is between
    95.0 and 105.0, both included, in binary64 arithmetic; it is the
    computed_price of the answer whenever the request is answered 200; and
    the request is answered 200 whenever trade_id and symbol are true,
    quantity is not null, symbol is hashable and the simulated timeout
    does not fire. *)
Theorem unknown_symbol_price_in_window :
  forall (E : env) (req : request) (w : world Empty_set)
         (trade_id symbol quantity : pyval),
    py_get req.(get_json) "trade_id" = Ok trade_id ->
    py_get req.(get_json) "symbol" = Ok symbol ->
    py_get req.(get_json) "quantity" = Ok quantity ->
    symbol <> PyStr "AAPL" ->
    symbol <> PyStr "GOOGL" ->
    symbol <> PyStr "MSFT" ->
    (-5 <=? E.(random_uniform) (-5) 5)%float = true ->
    (E.(random_uniform) (-5) 5 <=? 5)%float = true ->
    let computed_price := (100 + E.(random_uniform) (-5) 5)%float in
    let answer :=
      {| status := 200;
         body := obj [("trade_id", trade_id);
                      ("computed_price", PyFloat computed_price)] |} in
    (95 <=? computed_price)%float = true /\
    (computed_price <=? 105)%float = true /\
    (forall (r : response) (w' : world Empty_set),
        run (compute_trade_price E req) w = (Ok r, w') ->
        r.(status) = 200 -> r = answer) /\
    (py_truthy trade_id = true ->
     py_truthy symbol = true ->
     is_None quantity = false ->
     py_hashable symbol = true ->
     (E.(random_random) <? 0.1)%float = false ->
     exists w', run (compute_trade_price E req) w = (Ok answer, w')).
Proof.
  intros E req w tid sym qty Ht Hsym Hq Ha Hg Hm Hlo Hhi computed_price answer.
  destruct (Binary64.default_price_window _ Hlo Hhi) as [H95 H105].
  conj; try assumption.
  - intros r w' H Hs.
    destruct (compute_trade_price_200 E req w w' r H Hs)
      as (tid' & sym' & base & Ht' & Hsym' & Hbase & ->).
    rewrite Ht in Ht'. injection Ht' as <-.
    rewrite Hsym in Hsym'. injection Hsym' as <-.
    apply (base_prices_default _ _ Ha Hg Hm) in Hbase. now subst base.
  - intros Htt Hst Hqn Hh Hr.
    exact (compute_trade_price_accepts E req w tid sym qty 100 Ht Hsym Hq
             Htt Hst Hqn (base_prices_default_hashable _ Ha Hg Hm Hh) Hr).
Qed.

Lemma unknown_symbol_price_in_window_witness :
  PyStr "XXX" <> PyStr "AAPL" /\
  (-5 <=? quiet_env.(random_uniform) (-5) 5)%float = true /\
  (quiet_env.(random_uniform) (-5) 5 <=? 5)%float = true /\
  (95 <=? 100 + quiet_env.(random_uniform) (-5) 5)%float = true /\
  (100 + quiet_env.(random_uniform) (-5) 5 <=? 105)%float = true /\
  exists w',
    run (compute_trade_price quiet_env unknown_request) started
    = (Ok unknown_answer, w').
Proof.
  pose proof (unknown_symbol_price_in_window quiet_env unknown_request
                started (PyStr "T1") (PyStr "XXX") (PyInt 10)
                eq_refl eq_refl eq_refl
                ltac:(discriminate) ltac:(discriminate) ltac:(discriminate)
                eq_refl eq_refl) as (H95 & H105 & _ & Hrun).
  split; [discriminate|]. split; [reflexivity|]. split; [reflexivity|].
  split; [exact H95|]. split; [exact H105|].
  exact (Hrun eq_refl eq_refl eq_refl eq_refl eq_refl).
Defined.

End DefaultPrice.

(** * Further properties *)

(** ** Keys of a dictionary *)

Lemma py_key_eq_str_inv (k : pyval) (b : string) :
  py_key_eq k (PyStr b) = true -> k = PyStr b.
Proof.
  destruct k; cbn; try discriminate.
  intros H. apply String.eqb_eq in H. now subst.
Qed.

Lemma py_key_eq_str_refl (b : string) : py_key_eq (PyStr b) (PyStr b) = true.
Proof. cbn. apply String.eqb_refl. Qed.

(** An assignment at [k] changes the value of no string key other than
    [k]. *)
Lemma dict_find_update_other {V} (d : pydict V) (k : pyval) (b : string)
    (v : V) :
  k <> PyStr b ->
  dict_find (dict_update d k v) (PyStr b) = dict_find d (PyStr b).
Proof.
  intros Hk. induction d as [|[k' v'] d IH]; cbn [dict_update dict_find].
  - destruct (py_key_eq k (PyStr b)) eqn:E; [|reflexivity].
    now apply py_key_eq_str_inv in E.
  - destruct (py_key_eq k' k) eqn:E1; cbn [dict_find].
    + destruct (py_key_eq k' (PyStr b)) eqn:E2; [|reflexivity].
      apply py_key_eq_str_inv in E2. subst k'.
      rewrite PnLFacts.py_key_eq_str in E1. destruct k; try discriminate.
      apply String.eqb_eq in E1. now subst.
    + now rewrite IH.
Qed.

(** ** Every path of a POST handler *)

Module Paths.
Import TradeService PricingService PnLService RiskService RiskRule CostBasis.

Lemma dict_setitem_inv {V} (d d' : pydict V) (k : pyval) (v : V) :
  dict_setitem d k v = Ok d' ->
  py_hashable k = true /\ d' = dict_update d k v.
Proof.
  unfold dict_setitem. destruct (py_hashable k); [|discriminate].
  intros [= <-]. split; reflexivity.
Qed.

(** After [follow]: names the world the handler leaves, exposes the events
    it added, and leaves the alternative of the outcome. *)
Ltac path_start H :=
  injection H as <- <-; cbn [events store] in *; rewrite <- ?app_assoc;
  eexists; split; [reflexivity|]; cbn [app calls sleeps].

Ltac path_refused :=
  left; conj;
  [ reflexivity ..
  | let r := fresh "r" in
    let Hr := fresh "Hr" in
    intros r Hr;
    first [ discriminate Hr
          | injection Hr as <-; cbn [status]; auto ] ].

Ltac path_setitem :=
  match goal with
  | Hd : dict_setitem _ _ _ = Ok _ |- _ =>
      apply dict_setitem_inv in Hd; destruct Hd as [? ->]
  end.

Ltac path_valid :=
  match goal with
  | Hv : negb _ = false |- _ => apply negb_false_iff in Hv
  end.

Lemma create_trade_paths (E : env) (req : request) (w w' : world Trade)
    (res : result response) :
  run (create_trade E req) w = (res, w') ->
  exists evs,
    w'.(events) = (w.(events) ++ evs)%list /\
    ((w'.(store) = w.(store) /\ calls evs = [] /\
      forall r, res = Ok r -> r.(status) = 400) \/
     exists trade_id symbol quantity price trade_type,
       py_get req.(get_json) "trade_id" = Ok trade_id /\
       py_get req.(get_json) "symbol" = Ok symbol /\
       py_get req.(get_json) "quantity" = Ok quantity /\
       py_get req.(get_json) "price" = Ok price /\
       py_get req.(get_json) "trade_type" = Ok trade_type /\
       forallb py_truthy [trade_id; symbol; quantity; price; trade_type]
       = true /\
       py_hashable trade_id = true /\
       res = Ok {| status := 201;
                   body := obj [("message", PyStr "Trade created");
                                ("trade_id", trade_id)] |} /\
       w'.(store)
       = dict_update w.(store) trade_id
           (create_trade_object E trade_id symbol quantity price trade_type) /\
       calls evs
       = [{| url := "http://localhost:5001/prices";
             json := obj [("trade_id", trade_id); ("symbol", symbol);
                          ("quantity", quantity)];
             headers := [("X-Trace-Id", trace_id_of E req.(x_trace_id))] |}]).
Proof.
  intros H. unfold create_trade in H. unfold_handler. follow H.
  all: try path_setitem.
  all: path_start H.
  all: try solve [path_refused].
  all: path_valid; right; do 5 eexists; conj;
    first [eassumption | reflexivity].
Qed.

Lemma compute_pnl_paths (E : env) (req : request) (w w' : world pyval)
    (res : result response) :
  run (compute_pnl E req) w = (res, w') ->
  exists evs,
    w'.(events) = (w.(events) ++ evs)%list /\
    ((w'.(store) = w.(store) /\ calls evs = [] /\
      forall r, res = Ok r -> r.(status) = 400 \/ r.(status) = 500) \/
     exists trade_id symbol price quantity cost diff pnl_value,
       py_get req.(get_json) "trade_id" = Ok trade_id /\
       py_get req.(get_json) "symbol" = Ok symbol /\
       py_get req.(get_json) "price" = Ok price /\
       py_get req.(get_json) "quantity" = Ok quantity /\
       forallb py_truthy [trade_id; symbol; price; quantity] = true /\
       dict_get base_costs symbol 90%float = Ok cost /\
       py_sub_float price cost = Ok diff /\
       py_float_mul diff quantity = Ok pnl_value /\
       (E.(random_random) <? 0.05)%float = false /\
       py_hashable trade_id = true /\
       res = Ok {| status := 200;
                   body := obj [("trade_id", trade_id);
                                ("pnl_value", PyFloat pnl_value)] |} /\
       w'.(store)
       = dict_update w.(store) trade_id
           (pnl_record pnl_value symbol price quantity cost) /\
       calls evs
       = [{| url := "http://localhost:5003/risk";
             json := obj [("trade_id", trade_id);
                          ("pnl_value", PyFloat pnl_value);
                          ("quantity", quantity)];
             headers := [("X-Trace-Id", trace_id_of E req.(x_trace_id))] |}]).
Proof.
  intros H. unfold compute_pnl in H. unfold_handler. follow H.
  all: try path_setitem.
  all: path_start H.
  all: try solve [path_refused].
  all: path_valid; right; do 7 eexists; conj;
    first [eassumption | reflexivity].
Qed.

Lemma assess_trade_risk_paths (E : env) (req : request)
    (w w' : world pyval) (res : result response) :
  run (assess_trade_risk E req) w = (res, w') ->
  exists evs,
    w'.(events) = (w.(events) ++ evs)%list /\
    calls evs = [] /\
    ((w'.(store) = w.(store) /\
      forall r, res = Ok r -> r.(status) = 400 \/ r.(status) = 503) \/
     exists trade_id pnl_value quantity risk_level,
       py_get req.(get_json) "trade_id" = Ok trade_id /\
       py_get req.(get_json) "pnl_value" = Ok pnl_value /\
       py_get req.(get_json) "quantity" = Ok quantity /\
       py_truthy trade_id = true /\
       is_None pnl_value = false /\
       is_None quantity = false /\
       assess_risk pnl_value quantity = Ok risk_level /\
       (E.(random_random) <? 0.03)%float = false /\
       py_hashable trade_id = true /\
       res = Ok {| status := 200;
                   body := obj [("trade_id", trade_id);
                                ("risk_level", PyStr risk_level)] |} /\
       w'.(store)
       = dict_update w.(store) trade_id
           (risk_record risk_level pnl_value quantity)).
Proof.
  intros H. unfold assess_trade_risk in H. unfold_handler. follow H.
  all: try path_setitem.
  all: path_start H.
  all: split; [reflexivity|].
  all: try solve [path_refused].
  path_valid. cbn [forallb py_truthy] in *.
  repeat match goal with
         | Hv : _ && _ = true |- _ => apply andb_prop in Hv; destruct Hv
         | Hv : negb _ = true |- _ => apply negb_true_iff in Hv
         end.
  right. do 4 eexists. conj; first [eassumption | reflexivity].
Qed.

Lemma compute_trade_price_paths (E : env) (req : request)
    (w w' : world Empty_set) (res : result response) :
  run (compute_trade_price E req) w = (res, w') ->
  let trace_id := trace_id_of E req.(x_trace_id) in
  exists evs,
    w'.(events) = (w.(events) ++ evs)%list /\
    w'.(store) = w.(store) /\
    ((calls evs = [] /\ forall r, res = Ok r -> r.(status) = 400) \/
     ((E.(random_random) <? 0.1)%float = true /\
      res = Ok {| status := 504; body := obj [("error", PyStr "Timeout")] |} /\
      evs = [Log INFO "Received price computation request" trace_id;
             Sleep 5;
             Log ERROR "Price computation timed out" trace_id]) \/
     exists trade_id symbol quantity base,
       py_get req.(get_json) "trade_id" = Ok trade_id /\
       py_get req.(get_json) "symbol" = Ok symbol /\
       py_get req.(get_json) "quantity" = Ok quantity /\
       py_truthy trade_id = true /\
       py_truthy symbol = true /\
       is_None quantity = false /\
       (E.(random_random) <? 0.1)%float = false /\
       dict_get base_prices symbol 100%float = Ok base /\
       let computed_price := (base + E.(random_uniform) (-5) 5)%float in
       res = Ok {| status := 200;
                   body := obj [("trade_id", trade_id);
                                ("computed_price", PyFloat computed_price)] |} /\
       sleeps evs = [E.(random_uniform) 0.1 0.5] /\
       calls evs
       = [{| url := "http://localhost:5002/pnl";
             json := obj [("trade_id", trade_id); ("symbol", symbol);
                          ("price", PyFloat computed_price);
                          ("quantity", quantity)];
             headers := [("X-Trace-Id", trace_id)] |}]).
Proof.
  intros H trace_id. unfold compute_trade_price, compute_price in H.
  unfold_handler. follow H.
  all: path_start H.
  all: split; [reflexivity|].
  all: try solve [left; split;
                  [ reflexivity
                  | intros r Hr; first
                      [ discriminate Hr
                      | injection Hr as <-; reflexivity ] ]].
  all: try solve [right; left; conj; first [assumption | reflexivity]].
  all: right; right;
    repeat match goal with
           | Hv : _ || _ = false |- _ =>
               apply orb_false_elim in Hv; destruct Hv
           | Hv : negb _ = false |- _ => apply negb_false_iff in Hv
           end;
    do 4 eexists; cbv zeta; conj; first [eassumption | reflexivity].
Qed.

End Paths.

(** ** Runs of a sequence of requests *)

Lemma added_app {V} (w w' : world V) (evs : list event) :
  w'.(events) = (w.(events) ++ evs)%list -> added w w' = evs.
Proof.
  intros H. unfold added. rewrite H, skipn_app, skipn_all, Nat.sub_diag.
  reflexivity.
Qed.

(** An invariant of the store that the requests of a sequence keep, when
    each of them satisfies [Q]. *)
Lemma exec_invariant_on {V Op : Type} (handle : Op -> handler V response)
    (Q : Op -> bool) (P : pydict V -> Prop) :
  (forall o w, Q o = true -> P w.(store) ->
               P (snd (run (handle o) w)).(store)) ->
  forall ops w, forallb Q ops = true -> P w.(store) ->
                P (exec handle ops w).(store).
Proof.
  intros Hstep ops. induction ops as [|o ops IH]; intros w Hq Hw.
  - exact Hw.
  - cbn [forallb] in Hq. apply andb_prop in Hq as [Ho Hq].
    apply IH; [exact Hq|]. apply Hstep; assumption.
Qed.

Lemma posts_false (tid : string) (req : request) (trade_id : pyval) :
  posts tid req = false ->
  py_get req.(get_json) "trade_id" = Ok trade_id ->
  trade_id <> PyStr tid.
Proof.
  unfold posts. intros Hp Hg ->. rewrite Hg, String.eqb_refl in Hp.
  discriminate.
Qed.

Lemma py_get_raises (data : pyval) (name : string) (e : exn) :
  py_get data name = Raise e ->
  e = AttributeError /\ forall d, data <> PyDict d.
Proof.
  destruct data; cbn; intros H; try discriminate H.
  all: injection H as <-; split; [reflexivity | intros d' Hd; discriminate Hd].
Qed.

Lemma dict_setitem_raises {V} (d : pydict V) (k : pyval) (v : V) (e : exn) :
  dict_setitem d k v = Raise e -> e = TypeError /\ py_hashable k = false.
Proof.
  unfold dict_setitem. destruct (py_hashable k); [discriminate|].
  intros [= <-]. split; reflexivity.
Qed.

(** ** POST /trades and GET /trades/{trade_id} *)

Module TradeRequests.
Import TradeService TradeOps TradeFacts Paths Routes Samples Scenarios.

Lemma get_trade_answer (E : env) (x : option string) (tid : string)
    (w1 w2 : world Trade) :
  dict_find w1.(store) (PyStr tid) = dict_find w2.(store) (PyStr tid) ->
  fst (run (get_trade E x tid) w1) = fst (run (get_trade E x tid) w2).
Proof.
  intros H. unfold get_trade. unfold_handler. rewrite H. clear H.
  destruct (dict_find _ _); reflexivity.
Qed.

Lemma get_trade_missing (E : env) (x : option string) (tid : string)
    (w : world Trade) :
  dict_find w.(store) (PyStr tid) = None ->
  fst (run (get_trade E x tid) w)
  = Ok {| status := 404; body := obj [("error", PyStr "Trade not found")] |}.
Proof.
  intros H. unfold get_trade. unfold_handler. now rewrite H.
Qed.

Lemma create_trade_frame (E : env) (req : request) (w w' : world Trade)
    (res : result response) (b : string) :
  run (create_trade E req) w = (res, w') ->
  posts b req = false ->
  dict_find w'.(store) (PyStr b) = dict_find w.(store) (PyStr b).
Proof.
  intros Hrun Hp.
  destruct (create_trade_paths _ _ _ _ _ Hrun)
    as (evs & _ & [(-> & _)|(t & s & q & p & ty & Ht & _ & _ & _ & _ & _ &
                              _ & _ & -> & _)]).
  - reflexivity.
  - apply dict_find_update_other. exact (posts_false _ _ _ Hp Ht).
Qed.

(** X1.  A POST /trades that is not answered 201 (a 400, or an exception
    that Flask turns into a 500) leaves the trades as they were and has
    made no call to the pricing service. *)
Theorem rejected_trade_changes_nothing :
  forall (E : env) (req : request) (w w' : world Trade)
         (res : result response),
    run (create_trade E req) w = (res, w') ->
    (forall r, res = Ok r -> r.(status) <> 201) ->
    w'.(store) = w.(store) /\ calls (added w w') = [].
Proof.
  intros E req w w' res Hrun Hno.
  destruct (create_trade_paths _ _ _ _ _ Hrun)
    as (evs & Hev & [(Hs & Hc & _)|(t & s & q & p & ty & _ & _ & _ & _ & _ &
                                     _ & _ & Hres & _)]).
  - rewrite (added_app _ _ _ Hev). split; assumption.
  - exfalso. apply (Hno _ Hres). reflexivity.
Qed.

Lemma rejected_trade_changes_nothing_witness :
  let w' := snd (run (create_trade quiet_env zero_request) aapl_trades) in
  w'.(store) = aapl_trades.(store) /\ calls (added aapl_trades w') = [].
Proof.
  apply (rejected_trade_changes_nothing quiet_env zero_request aapl_trades _
           (fst (run (create_trade quiet_env zero_request) aapl_trades))).
  - vm_compute. reflexivity.
  - intros r Hr. vm_compute in Hr. injection Hr as <-. discriminate.
Defined.

(** X2.  A POST /trades answered 201 has stored one trade, stamped with
    the clock read at the request, and has called the pricing service
    exactly once, with the trade_id, the symbol and the quantity of that
    trade and nothing of its price. *)
Theorem created_trade_is_priced_once :
  forall (E : env) (req : request) (w w' : world Trade) (r : response),
    run (create_trade E req) w = (Ok r, w') ->
    r.(status) = 201 ->
    exists t : Trade,
      In t (map snd w'.(store)) /\
      t.(timestamp) = E.(now_isoformat) /\
      r.(body) = obj [("message", PyStr "Trade created");
                      ("trade_id", t.(trade_id))] /\
      calls (added w w')
      = [{| url := "http://localhost:5001/prices";
            json := obj [("trade_id", t.(trade_id)); ("symbol", t.(symbol));
                         ("quantity", t.(quantity))];
            headers := [("X-Trace-Id", trace_id_of E req.(x_trace_id))] |}].
Proof.
  intros E req w w' r Hrun Hst.
  destruct (create_trade_paths _ _ _ _ _ Hrun)
    as (evs & Hev & [(_ & _ & H400)|(t & s & q & p & ty & _ & _ & _ & _ & _ &
                                      _ & _ & Hres & Hs & Hc)]).
  - rewrite (H400 r eq_refl) in Hst. discriminate.
  - injection Hres as ->.
    exists (create_trade_object E t s q p ty).
    rewrite (added_app _ _ _ Hev), Hs. conj.
    + apply dict_update_In.
    + reflexivity.
    + reflexivity.
    + exact Hc.
Qed.

Lemma created_trade_is_priced_once_witness :
  exists t : Trade,
    In t (map snd
            (snd (run (create_trade quiet_env traced_request) started)).(store))
    /\ t.(timestamp) = quiet_env.(now_isoformat) /\
    body {| status := 201;
            body := obj [("message", PyStr "Trade created");
                         ("trade_id", PyStr "T1")] |}
    = obj [("message", PyStr "Trade created"); ("trade_id", t.(trade_id))] /\
    calls (added started
             (snd (run (create_trade quiet_env traced_request) started)))
    = [{| url := "http://localhost:5001/prices";
          json := obj [("trade_id", t.(trade_id)); ("symbol", t.(symbol));
                       ("quantity", t.(quantity))];
          headers :=
            [("X-Trace-Id", trace_id_of quiet_env
                              traced_request.(x_trace_id))] |}].
Proof.
  apply (created_trade_is_priced_once quiet_env traced_request started).
  - vm_compute. reflexivity.
  - reflexivity.
Defined.

(** X3.  On a service that started empty, after any sequence of requests
    none of which posted the trade_id, GET /trades/{trade_id} answers 404
    "Trade not found". *)
Theorem unposted_trade_is_not_found :
  forall (tid : string) (ops : list op) (E : env) (x : option string),
    forallb (fun o => negb (trade_posts tid o)) ops = true ->
    fst (run (get_trade E x tid) (exec handle ops started))
    = Ok {| status := 404;
            body := obj [("error", PyStr "Trade not found")] |}.
Proof.
  intros tid ops E x Hops. apply get_trade_missing.
  apply (exec_invariant_on handle (fun o => negb (trade_posts tid o))
           (fun s => dict_find s (PyStr tid) = None)); [|exact Hops|].
  - intros [E' req|E' x' tid'] w Hq Hw; cbn [handle trade_posts] in *.
    + apply negb_true_iff in Hq.
      destruct (run (create_trade E' req) w) as [res w'] eqn:Hrun.
      cbn [snd]. now rewrite (create_trade_frame _ _ _ _ _ _ Hrun Hq).
    + now rewrite get_trade_store.
  - reflexivity.
Qed.

Lemma unposted_trade_is_not_found_witness :
  fst (run (get_trade quiet_env None "T2")
         (exec handle
            [Create quiet_env traced_request; Fetch quiet_env None "T1";
             Create quiet_env zero_request] started))
  = Ok {| status := 404; body := obj [("error", PyStr "Trade not found")] |}.
Proof.
  apply (unposted_trade_is_not_found "T2"
           [Create quiet_env traced_request; Fetch quiet_env None "T1";
            Create quiet_env zero_request]).
  vm_compute. reflexivity.
Defined.

(** X4.  A POST /trades changes what GET /trades/{b} answers for no
    trade_id [b] other than the one it posts, whatever its outcome. *)
Theorem other_trades_are_untouched :
  forall (E : env) (req : request) (w w' : world Trade)
         (res : result response) (b : string),
    run (create_trade E req) w = (res, w') ->
    posts b req = false ->
    forall (E' : env) (x : option string),
      fst (run (get_trade E' x b) w') = fst (run (get_trade E' x b) w).
Proof.
  intros E req w w' res b Hrun Hp E' x.
  apply get_trade_answer. exact (create_trade_frame _ _ _ _ _ _ Hrun Hp).
Qed.

Lemma other_trades_are_untouched_witness :
  posts "T1" negative_request = false /\
  forall (E' : env) (x : option string),
    fst (run (get_trade E' x "T1")
           (snd (run (create_trade quiet_env negative_request) aapl_trades)))
    = fst (run (get_trade E' x "T1") aapl_trades).
Proof.
  split; [reflexivity|].
  apply (other_trades_are_untouched quiet_env negative_request aapl_trades _
           (fst (run (create_trade quiet_env negative_request) aapl_trades))).
  - vm_compute. reflexivity.
  - reflexivity.
Defined.

(** X5.  Of two POSTs to /trades answered 201 for the same trade_id, a
    string that is one path segment, the second replaces the trade of the
    first in place: the store gets no new item, and a GET for that
    trade_id reaches [get_trade] and returns the fields of the second
    request with the time of the second request. *)
Theorem later_trade_replaces_earlier :
  forall (tid : string) (E1 E2 : env) (req1 req2 : request)
         (w w1 w2 : world Trade) (r1 r2 : response),
    py_get req1.(get_json) "trade_id" = Ok (PyStr tid) ->
    py_get req2.(get_json) "trade_id" = Ok (PyStr tid) ->
    segment tid = true ->
    run (create_trade E1 req1) w = (Ok r1, w1) -> r1.(status) = 201 ->
    run (create_trade E2 req2) w1 = (Ok r2, w2) -> r2.(status) = 201 ->
    List.length w2.(store) = List.length w1.(store) /\
    exists symbol quantity price trade_type,
      py_get req2.(get_json) "symbol" = Ok symbol /\
      py_get req2.(get_json) "quantity" = Ok quantity /\
      py_get req2.(get_json) "price" = Ok price /\
      py_get req2.(get_json) "trade_type" = Ok trade_type /\
      forall (E' : env) (x : option string),
        served (get_trade E' x) tid w2
        = Some (Ok {| status := 200;
                      body := obj [("trade_id", PyStr tid);
                                   ("symbol", symbol);
                                   ("quantity", quantity); ("price", price);
                                   ("trade_type", trade_type);
                                   ("timestamp",
                                    PyStr E2.(now_isoformat))] |}).
Proof.
  intros tid E1 E2 req1 req2 w w1 w2 r1 r2 Ht1 Ht2 Hseg Hrun1 Hst1 Hrun2 Hst2.
  destruct (create_trade_paths _ _ _ _ _ Hrun1)
    as (evs1 & _ & [(_ & _ & H400)|(t1 & s1 & q1 & p1 & ty1 & Hg1 & _ & _ & _
                                     & _ & _ & _ & _ & Hs1 & _)]);
    [rewrite (H400 r1 eq_refl) in Hst1; discriminate|].
  destruct (create_trade_paths _ _ _ _ _ Hrun2)
    as (evs2 & _ & [(_ & _ & H400)|(t2 & s2 & q2 & p2 & ty2 & Hg2 & Hsy & Hq
                                     & Hp & Hty & _ & _ & _ & Hs2 & _)]);
    [rewrite (H400 r2 eq_refl) in Hst2; discriminate|].
  rewrite Ht1 in Hg1. injection Hg1 as <-.
  rewrite Ht2 in Hg2. injection Hg2 as <-.
  split.
  - rewrite Hs2, Hs1. apply dict_update_length_str.
  - exists s2, q2, p2, ty2. conj; try assumption.
    intros E' x. rewrite (served_segment _ _ _ Hseg). f_equal.
    rewrite (get_trade_found E' x tid w2
               (create_trade_object E2 (PyStr tid) s2 q2 p2 ty2)).
    + reflexivity.
    + rewrite Hs2. apply dict_find_update_str.
Qed.

Lemma later_trade_replaces_earlier_witness :
  segment "T1" = true /\
  List.length
    (snd (run (create_trade failing_env retyped_request)
            (snd (run (create_trade quiet_env traced_request)
                    started)))).(store)
  = List.length
      (snd (run (create_trade quiet_env traced_request) started)).(store) /\
  exists symbol quantity price trade_type,
    py_get retyped_request.(get_json) "symbol" = Ok symbol /\
    py_get retyped_request.(get_json) "quantity" = Ok quantity /\
    py_get retyped_request.(get_json) "price" = Ok price /\
    py_get retyped_request.(get_json) "trade_type" = Ok trade_type /\
    forall (E' : env) (x : option string),
      served (get_trade E' x) "T1"
        (snd (run (create_trade failing_env retyped_request)
                (snd (run (create_trade quiet_env traced_request)
                        started))))
      = Some (Ok {| status := 200;
                    body := obj [("trade_id", PyStr "T1");
                                 ("symbol", symbol);
                                 ("quantity", quantity); ("price", price);
                                 ("trade_type", trade_type);
                                 ("timestamp",
                                  PyStr failing_env.(now_isoformat))] |}).
Proof.
  split; [reflexivity|].
  apply (later_trade_replaces_earlier "T1" quiet_env failing_env
           traced_request retyped_request started _ _
           {| status := 201;
              body := obj [("message", PyStr "Trade created");
                           ("trade_id", PyStr "T1")] |}
           {| status := 201;
              body := obj [("message", PyStr "Trade created");
                           ("trade_id", PyStr "T1")] |}).
  all: vm_compute; reflexivity.
Defined.

(** X6.  POST /trades lets an exception escape in exactly two cases: the
    JSON body is true but not an object ([AttributeError] at the first
    [data.get]), or the five fields are true and trade_id is a list or an
    object ([TypeError] at the assignment to [trades]). *)
Theorem create_trade_raises_exactly_when :
  forall (E : env) (req : request) (w : world Trade) (e : exn),
    (exists w', run (create_trade E req) w = (Raise e, w')) <->
    (e = AttributeError /\ py_truthy req.(get_json) = true /\
     forall d, req.(get_json) <> PyDict d) \/
    (e = TypeError /\
     exists trade_id symbol quantity price trade_type,
       py_get req.(get_json) "trade_id" = Ok trade_id /\
       py_get req.(get_json) "symbol" = Ok symbol /\
       py_get req.(get_json) "quantity" = Ok quantity /\
       py_get req.(get_json) "price" = Ok price /\
       py_get req.(get_json) "trade_type" = Ok trade_type /\
       forallb py_truthy [trade_id; symbol; quantity; price; trade_type]
       = true /\
       py_hashable trade_id = false).
Proof.
  intros E req w e. split.
  - intros [w' H]. unfold create_trade in H. unfold_handler. follow H.
    all: injection H as <- _.
    all: try match goal with
             | Hg : py_get _ _ = Raise _ |- _ =>
                 apply py_get_raises in Hg; destruct Hg as [-> Hd]
             end.
    all: try match goal with
             | Hd : dict_setitem _ _ _ = Raise _ |- _ =>
                 apply dict_setitem_raises in Hd; destruct Hd as [-> Hh]
             end.
    all: repeat match goal with
                | Hv : negb _ = false |- _ => apply negb_false_iff in Hv
                end.
    all: try solve [left; conj; assumption || reflexivity].
    all: try solve [exfalso;
                    match goal with
                    | Hg : py_get ?d _ = Ok _, Hd : forall d', ?d <> PyDict d'
                      |- _ => destruct d; try discriminate Hg;
                              eapply Hd; reflexivity
                    end].
    right. split; [reflexivity|]. do 5 eexists.
    conj; first [reflexivity | eassumption].
  - intros [(-> & Ht & Hd)|(-> & t & s & q & p & ty & Hg & Hs & Hq & Hp & Hty
                             & Hall & Hh)].
    + unfold create_trade. unfold_handler. rewrite Ht. cbn [negb].
      destruct (get_json req) eqn:Hdata;
        try (eexists; reflexivity).
      exfalso. eapply Hd. reflexivity.
    + assert (Hdata : py_truthy req.(get_json) = true).
      { apply (py_get_truthy _ _ _ Hg). cbn [forallb] in Hall.
        now apply andb_prop in Hall. }
      unfold create_trade. unfold_handler.
      rewrite Hdata, Hg, Hs, Hq, Hp, Hty, Hall. unfold dict_setitem.
      rewrite Hh. eexists. reflexivity.
Qed.

End TradeRequests.

(** ** The price of any symbol *)

Module PriceWindow.
Import Binary64 PriceTable.

(** [b * 2^e0] plus a double between -5.0 and 5.0, when [lo * 2^e0] and
    [hi * 2^e0] are doubles of the binade of [b * 2^e0] at least 5 below
    and 5 above it; [K] is 5 in units of [2^e0]. *)
Lemma add_window (b lo hi : positive) (e0 K : Z) (su : spec_float) :
  -50 < e0 <= emax - prec ->
  K * 2 ^ (e0 + 50) = 5629499534213120 ->
  2 ^ (prec - 1) <= Zpos lo -> Zpos hi < 2 ^ prec ->
  Zpos lo + K <= Zpos b -> Zpos b + K <= Zpos hi ->
  valid_binary su = true ->
  SFleb (S754_finite true 5629499534213120 (-50)) su = true ->
  SFleb su (S754_finite false 5629499534213120 (-50)) = true ->
  exists pm,
    SF64add (S754_finite false b e0) su = S754_finite false pm e0 /\
    Zpos lo <= Zpos pm <= Zpos hi.
Proof.
  intros He0 HK Hlo Hhi Hlb Hbh Hv Hge Hle.
  assert (H50 : 0 < 2 ^ (e0 + 50)) by (apply Z.pow_pos_nonneg; lia).
  assert (HK0 : 0 < K) by nia.
  destruct su as [s|s| |s m e].
  - exists b. split; [reflexivity | lia].
  - destruct s; discriminate.
  - discriminate.
  - cbn [valid_binary] in Hv. apply bounded_inv in Hv as [Hemin Hm].
    assert (He : e < -50 \/ (e = -50 /\ Zpos m <= 5629499534213120))
      by exact (SFleb_magnitude s m _ e _ Hge Hle).
    unfold SF64add, SFadd. rewrite Z.min_r by lia.
    unfold shl_align. rewrite Z.sub_diag.
    destruct (e - e0) as [|d|d] eqn:Hd; try lia.
    cbn [fst].
    change (Pos.iter xO b d) with (shift_pos d b).
    rewrite shift_pos_correct. change (Z.pow_pos 2 d) with (2 ^ Zpos d).
    assert (Hpow : 0 < 2 ^ Zpos d) by (apply Z.pow_pos_nonneg; lia).
    assert (Hbound : Zpos m <= K * 2 ^ Zpos d).
    { destruct He as [He|[He Hm5]].
      - assert (Hd1 : 2 ^ (e0 + 51) <= 2 ^ Zpos d)
          by (apply Z.pow_le_mono_r; lia).
        replace (e0 + 51) with (Z.succ (e0 + 50)) in Hd1 by lia.
        rewrite Z.pow_succ_r in Hd1 by lia.
        change (2 ^ prec) with 9007199254740992 in Hm. nia.
      - replace (Zpos d) with (e0 + 50) by lia. lia. }
    assert (HL : Zpos lo * 2 ^ Zpos d + K * 2 ^ Zpos d
                 <= Zpos b * 2 ^ Zpos d) by nia.
    assert (HU : Zpos b * 2 ^ Zpos d + K * 2 ^ Zpos d
                 <= Zpos hi * 2 ^ Zpos d) by nia.
    destruct (binary_normalize_window
                (cond_Zopp false (2 ^ Zpos d * Zpos b) + cond_Zopp s (Zpos m))
                e e0 (Zpos lo) (Zpos hi))
      as (pm & Hn & Hpm).
    + lia.
    + unfold emin in *. lia.
    + exact Hlo.
    + exact Hhi.
    + replace (e0 - e) with (Zpos d) by lia.
      destruct s; cbn [cond_Zopp]; lia.
    + exists pm. split; [exact Hn | exact Hpm].
Qed.

(** The same on the floats of the program: [base + u] lies between [lo]
    and [hi] and is not zero. *)
Lemma float_add_window (base lo hi : float) (b l h : positive) (e0 K : Z)
    (u : float) :
  Prim2SF base = S754_finite false b e0 ->
  Prim2SF lo = S754_finite false l e0 ->
  Prim2SF hi = S754_finite false h e0 ->
  -50 < e0 <= emax - prec ->
  K * 2 ^ (e0 + 50) = 5629499534213120 ->
  2 ^ (prec - 1) <= Zpos l -> Zpos h < 2 ^ prec ->
  Zpos l + K <= Zpos b -> Zpos b + K <= Zpos h ->
  (-5 <=? u)%float = true -> (u <=? 5)%float = true ->
  (lo <=? base + u)%float = true /\ (base + u <=? hi)%float = true /\
  (base + u =? 0)%float = false.
Proof.
  intros Hb Hl Hh He0 HK Hlo Hhi Hlb Hbh.
  rewrite !leb_spec, eqb_spec, add_spec, Hb, Hl, Hh.
  change (Prim2SF (-5)) with (S754_finite true 5629499534213120 (-50)).
  change (Prim2SF 5) with (S754_finite false 5629499534213120 (-50)).
  change (Prim2SF 0) with (S754_zero false).
  intros Hge Hle.
  destruct (add_window b l h e0 K (Prim2SF u) He0 HK Hlo Hhi Hlb Hbh
              (Prim2SF_valid u) Hge Hle) as (pm & -> & Hpm).
  rewrite !SFleb_same_exponent. conj; [lia | lia | reflexivity].
Qed.

Ltac window_side :=
  first [ assumption | reflexivity | discriminate
        | split; [reflexivity | discriminate] ].

(** The price of a hashable symbol: the table price plus a double between
    -5.0 and 5.0 is a double within 5 of the table price, and not zero. *)
Lemma table_price_window (symbol : pyval) (u : float) :
  (-5 <=? u)%float = true -> (u <=? 5)%float = true ->
  (price_lookup symbol - 5 <=? price_lookup symbol + u)%float = true /\
  (price_lookup symbol + u <=? price_lookup symbol + 5)%float = true /\
  (price_lookup symbol + u =? 0)%float = false.
Proof.
  intros Hge Hle.
  assert (H100 : (100 - 5 <=? 100 + u)%float = true /\
                 (100 + u <=? 100 + 5)%float = true /\
                 (100 + u =? 0)%float = false).
  { change (100 - 5)%float with 95%float.
    change (100 + 5)%float with 105%float.
    apply (float_add_window 100 95 105 7036874417766400 6685030696878080
             7388718138654720 (-46) 351843720888320); window_side. }
  unfold price_lookup.
  destruct symbol as [|b|z|f|s|l|d]; try exact H100.
  destruct (s =? "AAPL")%string;
    [|destruct (s =? "GOOGL")%string; [|destruct (s =? "MSFT")%string]].
  - change (150 - 5)%float with 145%float.
    change (150 + 5)%float with 155%float.
    apply (float_add_window 150 145 155 5277655813324800 5101733952880640
             5453577673768960 (-45) 175921860444160); window_side.
  - change (2800 - 5)%float with 2795%float.
    change (2800 + 5)%float with 2805%float.
    apply (float_add_window 2800 2795 2805 6157265115545600 6146269999267840
             6168260231823360 (-41) 10995116277760); window_side.
  - change (300 - 5)%float with 295%float.
    change (300 + 5)%float with 305%float.
    apply (float_add_window 300 295 305 5277655813324800 5189694883102720
             5365616743546880 (-44) 87960930222080); window_side.
  - exact H100.
Qed.

End PriceWindow.

(** ** POST /prices *)

Module PricingRequests.
Import PricingService PriceTable Paths PriceWindow Samples Scenarios.

Lemma base_prices_lookup (symbol : pyval) (base : float) :
  dict_get base_prices symbol 100%float = Ok base ->
  base = price_lookup symbol.
Proof.
  unfold dict_get, base_prices, dict_find. rewrite !PnLFacts.py_key_eq_str.
  destruct symbol; cbn [py_hashable price_lookup]; try discriminate;
    try (intros [= <-]; reflexivity).
  rewrite (String.eqb_sym s "AAPL"), (String.eqb_sym s "GOOGL"),
    (String.eqb_sym s "MSFT").
  destruct ("AAPL" =? s)%string; [intros [= <-]; reflexivity|].
  destruct ("GOOGL" =? s)%string; [intros [= <-]; reflexivity|].
  destruct ("MSFT" =? s)%string; intros [= <-]; reflexivity.
Qed.

Lemma price_lookup_table (s : string) (base : float) :
  In (s, base) [("AAPL", 150); ("GOOGL", 2800); ("MSFT", 300)]%float ->
  price_lookup (PyStr s) = base.
Proof.
  cbn [In]. intros [H|[H|[H|[]]]]; injection H as <- <-; reflexivity.
Qed.

(** X7.  When POST /prices answers 504 the draw was below 0.1, and the
    request has slept five seconds and nothing else: no price was
    computed, and the P&L service was not called. *)
Theorem pricing_timeout_sleeps_and_stops :
  forall (E : env) (req : request) (w w' : world Empty_set) (r : response),
    run (compute_trade_price E req) w = (Ok r, w') ->
    r.(status) = 504 ->
    (E.(random_random) <? 0.1)%float = true /\
    r.(body) = obj [("error", PyStr "Timeout")] /\
    sleeps (added w w') = [5%float] /\
    calls (added w w') = [].
Proof.
  intros E req w w' r Hrun Hst.
  destruct (compute_trade_price_paths _ _ _ _ _ Hrun)
    as (evs & Hev & _ & [(_ & H400)|[(Hr & Hres & ->)|
         (t & s & q & b & _ & _ & _ & _ & _ & _ & _ & _ & Hres & _)]]).
  - rewrite (H400 r eq_refl) in Hst. discriminate.
  - injection Hres as ->. rewrite (added_app _ _ _ Hev).
    conj; [exact Hr | reflexivity | reflexivity | reflexivity].
  - injection Hres as ->. discriminate.
Qed.

Lemma pricing_timeout_sleeps_and_stops_witness :
  (failing_env.(random_random) <? 0.1)%float = true /\
  body {| status := 504; body := obj [("error", PyStr "Timeout")] |}
  = obj [("error", PyStr "Timeout")] /\
  sleeps (added started
            (snd (run (compute_trade_price failing_env priced_request)
                    started)))
  = [5%float] /\
  calls (added started
           (snd (run (compute_trade_price failing_env priced_request)
                   started)))
  = [].
Proof.
  apply (pricing_timeout_sleeps_and_stops failing_env priced_request started).
  - vm_compute. reflexivity.
  - reflexivity.
Defined.

(** X8.  A POST /prices answered 200 has slept once, for the latency it
    drew between 0.1 and 0.5, and has called the P&L service exactly
    once, with the trade_id, symbol and quantity of the request and the
    very price it answers: the table price of the symbol plus the draw. *)
Theorem priced_trade_is_forwarded_once :
  forall (E : env) (req : request) (w w' : world Empty_set) (r : response),
    run (compute_trade_price E req) w = (Ok r, w') ->
    r.(status) = 200 ->
    exists (trade_id symbol quantity : pyval) (price : float),
      py_get req.(get_json) "trade_id" = Ok trade_id /\
      py_get req.(get_json) "symbol" = Ok symbol /\
      py_get req.(get_json) "quantity" = Ok quantity /\
      price = (price_lookup symbol + E.(random_uniform) (-5) 5)%float /\
      r.(body) = obj [("trade_id", trade_id);
                      ("computed_price", PyFloat price)] /\
      sleeps (added w w') = [E.(random_uniform) 0.1 0.5] /\
      calls (added w w')
      = [{| url := "http://localhost:5002/pnl";
            json := obj [("trade_id", trade_id); ("symbol", symbol);
                         ("price", PyFloat price); ("quantity", quantity)];
            headers := [("X-Trace-Id", trace_id_of E req.(x_trace_id))] |}].
Proof.
  intros E req w w' r Hrun Hst.
  destruct (compute_trade_price_paths _ _ _ _ _ Hrun)
    as (evs & Hev & _ & [(_ & H400)|[(_ & Hres & _)|
         (t & s & q & b & Ht & Hs & Hq & _ & _ & _ & _ & Hb & Hres & Hsl
          & Hc)]]).
  - rewrite (H400 r eq_refl) in Hst. discriminate.
  - injection Hres as ->. discriminate.
  - injection Hres as ->. apply base_prices_lookup in Hb. subst b.
    rewrite (added_app _ _ _ Hev).
    exists t, s, q, (price_lookup s + E.(random_uniform) (-5) 5)%float.
    conj; first [assumption | reflexivity].
Qed.

Lemma priced_trade_is_forwarded_once_witness :
  exists (trade_id symbol quantity : pyval) (price : float),
    py_get priced_request.(get_json) "trade_id" = Ok trade_id /\
    py_get priced_request.(get_json) "symbol" = Ok symbol /\
    py_get priced_request.(get_json) "quantity" = Ok quantity /\
    price = (price_lookup symbol + quiet_env.(random_uniform) (-5) 5)%float /\
    body {| status := 200;
            body := obj [("trade_id", PyStr "T1");
                         ("computed_price", PyFloat 150)] |}
    = obj [("trade_id", trade_id); ("computed_price", PyFloat price)] /\
    sleeps (added started
              (snd (run (compute_trade_price quiet_env priced_request)
                      started)))
    = [quiet_env.(random_uniform) 0.1 0.5] /\
    calls (added started
             (snd (run (compute_trade_price quiet_env priced_request)
                     started)))
    = [{| url := "http://localhost:5002/pnl";
          json := obj [("trade_id", trade_id); ("symbol", symbol);
                       ("price", PyFloat price); ("quantity", quantity)];
          headers :=
            [("X-Trace-Id", trace_id_of quiet_env
                              priced_request.(x_trace_id))] |}].
Proof.
  apply (priced_trade_is_forwarded_once quiet_env priced_request started).
  - vm_compute. reflexivity.
  - reflexivity.
Defined.

(** X9.  For AAPL, GOOGL and MSFT the computed_price of a 200 answer is
    the table price (150.0, 2800.0, 300.0) plus the draw, and lies within
    5 of the table price in binary64 arithmetic when the draw is between
    -5.0 and 5.0 as [random.uniform(-5, 5)] returns it. *)
Theorem listed_symbol_price_in_window :
  forall (E : env) (req : request) (w w' : world Empty_set) (r : response)
         (s : string) (base : float),
    run (compute_trade_price E req) w = (Ok r, w') ->
    r.(status) = 200 ->
    py_get req.(get_json) "symbol" = Ok (PyStr s) ->
    In (s, base) [("AAPL", 150); ("GOOGL", 2800); ("MSFT", 300)]%float ->
    (-5 <=? E.(random_uniform) (-5) 5)%float = true ->
    (E.(random_uniform) (-5) 5 <=? 5)%float = true ->
    exists price : float,
      py_get r.(body) "computed_price" = Ok (PyFloat price) /\
      price = (base + E.(random_uniform) (-5) 5)%float /\
      (base - 5 <=? price)%float = true /\
      (price <=? base + 5)%float = true.
Proof.
  intros E req w w' r s base Hrun Hst Hsym Hin Hlo Hhi.
  destruct (compute_trade_price_paths _ _ _ _ _ Hrun)
    as (evs & Hev & _ & [(_ & H400)|[(_ & Hres & _)|
         (t & s' & q & b & _ & Hs & _ & _ & _ & _ & _ & Hb & Hres & _)]]).
  - rewrite (H400 r eq_refl) in Hst. discriminate.
  - injection Hres as ->. discriminate.
  - injection Hres as ->. apply base_prices_lookup in Hb. subst b.
    rewrite Hsym in Hs. injection Hs as <-.
    rewrite (price_lookup_table _ _ Hin).
    destruct (table_price_window (PyStr s) _ Hlo Hhi) as (Hl & Hh & _).
    rewrite (price_lookup_table _ _ Hin) in Hl, Hh.
    eexists. conj; [reflexivity | reflexivity | exact Hl | exact Hh].
Qed.

Lemma listed_symbol_price_in_window_witness :
  exists price : float,
    py_get (body {| status := 200;
                    body := obj [("trade_id", PyStr "T1");
                                 ("computed_price", PyFloat 150)] |})
      "computed_price" = Ok (PyFloat price) /\
    price = (150 + quiet_env.(random_uniform) (-5) 5)%float /\
    (150 - 5 <=? price)%float = true /\
    (price <=? 150 + 5)%float = true.
Proof.
  apply (listed_symbol_price_in_window quiet_env priced_request started
           (snd (run (compute_trade_price quiet_env priced_request) started))
           _ "AAPL" 150%float).
  - vm_compute. reflexivity.
  - reflexivity.
  - reflexivity.
  - left. reflexivity.
  - reflexivity.
  - reflexivity.
Defined.

Lemma compute_trade_price_400 (E : env) (req : request)
    (w w' : world Empty_set) (r : response) :
  run (compute_trade_price E req) w = (Ok r, w') ->
  r.(status) = 400 ->
  py_truthy req.(get_json) = false \/
  exists trade_id symbol quantity,
    py_get req.(get_json) "trade_id" = Ok trade_id /\
    py_get req.(get_json) "symbol" = Ok symbol /\
    py_get req.(get_json) "quantity" = Ok quantity /\
    (py_truthy trade_id = false \/ py_truthy symbol = false \/
     quantity = PyNone).
Proof.
  intros H Hst.
  unfold compute_trade_price, compute_price in H. unfold_handler.
  follow H.
  all: injection H as <- _; cbn [status] in Hst; try discriminate Hst.
  all: try solve [left; now apply negb_true_iff].
  all: right; do 3 eexists; conj; try reflexivity.
  all: match goal with
       | Hv : _ || _ = true |- _ =>
           apply orb_true_iff in Hv; destruct Hv as [Hv|Hv];
           [apply orb_true_iff in Hv; destruct Hv as [Hv|Hv];
            apply negb_true_iff in Hv; auto|]
       end.
  all: right; right;
    match goal with
    | Hv : is_None ?q = true |- _ => destruct q; try discriminate Hv
    end;
    reflexivity.
Qed.

(** X10.  POST /prices answers 400 in exactly these cases: the JSON body
    is false, or it is an object whose trade_id is false, whose symbol is
    false, or whose quantity is null.  A quantity of 0 is not refused. *)
Theorem pricing_rejects_exactly_when :
  forall (E : env) (req : request) (w : world Empty_set),
    (exists r w', run (compute_trade_price E req) w = (Ok r, w') /\
                  r.(status) = 400) <->
    py_truthy req.(get_json) = false \/
    exists trade_id symbol quantity,
      py_get req.(get_json) "trade_id" = Ok trade_id /\
      py_get req.(get_json) "symbol" = Ok symbol /\
      py_get req.(get_json) "quantity" = Ok quantity /\
      (py_truthy trade_id = false \/ py_truthy symbol = false \/
       quantity = PyNone).
Proof.
  intros E req w. split.
  - intros (r & w' & H & Hst).
    exact (compute_trade_price_400 _ _ _ _ _ H Hst).
  - intros [Hd|(t & s & q & Ht & Hs & Hq & Hbad)].
    + unfold compute_trade_price. unfold_handler. rewrite Hd. cbn [negb].
      do 2 eexists. split; reflexivity.
    + unfold compute_trade_price. unfold_handler.
      destruct (py_truthy (get_json req)); cbn [negb];
        [|do 2 eexists; split; reflexivity].
      rewrite Ht, Hs, Hq.
      assert (Hv : negb (py_truthy t) || negb (py_truthy s) || is_None q
                   = true).
      { destruct Hbad as [->|[->| ->]]; cbn [negb is_None orb];
          rewrite ?orb_true_r; reflexivity. }
      rewrite Hv. do 2 eexists. split; reflexivity.
Qed.

End PricingRequests.

(** ** POST /pnl and GET /pnl/{trade_id} *)

Lemma dict_find_In {V} (d : pydict V) (k : pyval) (v : V) :
  dict_find d k = Some v -> In v (map snd d).
Proof.
  induction d as [|[k' v'] d IH]; cbn [dict_find map snd In]; [discriminate|].
  destruct (py_key_eq k' k); [intros [= ->]; now left | auto].
Qed.

Module PnLRequests.
Import PnLService PnLOps CostBasis PnLRule PnLFacts Paths Routes Samples
  Scenarios.

Lemma get_pnl_store (E : env) (x : option string) (tid : string)
    (w : world pyval) :
  (snd (run (get_pnl E x tid) w)).(store) = w.(store).
Proof.
  unfold get_pnl, dict_get. unfold_handler. cbn [py_hashable].
  cbv beta iota. destruct (negb _); reflexivity.
Qed.

Lemma get_pnl_missing (E : env) (x : option string) (tid : string)
    (w : world pyval) :
  dict_find w.(store) (PyStr tid) = None ->
  fst (run (get_pnl E x tid) w)
  = Ok {| status := 404; body := obj [("error", PyStr "P&L not found")] |}.
Proof.
  intros H. unfold get_pnl, dict_get. unfold_handler. cbn [py_hashable].
  now rewrite H.
Qed.

Lemma compute_pnl_frame (E : env) (req : request) (w w' : world pyval)
    (res : result response) (b : string) :
  run (compute_pnl E req) w = (res, w') ->
  posts b req = false ->
  dict_find w'.(store) (PyStr b) = dict_find w.(store) (PyStr b).
Proof.
  intros Hrun Hp.
  destruct (compute_pnl_paths _ _ _ _ _ Hrun)
    as (evs & _ & [(-> & _)|(t & s & p & q & c & d & v & Ht & _ & _ & _ & _
                              & _ & _ & _ & _ & _ & _ & -> & _)]).
  - reflexivity.
  - apply dict_find_update_other. exact (posts_false _ _ _ Hp Ht).
Qed.

Lemma balanced_truthy (record : pyval) :
  balanced record -> py_truthy record = true.
Proof. intros (s & p & q & fp & fq & _ & _ & ->). reflexivity. Qed.

Lemma handle_keeps_balanced (o : op) (w : world pyval) :
  Forall (fun kv => balanced (snd kv)) w.(store) ->
  Forall (fun kv => balanced (snd kv)) (snd (run (handle o) w)).(store).
Proof.
  intros Hinv. destruct o as [E req|E x tid]; cbn [handle].
  - destruct (run (compute_pnl E req) w) as [res w'] eqn:Hrun. cbn [snd].
    destruct (compute_pnl_paths _ _ _ _ _ Hrun)
      as (evs & _ & [(-> & _)|(t & s & p & q & c & d & v & _ & _ & _ & _ & _
                                & Hc & Hd & Hv & _ & _ & _ & -> & _)]);
      [exact Hinv|].
    apply (dict_update_values balanced); [exact Hinv|].
    apply base_costs_lookup in Hc. subst c.
    apply py_sub_float_inv in Hd. destruct Hd as (fp & Hfp & ->).
    apply py_float_mul_inv in Hv. destruct Hv as (fq & Hfq & ->).
    exists s, p, q, fp, fq. conj; [exact Hfp | exact Hfq | reflexivity].
  - rewrite get_pnl_store. exact Hinv.
Qed.

Lemma exec_balanced (ops : list op) :
  Forall (fun kv => balanced (snd kv)) (exec handle ops started).(store).
Proof.
  apply (exec_invariant handle (Forall (fun kv => balanced (snd kv)))).
  - intros o w. apply handle_keeps_balanced.
  - constructor.
Qed.

(** X11.  A POST /pnl that is not answered 200 (a 400, the 500 of the
    simulated inconsistency, or an exception) leaves the records as they
    were and has made no call to the risk service. *)
Theorem failed_pnl_changes_nothing :
  forall (E : env) (req : request) (w w' : world pyval)
         (res : result response),
    run (compute_pnl E req) w = (res, w') ->
    (forall r, res = Ok r -> r.(status) <> 200) ->
    w'.(store) = w.(store) /\ calls (added w w') = [].
Proof.
  intros E req w w' res Hrun Hno.
  destruct (compute_pnl_paths _ _ _ _ _ Hrun)
    as (evs & Hev & [(Hs & Hc & _)|(t & s & p & q & c & d & v & _ & _ & _ & _
                                     & _ & _ & _ & _ & _ & _ & Hres & _)]).
  - rewrite (added_app _ _ _ Hev). split; assumption.
  - exfalso. apply (Hno _ Hres). reflexivity.
Qed.

Lemma failed_pnl_changes_nothing_witness :
  let w' := snd (run (compute_pnl quiet_env worded_pnl) aapl_world) in
  w'.(store) = aapl_world.(store) /\ calls (added aapl_world w') = [].
Proof.
  apply (failed_pnl_changes_nothing quiet_env worded_pnl aapl_world _
           (fst (run (compute_pnl quiet_env worded_pnl) aapl_world))).
  - vm_compute. reflexivity.
  - intros r Hr. vm_compute in Hr. discriminate Hr.
Defined.

(** X12.  A POST /pnl answered 200 has stored one record and has called
    the risk service exactly once, with the trade_id and the quantity of
    the request and the very pnl_value it answers and stores. *)
Theorem computed_pnl_is_assessed_once :
  forall (E : env) (req : request) (w w' : world pyval) (r : response),
    run (compute_pnl E req) w = (Ok r, w') ->
    r.(status) = 200 ->
    exists (trade_id quantity record : pyval) (pnl_value : float),
      py_get req.(get_json) "trade_id" = Ok trade_id /\
      py_get req.(get_json) "quantity" = Ok quantity /\
      r.(body) = obj [("trade_id", trade_id);
                      ("pnl_value", PyFloat pnl_value)] /\
      In record (map snd w'.(store)) /\
      py_get record "pnl_value" = Ok (PyFloat pnl_value) /\
      py_get record "quantity" = Ok quantity /\
      calls (added w w')
      = [{| url := "http://localhost:5003/risk";
            json := obj [("trade_id", trade_id);
                         ("pnl_value", PyFloat pnl_value);
                         ("quantity", quantity)];
            headers := [("X-Trace-Id", trace_id_of E req.(x_trace_id))] |}].
Proof.
  intros E req w w' r Hrun Hst.
  destruct (compute_pnl_paths _ _ _ _ _ Hrun)
    as (evs & Hev & [(_ & _ & Hbad)|(t & s & p & q & c & d & v & Ht & _ & _
                                      & Hq & _ & _ & _ & _ & _ & _ & Hres
                                      & Hs & Hc)]).
  - destruct (Hbad r eq_refl) as [H|H]; rewrite H in Hst; discriminate.
  - injection Hres as ->. rewrite (added_app _ _ _ Hev), Hs.
    exists t, q, (pnl_record v s p q c), v.
    conj; try assumption; try reflexivity.
    apply dict_update_In.
Qed.

Lemma computed_pnl_is_assessed_once_witness :
  exists (trade_id quantity record : pyval) (pnl_value : float),
    py_get (pnl_request "T1" "AAPL" (PyInt 150) (PyInt 10)).(get_json)
      "trade_id" = Ok trade_id /\
    py_get (pnl_request "T1" "AAPL" (PyInt 150) (PyInt 10)).(get_json)
      "quantity" = Ok quantity /\
    aapl_answer.(body) = obj [("trade_id", trade_id);
                              ("pnl_value", PyFloat pnl_value)] /\
    In record (map snd aapl_world.(store)) /\
    py_get record "pnl_value" = Ok (PyFloat pnl_value) /\
    py_get record "quantity" = Ok quantity /\
    calls (added started aapl_world)
    = [{| url := "http://localhost:5003/risk";
          json := obj [("trade_id", trade_id);
                       ("pnl_value", PyFloat pnl_value);
                       ("quantity", quantity)];
          headers :=
            [("X-Trace-Id",
              trace_id_of quiet_env
                (pnl_request "T1" "AAPL" (PyInt 150)
                   (PyInt 10)).(x_trace_id))] |}].
Proof.
  apply (computed_pnl_is_assessed_once quiet_env
           (pnl_request "T1" "AAPL" (PyInt 150) (PyInt 10)) started).
  - vm_compute. reflexivity.
  - reflexivity.
Defined.

(** X13.  On a service that started empty, after any sequence of POST
    /pnl and GET /pnl/{trade_id}, every stored record holds the symbol,
    price and quantity of one request, the cost basis of that symbol, and
    for pnl_value the product (price - cost) * quantity of these very
    fields. *)
Theorem stored_pnl_is_balanced :
  forall ops : list op,
    Forall (fun kv => balanced (snd kv)) (exec handle ops started).(store).
Proof.
  intros ops.
  apply (exec_invariant handle (Forall (fun kv => balanced (snd kv)))).
  - intros o w. apply handle_keeps_balanced.
  - constructor.
Qed.

(** X14.  On a service that started empty, after any sequence of
    requests, GET /pnl/{trade_id} for an id that is one path segment
    reaches [get_pnl], which answers 200 with the stored record when the
    store has one for the trade_id, and 404 otherwise: the test
    [if not pnl] never takes a stored record for a missing one. *)
Theorem get_pnl_answers_the_stored_record :
  forall (ops : list op) (E : env) (x : option string) (tid : string),
    segment tid = true ->
    served (get_pnl E x) tid (exec handle ops started)
    = Some match dict_find (exec handle ops started).(store) (PyStr tid) with
           | Some record => Ok {| status := 200; body := record |}
           | None => Ok {| status := 404;
                           body := obj [("error", PyStr "P&L not found")] |}
           end.
Proof.
  intros ops E x tid Hseg. rewrite (served_segment _ _ _ Hseg). f_equal.
  destruct (dict_find _ _) as [record|] eqn:Hf.
  - apply Overwrite.get_pnl_found; [exact Hf|].
    apply balanced_truthy.
    pose proof (exec_balanced ops) as Hall.
    rewrite Forall_forall in Hall.
    apply dict_find_In, in_map_iff in Hf. destruct Hf as ([k v] & <- & Hin).
    exact (Hall _ Hin).
  - now apply get_pnl_missing.
Qed.

Lemma get_pnl_answers_the_stored_record_witness :
  segment "T1" = true /\
  served (get_pnl quiet_env None) "T1"
    (exec handle
       [Compute quiet_env (pnl_request "T1" "AAPL" (PyInt 150) (PyInt 10));
        Compute failing_env (pnl_request "T3" "MSFT" (PyInt 300) (PyInt 1))]
       started)
  = Some (Ok {| status := 200;
                body := pnl_record 100 (PyStr "AAPL") (PyInt 150) (PyInt 10)
                          140 |}).
Proof.
  split; [reflexivity|].
  exact (get_pnl_answers_the_stored_record
           [Compute quiet_env (pnl_request "T1" "AAPL" (PyInt 150) (PyInt 10));
            Compute failing_env (pnl_request "T3" "MSFT" (PyInt 300)
                                   (PyInt 1))]
           quiet_env None "T1" eq_refl).
Defined.

(** X15.  On a service that started empty, after any sequence of
    requests none of which posted the trade_id, GET /pnl/{trade_id}
    answers 404 "P&L not found". *)
Theorem unposted_pnl_is_not_found :
  forall (tid : string) (ops : list op) (E : env) (x : option string),
    forallb (fun o => negb (pnl_posts tid o)) ops = true ->
    fst (run (get_pnl E x tid) (exec handle ops started))
    = Ok {| status := 404; body := obj [("error", PyStr "P&L not found")] |}.
Proof.
  intros tid ops E x Hops. apply get_pnl_missing.
  apply (exec_invariant_on handle (fun o => negb (pnl_posts tid o))
           (fun s => dict_find s (PyStr tid) = None)); [|exact Hops|].
  - intros [E' req|E' x' tid'] w Hq Hw; cbn [handle pnl_posts] in *.
    + apply negb_true_iff in Hq.
      destruct (run (compute_pnl E' req) w) as [res w'] eqn:Hrun.
      cbn [snd]. now rewrite (compute_pnl_frame _ _ _ _ _ _ Hrun Hq).
    + now rewrite get_pnl_store.
  - reflexivity.
Qed.

Lemma unposted_pnl_is_not_found_witness :
  fst (run (get_pnl quiet_env None "T2")
         (exec handle
            [Compute quiet_env (pnl_request "T1" "AAPL" (PyInt 150)
                                  (PyInt 10));
             Fetch quiet_env None "T2";
             Compute failing_env (pnl_request "T3" "MSFT" (PyInt 300)
                                    (PyInt 1))] started))
  = Ok {| status := 404; body := obj [("error", PyStr "P&L not found")] |}.
Proof.
  apply (unposted_pnl_is_not_found "T2"
           [Compute quiet_env (pnl_request "T1" "AAPL" (PyInt 150)
                                 (PyInt 10));
            Fetch quiet_env None "T2";
            Compute failing_env (pnl_request "T3" "MSFT" (PyInt 300)
                                   (PyInt 1))]).
  vm_compute. reflexivity.
Defined.

End PnLRequests.

(** ** POST /risk and GET /risk/{trade_id} *)

Module RiskRequests.
Import RiskService RiskOps RiskRule RiskFacts RiskStore Paths Routes Samples
  Scenarios.

Lemma get_risk_missing (E : env) (x : option string) (tid : string)
    (w : world pyval) :
  dict_find w.(store) (PyStr tid) = None ->
  fst (run (get_risk E x tid) w)
  = Ok {| status := 404;
          body := obj [("error", PyStr "Risk assessment not found")] |}.
Proof.
  intros H. unfold get_risk, dict_get. unfold_handler. cbn [py_hashable].
  now rewrite H.
Qed.

Lemma assess_trade_risk_frame (E : env) (req : request) (w w' : world pyval)
    (res : result response) (b : string) :
  run (assess_trade_risk E req) w = (res, w') ->
  posts b req = false ->
  dict_find w'.(store) (PyStr b) = dict_find w.(store) (PyStr b).
Proof.
  intros Hrun Hp.
  destruct (assess_trade_risk_paths _ _ _ _ _ Hrun)
    as (evs & _ & _ & [(-> & _)|(t & p & q & l & Ht & _ & _ & _ & _ & _ & _
                                  & _ & _ & _ & ->)]).
  - reflexivity.
  - apply dict_find_update_other. exact (posts_false _ _ _ Hp Ht).
Qed.

Lemma consistent_truthy (record : pyval) :
  consistent record -> py_truthy record = true.
Proof. intros (l & p & q & -> & _). reflexivity. Qed.

Lemma exec_consistent (ops : list op) :
  Forall (fun kv => consistent (snd kv)) (exec handle ops started).(store).
Proof.
  apply (exec_invariant handle (Forall (fun kv => consistent (snd kv)))).
  - intros o w. apply handle_keeps_consistent.
  - constructor.
Qed.

(** X16.  POST /risk calls no other service, whatever the request; and
    when it is not answered 200 (a 400, the 503 of the simulated outage,
    or an exception) the assessments are left as they were. *)
Theorem failed_risk_changes_nothing :
  forall (E : env) (req : request) (w w' : world pyval)
         (res : result response),
    run (assess_trade_risk E req) w = (res, w') ->
    calls (added w w') = [] /\
    ((forall r, res = Ok r -> r.(status) <> 200) ->
     w'.(store) = w.(store)).
Proof.
  intros E req w w' res Hrun.
  destruct (assess_trade_risk_paths _ _ _ _ _ Hrun)
    as (evs & Hev & Hc & Halt).
  rewrite (added_app _ _ _ Hev). split; [exact Hc|].
  intros Hno.
  destruct Halt as [(Hs & _)|(t & p & q & l & _ & _ & _ & _ & _ & _ & _ & _
                              & _ & Hres & _)]; [exact Hs|].
  exfalso. apply (Hno _ Hres). reflexivity.
Qed.

Lemma failed_risk_changes_nothing_witness :
  let w' := snd (run (assess_trade_risk failing_env
                        (risk_request "T2" (PyFloat 20) (PyInt 10)))
                   high_world) in
  calls (added high_world w') = [] /\
  ((forall r,
       fst (run (assess_trade_risk failing_env
                   (risk_request "T2" (PyFloat 20) (PyInt 10))) high_world)
       = Ok r -> r.(status) <> 200) ->
   w'.(store) = high_world.(store)).
Proof.
  apply (failed_risk_changes_nothing failing_env
           (risk_request "T2" (PyFloat 20) (PyInt 10)) high_world).
  vm_compute. reflexivity.
Defined.

(** X17.  [assess_risk] raises in exactly two cases, and then a
    [TypeError]: pnl_value is not a number, or pnl_value is negative and
    quantity is not a number.  With a pnl_value that is not negative the
    quantity is never compared: any quantity is classified. *)
Theorem assess_risk_raises_exactly_when :
  forall (pnl_value quantity : pyval) (e : exn),
    assess_risk pnl_value quantity = Raise e <->
    e = TypeError /\
    (as_num pnl_value = None \/
     (below pnl_value 0 = true /\ as_num quantity = None)).
Proof.
  intros p q e. unfold assess_risk, py_lt_int, py_gt_int, below, rbind.
  destruct (as_num p) as [x|].
  - destruct (match num_compare x (NInt 0) with
              | Some Lt => true
              | _ => false
              end).
    + destruct (as_num q) as [y|].
      * split.
        -- repeat match goal with
                  | |- context [if ?b then _ else _] => destruct b
                  end; discriminate.
        -- intros (_ & [H|[_ H]]); discriminate H.
      * split.
        -- intros [= <-]. auto.
        -- intros (-> & _). reflexivity.
    + split.
      * repeat match goal with
               | |- context [if ?b then _ else _] => destruct b
               end; discriminate.
      * intros (_ & [H|[H _]]); discriminate H.
  - split.
    + intros [= <-]. auto.
    + intros (-> & _). reflexivity.
Qed.

Lemma assess_trade_risk_400 (E : env) (req : request) (w w' : world pyval)
    (r : response) :
  run (assess_trade_risk E req) w = (Ok r, w') ->
  r.(status) = 400 ->
  py_truthy req.(get_json) = false \/
  exists trade_id pnl_value quantity,
    py_get req.(get_json) "trade_id" = Ok trade_id /\
    py_get req.(get_json) "pnl_value" = Ok pnl_value /\
    py_get req.(get_json) "quantity" = Ok quantity /\
    (py_truthy trade_id = false \/ pnl_value = PyNone \/
     quantity = PyNone).
Proof.
  intros H Hst.
  unfold assess_trade_risk in H. unfold_handler. follow H.
  all: injection H as <- _; cbn [status] in Hst; try discriminate Hst.
  all: try solve [left; now apply negb_true_iff].
  all: right; do 3 eexists; conj; try reflexivity.
  all: match goal with
       | Hv : negb (forallb _ _) = true |- _ =>
           apply negb_true_iff in Hv; cbn [forallb py_truthy] in Hv;
           rewrite andb_true_r in Hv
       end.
  all: match goal with
       | Hv : py_truthy ?t && (negb (is_None ?p) && negb (is_None ?q))
              = false |- _ =>
           destruct (py_truthy t); [|auto];
           destruct p; try (right; left; reflexivity);
           destruct q; try (right; right; reflexivity);
           discriminate Hv
       end.
Qed.

(** X18.  POST /risk answers 400 in exactly these cases: the JSON body is
    false, or it is an object whose trade_id is false, whose pnl_value is
    null or whose quantity is null.  A pnl_value of 0 and a quantity of 0
    are not refused. *)
Theorem risk_rejects_exactly_when :
  forall (E : env) (req : request) (w : world pyval),
    (exists r w', run (assess_trade_risk E req) w = (Ok r, w') /\
                  r.(status) = 400) <->
    py_truthy req.(get_json) = false \/
    exists trade_id pnl_value quantity,
      py_get req.(get_json) "trade_id" = Ok trade_id /\
      py_get req.(get_json) "pnl_value" = Ok pnl_value /\
      py_get req.(get_json) "quantity" = Ok quantity /\
      (py_truthy trade_id = false \/ pnl_value = PyNone \/
       quantity = PyNone).
Proof.
  intros E req w. split.
  - intros (r & w' & H & Hst).
    exact (assess_trade_risk_400 _ _ _ _ _ H Hst).
  - intros [Hd|(t & p & q & Ht & Hp & Hq & Hbad)].
    + unfold assess_trade_risk. unfold_handler. rewrite Hd. cbn [negb].
      do 2 eexists. split; reflexivity.
    + unfold assess_trade_risk. unfold_handler.
      destruct (py_truthy (get_json req)); cbn [negb];
        [|do 2 eexists; split; reflexivity].
      rewrite Ht, Hp, Hq.
      assert (Hv : negb (forallb py_truthy
                           [t; PyBool (negb (is_None p));
                            PyBool (negb (is_None q))]) = true).
      { cbn [forallb py_truthy].
        destruct Hbad as [->|[->| ->]]; cbn [negb is_None andb];
          rewrite ?andb_false_r; reflexivity. }
      rewrite Hv. do 2 eexists. split; reflexivity.
Qed.

(** X19.  On a service that started empty, after any sequence of
    requests, GET /risk/{trade_id} for an id that is one path segment
    reaches [get_risk], which answers 200 with the stored record when the
    store has one for the trade_id, and 404 otherwise: the test
    [if not risk] never takes a stored record for a missing one. *)
Theorem get_risk_answers_the_stored_record :
  forall (ops : list op) (E : env) (x : option string) (tid : string),
    segment tid = true ->
    served (get_risk E x) tid (exec handle ops started)
    = Some match dict_find (exec handle ops started).(store) (PyStr tid) with
           | Some record => Ok {| status := 200; body := record |}
           | None =>
               Ok {| status := 404;
                     body :=
                       obj [("error", PyStr "Risk assessment not found")] |}
           end.
Proof.
  intros ops E x tid Hseg. rewrite (served_segment _ _ _ Hseg). f_equal.
  destruct (dict_find _ _) as [record|] eqn:Hf.
  - apply Overwrite.get_risk_found; [exact Hf|].
    apply consistent_truthy.
    pose proof (exec_consistent ops) as Hall.
    rewrite Forall_forall in Hall.
    apply dict_find_In, in_map_iff in Hf. destruct Hf as ([k v] & <- & Hin).
    exact (Hall _ Hin).
  - now apply get_risk_missing.
Qed.

Lemma get_risk_answers_the_stored_record_witness :
  segment "T1" = true /\
  served (get_risk quiet_env None) "T1"
    (exec handle
       [Assess quiet_env first_risk;
        Assess failing_env (risk_request "T2" (PyFloat 20) (PyInt 10))]
       started)
  = Some (Ok {| status := 200;
                body := risk_record "MEDIUM" (PyFloat (-150)) (PyInt 10) |}).
Proof.
  split; [reflexivity|].
  exact (get_risk_answers_the_stored_record
           [Assess quiet_env first_risk;
            Assess failing_env (risk_request "T2" (PyFloat 20) (PyInt 10))]
           quiet_env None "T1" eq_refl).
Defined.

(** X20.  On a service that started empty, after any sequence of
    requests none of which posted the trade_id, GET /risk/{trade_id}
    answers 404 "Risk assessment not found". *)
Theorem unposted_risk_is_not_found :
  forall (tid : string) (ops : list op) (E : env) (x : option string),
    forallb (fun o => negb (risk_posts tid o)) ops = true ->
    fst (run (get_risk E x tid) (exec handle ops started))
    = Ok {| status := 404;
            body := obj [("error", PyStr "Risk assessment not found")] |}.
Proof.
  intros tid ops E x Hops. apply get_risk_missing.
  apply (exec_invariant_on handle (fun o => negb (risk_posts tid o))
           (fun s => dict_find s (PyStr tid) = None)); [|exact Hops|].
  - intros [E' req|E' x' tid'] w Hq Hw; cbn [handle risk_posts] in *.
    + apply negb_true_iff in Hq.
      destruct (run (assess_trade_risk E' req) w) as [res w'] eqn:Hrun.
      cbn [snd]. now rewrite (assess_trade_risk_frame _ _ _ _ _ _ Hrun Hq).
    + now rewrite get_risk_store.
  - reflexivity.
Qed.

Lemma unposted_risk_is_not_found_witness :
  fst (run (get_risk quiet_env None "T9")
         (exec handle
            [Assess quiet_env first_risk; Fetch quiet_env None "T2";
             Assess failing_env (risk_request "T2" (PyFloat 20) (PyInt 10))]
            started))
  = Ok {| status := 404;
          body := obj [("error", PyStr "Risk assessment not found")] |}.
Proof.
  apply (unposted_risk_is_not_found "T9"
           [Assess quiet_env first_risk; Fetch quiet_env None "T2";
            Assess failing_env (risk_request "T2" (PyFloat 20) (PyInt 10))]).
  vm_compute. reflexivity.
Defined.

End RiskRequests.

(** ** What one service sends and the next one reads *)

Module Interfaces.
Import TradeService PricingService PnLService RiskService RiskRule CostBasis
  PriceTable Wire Paths Samples Scenarios.

Lemma to_float_as_num (v : pyval) (f : float) :
  to_float v = Ok f -> exists x, as_num v = Some x.
Proof.
  unfold to_float. destruct (as_num v) as [x|]; [|discriminate].
  intros _. now exists x.
Qed.

Lemma py_truthy_not_None (v : pyval) : py_truthy v = true -> v <> PyNone.
Proof. intros H ->. discriminate H. Qed.

Lemma compute_pnl_400 (E : env) (req : request) (w w' : world pyval)
    (r : response) :
  run (compute_pnl E req) w = (Ok r, w') ->
  r.(status) = 400 ->
  py_truthy req.(get_json) = false \/
  exists trade_id symbol price quantity,
    py_get req.(get_json) "trade_id" = Ok trade_id /\
    py_get req.(get_json) "symbol" = Ok symbol /\
    py_get req.(get_json) "price" = Ok price /\
    py_get req.(get_json) "quantity" = Ok quantity /\
    forallb py_truthy [trade_id; symbol; price; quantity] = false.
Proof.
  intros H Hst. unfold compute_pnl in H. unfold_handler. follow H.
  all: injection H as <- _; cbn [status] in Hst; try discriminate Hst.
  all: try solve [left; now apply negb_true_iff].
  all: right; do 4 eexists; conj; try reflexivity.
  all: now apply negb_true_iff.
Qed.

(** What POST /risk does with a true, hashable trade_id and numbers for
    pnl_value and quantity. *)
Lemma assess_trade_risk_valid (E : env) (req : request) (w : world pyval)
    (trade_id pnl_value quantity : pyval) (x y : num) :
  py_get req.(get_json) "trade_id" = Ok trade_id ->
  py_get req.(get_json) "pnl_value" = Ok pnl_value ->
  py_get req.(get_json) "quantity" = Ok quantity ->
  py_truthy trade_id = true ->
  py_hashable trade_id = true ->
  as_num pnl_value = Some x ->
  as_num quantity = Some y ->
  let trace_id := trace_id_of E req.(x_trace_id) in
  let risk_level := risk_level_rule pnl_value quantity in
  run (assess_trade_risk E req) w
  = if (E.(random_random) <? 0.03)%float then
      (Ok {| status := 503;
             body := obj [("error", PyStr "External data unavailability")] |},
       {| store := w.(store);
          events :=
            w.(events)
            ++ [Log INFO "Received risk assessment request" trace_id;
                Log ERROR
                  "Risk assessment failed due to external data unavailability"
                  trace_id] |})
    else
      (Ok {| status := 200;
             body := obj [("trade_id", trade_id);
                          ("risk_level", PyStr risk_level)] |},
       {| store := dict_update w.(store) trade_id
                     (risk_record risk_level pnl_value quantity);
          events :=
            w.(events)
            ++ [Log INFO "Received risk assessment request" trace_id;
                Log INFO "Risk assessed successfully" trace_id] |}).
Proof.
  intros Ht Hp Hq Htrue Hh Hx Hy trace_id risk_level.
  pose proof (py_get_truthy _ _ _ Ht Htrue) as Hdata.
  unfold assess_trade_risk. unfold_handler.
  rewrite Hdata, Ht, Hp, Hq. cbn [forallb py_truthy].
  rewrite Htrue, (RiskFacts.as_num_not_None _ _ Hx),
    (RiskFacts.as_num_not_None _ _ Hy).
  rewrite (RiskFacts.assess_risk_total _ _ _ _ Hx Hy). unfold dict_setitem.
  rewrite Hh. cbv beta iota. cbn [negb andb].
  destruct (E.(random_random) <? 0.03)%float; cbv beta iota;
    cbn [store events]; rewrite <- ?app_assoc; reflexivity.
Qed.

(** POST /prices lets an exception escape only at [data.get] on a body
    that is not an object, or at the table lookup on a symbol that is a
    list or an object. *)
Lemma compute_trade_price_raises (E : env) (req : request)
    (w w' : world Empty_set) (e : exn) :
  run (compute_trade_price E req) w = (Raise e, w') ->
  (e = AttributeError /\ forall d, req.(get_json) <> PyDict d) \/
  (e = TypeError /\
   exists symbol,
     py_get req.(get_json) "symbol" = Ok symbol /\
     py_hashable symbol = false).
Proof.
  intros H. unfold compute_trade_price, compute_price in H. unfold_handler.
  follow H.
  all: injection H as <- _.
  all: try match goal with
           | Hg : py_get _ _ = Raise _ |- _ =>
               apply py_get_raises in Hg; destruct Hg as [-> Hd]
           end.
  all: try solve [left; split; [reflexivity | assumption]].
  all: right;
    match goal with
    | Hd : dict_get _ ?s _ = Raise _ |- _ =>
        unfold dict_get in Hd; destruct (py_hashable s) eqn:Hh;
        [discriminate Hd | injection Hd as <-]
    end;
    split; [reflexivity|]; eexists; split; [reflexivity | assumption].
Qed.

Lemma In_singleton {A} (a b : A) : In a [b] -> a = b.
Proof. intros [H|[]]. now symmetry. Qed.

(** X21.  The call POST /trades makes is one POST /prices never refuses:
    it carries the trace id of the trade request, and on it the pricing
    handler either answers 200 or 504, or raises [TypeError] at the table
    lookup (a 500), which it does only when the symbol of the trade is a
    list or an object.  It never answers 400. *)
Theorem pricing_accepts_what_trade_sends :
  forall (E : env) (req : request) (w w' : world Trade)
         (res : result response) (c : call),
    run (create_trade E req) w = (res, w') ->
    In c (calls (added w w')) ->
    (inbound c).(x_trace_id) = Some (trace_id_of E req.(x_trace_id)) /\
    forall (E1 : env) (w1 w1' : world Empty_set) (res1 : result response),
      run (compute_trade_price E1 (inbound c)) w1 = (res1, w1') ->
      (exists r1, res1 = Ok r1 /\
                  (r1.(status) = 200 \/ r1.(status) = 504)) \/
      (res1 = Raise TypeError /\
       exists symbol,
         py_get req.(get_json) "symbol" = Ok symbol /\
         py_hashable symbol = false).
Proof.
  intros E req w w' res c Hrun Hin.
  destruct (create_trade_paths _ _ _ _ _ Hrun)
    as (evs & Hev & [(_ & Hc & _)|(t & s & q & p & ty & _ & Hsym & _ & _ & _
                                    & Hall & _ & _ & _ & Hc)]);
    rewrite (added_app _ _ _ Hev), Hc in Hin; [destruct Hin|].
  apply In_singleton in Hin. subst c. split; [reflexivity|].
  intros E1 w1 w1' res1 Hrun1.
  cbn [forallb] in Hall.
  apply andb_prop in Hall as [Ht Hall]. apply andb_prop in Hall as [Hs Hall].
  apply andb_prop in Hall as [Hq _].
  destruct res1 as [r1|e].
  - left. exists r1. split; [reflexivity|].
    destruct (compute_trade_price_paths _ _ _ _ _ Hrun1)
      as (evs1 & _ & _ & [(_ & H400)|[(_ & Hres & _)|
           (t1 & s1 & q1 & b1 & _ & _ & _ & _ & _ & _ & _ & _ & Hres & _)]]).
    + exfalso.
      destruct (PricingRequests.compute_trade_price_400 _ _ _ _ _ Hrun1
                  (H400 r1 eq_refl))
        as [Hd|(t1 & s1 & q1 & Ht1 & Hs1 & Hq1 & Hbad)].
      * discriminate Hd.
      * injection Ht1 as <-. injection Hs1 as <-. injection Hq1 as <-.
        destruct Hbad as [H|[H|H]]; [congruence | congruence |].
        subst q. discriminate Hq.
    + injection Hres as ->. right. reflexivity.
    + injection Hres as ->. left. reflexivity.
  - right.
    destruct (compute_trade_price_raises _ _ _ _ _ Hrun1)
      as [(_ & Hd)|(-> & s1 & Hs1 & Hh)].
    + exfalso. eapply Hd. reflexivity.
    + injection Hs1 as <-. split; [reflexivity|]. exists s.
      split; assumption.
Qed.

Lemma pricing_accepts_what_trade_sends_witness :
  let c := {| url := "http://localhost:5001/prices";
              json := obj [("trade_id", PyStr "T1");
                           ("symbol", PyList [PyStr "AAPL"]);
                           ("quantity", PyInt 10)];
              headers := [("X-Trace-Id", "5f1c0c1e")] |} in
  ((inbound traced_call).(x_trace_id)
   = Some (trace_id_of quiet_env traced_request.(x_trace_id)) /\
   forall (E1 : env) (w1 w1' : world Empty_set) (res1 : result response),
     run (compute_trade_price E1 (inbound traced_call)) w1 = (res1, w1') ->
     (exists r1, res1 = Ok r1 /\
                 (r1.(status) = 200 \/ r1.(status) = 504)) \/
     (res1 = Raise TypeError /\
      exists symbol,
        py_get traced_request.(get_json) "symbol" = Ok symbol /\
        py_hashable symbol = false)) /\
  calls (added started
           (snd (run (create_trade quiet_env listed_symbol_request) started)))
  = [c] /\
  fst (run (compute_trade_price quiet_env (inbound c)) started)
  = Raise TypeError.
Proof.
  cbv zeta. split; [|split; vm_compute; reflexivity].
  apply (pricing_accepts_what_trade_sends quiet_env traced_request started
           (snd (run (create_trade quiet_env traced_request) started))
           (fst (run (create_trade quiet_env traced_request) started))).
  - vm_compute. reflexivity.
  - vm_compute. left. reflexivity.
Defined.

(** X22.  The call POST /prices makes for a request with a true quantity
    is one POST /pnl never refuses: it carries the trace id of the pricing
    request, its price is not zero when the draw is between -5.0 and 5.0,
    and the P&L service answers it 200 or 500, never 400. *)
Theorem pnl_accepts_what_pricing_sends :
  forall (E : env) (req : request) (w w' : world Empty_set)
         (res : result response) (c : call) (quantity : pyval),
    run (compute_trade_price E req) w = (res, w') ->
    In c (calls (added w w')) ->
    py_get req.(get_json) "quantity" = Ok quantity ->
    py_truthy quantity = true ->
    (-5 <=? E.(random_uniform) (-5) 5)%float = true ->
    (E.(random_uniform) (-5) 5 <=? 5)%float = true ->
    (inbound c).(x_trace_id) = Some (trace_id_of E req.(x_trace_id)) /\
    forall (E2 : env) (w2 w2' : world pyval) (r2 : response),
      run (compute_pnl E2 (inbound c)) w2 = (Ok r2, w2') ->
      r2.(status) = 200 \/ r2.(status) = 500.
Proof.
  intros E req w w' res c quantity Hrun Hin Hq Hqt Hlo Hhi.
  destruct (compute_trade_price_paths _ _ _ _ _ Hrun)
    as (evs & Hev & _ & [(Hc & _)|[(_ & _ & ->)|
         (t & s & q & b & _ & _ & Hq' & Ht & Hs & _ & _ & Hb & _ & _ & Hc)]]);
    rewrite (added_app _ _ _ Hev) in Hin.
  - rewrite Hc in Hin. destruct Hin.
  - cbn [calls] in Hin. destruct Hin.
  - rewrite Hc in Hin. apply In_singleton in Hin. subst c.
    rewrite Hq in Hq'. injection Hq' as <-.
    apply PricingRequests.base_prices_lookup in Hb. subst b.
    destruct (PriceWindow.table_price_window s _ Hlo Hhi) as (_ & _ & Hnz).
    split; [reflexivity|].
    intros E2 w2 w2' r2 Hrun2.
    destruct (compute_pnl_paths _ _ _ _ _ Hrun2)
      as (evs2 & _ & [(_ & _ & Hbad)|(t2 & s2 & p2 & q2 & c2 & d2 & v2 & _
                                       & _ & _ & _ & _ & _ & _ & _ & _ & _
                                       & Hres & _)]).
    + destruct (Hbad r2 eq_refl) as [H400|H500]; [exfalso|now right].
      destruct (compute_pnl_400 _ _ _ _ _ Hrun2 H400)
        as [Hd|(t2 & s2 & p2 & q2 & Ht2 & Hs2 & Hp2 & Hq2 & Hall)].
      * discriminate Hd.
      * injection Ht2 as <-. injection Hs2 as <-. injection Hp2 as <-.
        injection Hq2 as <-.
        cbn [forallb py_truthy] in Hall.
        rewrite Ht, Hs, Hqt, Hnz in Hall. discriminate Hall.
    + injection Hres as ->. left. reflexivity.
Qed.

Lemma pnl_accepts_what_pricing_sends_witness :
  let c := {| url := "http://localhost:5002/pnl";
              json := obj [("trade_id", PyStr "T1"); ("symbol", PyStr "AAPL");
                           ("price", PyFloat 150); ("quantity", PyInt 10)];
              headers := [("X-Trace-Id", "trace-1")] |} in
  (inbound c).(x_trace_id)
  = Some (trace_id_of quiet_env priced_request.(x_trace_id)) /\
  forall (E2 : env) (w2 w2' : world pyval) (r2 : response),
    run (compute_pnl E2 (inbound c)) w2 = (Ok r2, w2') ->
    r2.(status) = 200 \/ r2.(status) = 500.
Proof.
  apply (pnl_accepts_what_pricing_sends quiet_env priced_request started
           (snd (run (compute_trade_price quiet_env priced_request) started))
           (fst (run (compute_trade_price quiet_env priced_request) started))
           _ (PyInt 10)).
  - vm_compute. reflexivity.
  - vm_compute. left. reflexivity.
  - reflexivity.
  - reflexivity.
  - reflexivity.
  - reflexivity.
Defined.

(** X23.  The call POST /pnl makes is one POST /risk always assesses: it
    carries the trace id of the P&L request, and the risk service
    answers it 200 or 503; it never refuses it and never raises on it. *)
Theorem risk_accepts_what_pnl_sends :
  forall (E : env) (req : request) (w w' : world pyval)
         (res : result response) (c : call),
    run (compute_pnl E req) w = (res, w') ->
    In c (calls (added w w')) ->
    (inbound c).(x_trace_id) = Some (trace_id_of E req.(x_trace_id)) /\
    forall (E3 : env) (w3 w3' : world pyval) (res3 : result response),
      run (assess_trade_risk E3 (inbound c)) w3 = (res3, w3') ->
      exists r3, res3 = Ok r3 /\ (r3.(status) = 200 \/ r3.(status) = 503).
Proof.
  intros E req w w' res c Hrun Hin.
  destruct (compute_pnl_paths _ _ _ _ _ Hrun)
    as (evs & Hev & [(_ & Hc & _)|(t & s & p & q & c0 & d & v & _ & _ & _ & _
                                    & Hall & _ & _ & Hv & _ & Hh & _ & _
                                    & Hc)]);
    rewrite (added_app _ _ _ Hev), Hc in Hin; [destruct Hin|].
  apply In_singleton in Hin. subst c. split; [reflexivity|].
  intros E3 w3 w3' res3 Hrun3.
  cbn [forallb] in Hall. apply andb_prop in Hall as [Ht _].
  apply PnLFacts.py_float_mul_inv in Hv. destruct Hv as (fq & Hfq & _).
  destruct (to_float_as_num _ _ Hfq) as [y Hy].
  match type of Hrun3 with
  | run (assess_trade_risk _ ?r) _ = _ =>
      rewrite (assess_trade_risk_valid E3 r w3 t (PyFloat v) q (NFloat v) y
                 eq_refl eq_refl eq_refl Ht Hh eq_refl Hy) in Hrun3
  end.
  destruct (E3.(random_random) <? 0.03)%float; injection Hrun3 as <- _;
    eexists; split; try reflexivity; auto.
Qed.

Lemma risk_accepts_what_pnl_sends_witness :
  let c := {| url := "http://localhost:5003/risk";
              json := obj [("trade_id", PyStr "T1");
                           ("pnl_value", PyFloat 100);
                           ("quantity", PyInt 10)];
              headers := [("X-Trace-Id", "trace-1")] |} in
  (inbound c).(x_trace_id) = Some "trace-1" /\
  forall (E3 : env) (w3 w3' : world pyval) (res3 : result response),
    run (assess_trade_risk E3 (inbound c)) w3 = (res3, w3') ->
    exists r3, res3 = Ok r3 /\ (r3.(status) = 200 \/ r3.(status) = 503).
Proof.
  apply (risk_accepts_what_pnl_sends quiet_env
           (pnl_request "T1" "AAPL" (PyInt 150) (PyInt 10)) started
           aapl_world (Ok aapl_answer)).
  - vm_compute. reflexivity.
  - vm_compute. left. reflexivity.
Defined.

(** What POST /pnl does with an object one of whose four fields is
    false. *)
Lemma compute_pnl_refuses (E : env) (req : request) (w : world pyval)
    (trade_id symbol price quantity : pyval) :
  py_get req.(get_json) "trade_id" = Ok trade_id ->
  py_get req.(get_json) "symbol" = Ok symbol ->
  py_get req.(get_json) "price" = Ok price ->
  py_get req.(get_json) "quantity" = Ok quantity ->
  py_truthy req.(get_json) = true ->
  forallb py_truthy [trade_id; symbol; price; quantity] = false ->
  let trace_id := trace_id_of E req.(x_trace_id) in
  run (compute_pnl E req) w
  = (Ok {| status := 400;
           body := obj [("error", PyStr "Missing required fields")] |},
     {| store := w.(store);
        events :=
          w.(events)
          ++ [Log INFO "Received P&L computation request" trace_id;
              Log ERROR "Missing required fields" trace_id] |}).
Proof.
  intros Ht Hs Hp Hq Hdata Hall trace_id.
  unfold compute_pnl. unfold_handler.
  rewrite Hdata, Ht, Hs, Hp, Hq, Hall. cbv beta iota.
  cbn [negb store events]. rewrite <- !app_assoc. reflexivity.
Qed.

(** X24.  A quantity that is false but not null (0, 0.0, an empty
    string) passes POST /prices, which only tests it for null, but the
    call it then makes is always refused by POST /pnl, which tests it for
    truth: the P&L service answers 400 and stores nothing. *)
Theorem falsy_quantity_is_priced_then_refused :
  forall (E : env) (req : request) (w w' : world Empty_set)
         (res : result response) (c : call) (quantity : pyval),
    run (compute_trade_price E req) w = (res, w') ->
    In c (calls (added w w')) ->
    py_get req.(get_json) "quantity" = Ok quantity ->
    py_truthy quantity = false ->
    (exists r, res = Ok r /\ r.(status) = 200) /\
    forall (E2 : env) (w2 : world pyval),
      fst (run (compute_pnl E2 (inbound c)) w2)
      = Ok {| status := 400;
              body := obj [("error", PyStr "Missing required fields")] |} /\
      (snd (run (compute_pnl E2 (inbound c)) w2)).(store) = w2.(store).
Proof.
  intros E req w w' res c quantity Hrun Hin Hq Hqf.
  destruct (compute_trade_price_paths _ _ _ _ _ Hrun)
    as (evs & Hev & _ & [(Hc & _)|[(_ & _ & ->)|
         (t & s & q & b & Ht & _ & Hq' & _ & _ & _ & _ & _ & Hres & _ & Hc)]]);
    rewrite (added_app _ _ _ Hev) in Hin.
  - rewrite Hc in Hin. destruct Hin.
  - cbn [calls] in Hin. destruct Hin.
  - rewrite Hc in Hin. apply In_singleton in Hin. subst c.
    rewrite Hq in Hq'. injection Hq' as <-.
    split; [eexists; split; [exact Hres | reflexivity]|].
    intros E2 w2.
    match goal with
    | |- context [run (compute_pnl E2 ?r) w2] =>
        rewrite (compute_pnl_refuses E2 r w2 t s _ quantity eq_refl eq_refl
                   eq_refl eq_refl eq_refl)
    end.
    + split; reflexivity.
    + cbn [forallb]. rewrite Hqf. cbn [andb].
      rewrite !andb_false_r. reflexivity.
Qed.

Lemma falsy_quantity_is_priced_then_refused_witness :
  let c := {| url := "http://localhost:5002/pnl";
              json := obj [("trade_id", PyStr "T1"); ("symbol", PyStr "AAPL");
                           ("price", PyFloat 150); ("quantity", PyInt 0)];
              headers := [("X-Trace-Id", "trace-1")] |} in
  (exists r,
      fst (run (compute_trade_price quiet_env unsized_request) started)
      = Ok r /\ r.(status) = 200) /\
  forall (E2 : env) (w2 : world pyval),
    fst (run (compute_pnl E2 (inbound c)) w2)
    = Ok {| status := 400;
            body := obj [("error", PyStr "Missing required fields")] |} /\
    (snd (run (compute_pnl E2 (inbound c)) w2)).(store) = w2.(store).
Proof.
  apply (falsy_quantity_is_priced_then_refused quiet_env unsized_request
           started
           (snd (run (compute_trade_price quiet_env unsized_request) started))
           _ _ (PyInt 0)).
  - vm_compute. reflexivity.
  - vm_compute. left. reflexivity.
  - reflexivity.
  - reflexivity.
Defined.

End Interfaces.

(** ** One trade through the four services *)

Module Chain.
Import TradeService PricingService PnLService RiskService RiskRule CostBasis
  PriceTable Downstream Wire Pipeline Paths Interfaces Samples Scenarios
  Systems.

(** A valid body is stored and sent on to the pricing service. *)
Lemma create_trade_sends (E : env) (req : request) (w : world Trade)
    (tid : string) (symbol quantity price trade_type : pyval) :
  py_get req.(get_json) "trade_id" = Ok (PyStr tid) ->
  py_get req.(get_json) "symbol" = Ok symbol ->
  py_get req.(get_json) "quantity" = Ok quantity ->
  py_get req.(get_json) "price" = Ok price ->
  py_get req.(get_json) "trade_type" = Ok trade_type ->
  forallb py_truthy [PyStr tid; symbol; quantity; price; trade_type] = true ->
  exists w',
    run (create_trade E req) w
    = (Ok {| status := 201;
             body := obj [("message", PyStr "Trade created");
                          ("trade_id", PyStr tid)] |}, w') /\
    w'.(store)
    = dict_update w.(store) (PyStr tid)
        (create_trade_object E (PyStr tid) symbol quantity price trade_type)
    /\
    calls (added w w')
    = [{| url := "http://localhost:5001/prices";
          json := obj [("trade_id", PyStr tid); ("symbol", symbol);
                       ("quantity", quantity)];
          headers := [("X-Trace-Id", trace_id_of E req.(x_trace_id))] |}].
Proof.
  intros Ht Hs Hq Hp Hty Hall.
  destruct (TradeFacts.create_trade_accepts E req w _ _ _ _ _ Ht Hs Hq Hp Hty
              Hall eq_refl) as (w' & Hrun & Hst).
  exists w'. conj; [exact Hrun | exact Hst |].
  destruct (create_trade_paths _ _ _ _ _ Hrun)
    as (evs & Hev & [(_ & _ & H400)|(t' & s' & q' & p' & ty' & Ht' & Hs' & Hq'
                                      & _ & _ & _ & _ & _ & _ & Hc)]).
  - specialize (H400 _ eq_refl). discriminate H400.
  - rewrite Ht in Ht'. injection Ht' as <-.
    rewrite Hs in Hs'. injection Hs' as <-.
    rewrite Hq in Hq'. injection Hq' as <-.
    rewrite (added_app _ _ _ Hev). exact Hc.
Qed.

(** A valid body is priced and sent on to the P&L service when the
    simulated timeout does not fire. *)
Lemma compute_trade_price_sends (E : env) (req : request)
    (w : world Empty_set) (trade_id symbol quantity : pyval) :
  py_get req.(get_json) "trade_id" = Ok trade_id ->
  py_get req.(get_json) "symbol" = Ok symbol ->
  py_get req.(get_json) "quantity" = Ok quantity ->
  py_truthy trade_id = true ->
  py_truthy symbol = true ->
  is_None quantity = false ->
  py_hashable symbol = true ->
  (E.(random_random) <? 0.1)%float = false ->
  let computed_price :=
    (price_lookup symbol + E.(random_uniform) (-5) 5)%float in
  exists w',
    run (compute_trade_price E req) w
    = (Ok {| status := 200;
             body := obj [("trade_id", trade_id);
                          ("computed_price", PyFloat computed_price)] |}, w')
    /\
    calls (added w w')
    = [{| url := "http://localhost:5002/pnl";
          json := obj [("trade_id", trade_id); ("symbol", symbol);
                       ("price", PyFloat computed_price);
                       ("quantity", quantity)];
          headers := [("X-Trace-Id", trace_id_of E req.(x_trace_id))] |}].
Proof.
  intros Ht Hs Hq Htt Hst Hqn Hh Hr computed_price.
  assert (Hb : dict_get base_prices symbol 100%float
               = Ok (price_lookup symbol)).
  { destruct (dict_get base_prices symbol 100%float) as [b|e] eqn:Hb.
    - now rewrite (PricingRequests.base_prices_lookup _ _ Hb).
    - unfold dict_get in Hb. now rewrite Hh in Hb. }
  destruct (DefaultPrice.compute_trade_price_accepts E req w _ _ _ _ Ht Hs Hq
              Htt Hst Hqn Hb Hr) as (w' & Hrun).
  exists w'. split; [exact Hrun|].
  destruct (compute_trade_price_paths _ _ _ _ _ Hrun)
    as (evs & Hev & _ & [(_ & H400)|[(_ & Hres & _)|
         (t' & s' & q' & b' & Ht' & Hs' & Hq' & _ & _ & _ & _ & Hb' & _ & _
          & Hc)]]).
  - specialize (H400 _ eq_refl). discriminate H400.
  - discriminate Hres.
  - rewrite Ht in Ht'. injection Ht' as <-.
    rewrite Hs in Hs'. injection Hs' as <-.
    rewrite Hq in Hq'. injection Hq' as <-.
    rewrite Hb in Hb'. injection Hb' as <-.
    rewrite (added_app _ _ _ Hev). exact Hc.
Qed.

(** A valid body is answered 504 and sent nowhere when the simulated
    timeout fires. *)
Lemma compute_trade_price_times_out (E : env) (req : request)
    (w : world Empty_set) (trade_id symbol quantity : pyval) :
  py_get req.(get_json) "trade_id" = Ok trade_id ->
  py_get req.(get_json) "symbol" = Ok symbol ->
  py_get req.(get_json) "quantity" = Ok quantity ->
  py_truthy trade_id = true ->
  py_truthy symbol = true ->
  is_None quantity = false ->
  (E.(random_random) <? 0.1)%float = true ->
  let trace_id := trace_id_of E req.(x_trace_id) in
  run (compute_trade_price E req) w
  = (Ok {| status := 504; body := obj [("error", PyStr "Timeout")] |},
     {| store := w.(store);
        events :=
          w.(events)
          ++ [Log INFO "Received price computation request" trace_id;
              Sleep 5;
              Log ERROR "Price computation timed out" trace_id] |}).
Proof.
  intros Ht Hs Hq Htt Hst Hqn Hr trace_id.
  pose proof (py_get_truthy _ _ _ Ht Htt) as Hdata.
  unfold compute_trade_price. unfold_handler.
  rewrite Hdata, Ht, Hs, Hq, Htt, Hst, Hqn, Hr.
  cbv beta iota. cbn [negb orb store events]. rewrite <- !app_assoc.
  reflexivity.
Qed.

(** A valid body is booked and sent on to the risk service when the
    simulated inconsistency does not fire. *)
Lemma compute_pnl_sends (E : env) (req : request) (w : world pyval)
    (tid : string) (symbol price quantity : pyval) (p q : float) :
  py_get req.(get_json) "trade_id" = Ok (PyStr tid) ->
  py_get req.(get_json) "symbol" = Ok symbol ->
  py_get req.(get_json) "price" = Ok price ->
  py_get req.(get_json) "quantity" = Ok quantity ->
  forallb py_truthy [PyStr tid; symbol; price; quantity] = true ->
  py_hashable symbol = true ->
  to_float price = Ok p ->
  to_float quantity = Ok q ->
  (E.(random_random) <? 0.05)%float = false ->
  let cost := cost_lookup symbol in
  let pnl_value := ((p - cost) * q)%float in
  exists w',
    run (compute_pnl E req) w
    = (Ok {| status := 200;
             body := obj [("trade_id", PyStr tid);
                          ("pnl_value", PyFloat pnl_value)] |}, w') /\
    w'.(store)
    = dict_update w.(store) (PyStr tid)
        (pnl_record pnl_value symbol price quantity cost) /\
    calls (added w w')
    = [{| url := "http://localhost:5003/risk";
          json := obj [("trade_id", PyStr tid);
                       ("pnl_value", PyFloat pnl_value);
                       ("quantity", quantity)];
          headers := [("X-Trace-Id", trace_id_of E req.(x_trace_id))] |}].
Proof.
  intros Ht Hs Hp Hq Hall Hh Hfp Hfq Hr cost pnl_value.
  destruct (PnLFacts.compute_pnl_accepts E req w _ _ _ _ p q Ht Hs Hp Hq Hall
              eq_refl Hh Hfp Hfq Hr) as (w' & Hrun & Hst).
  exists w'. conj; [exact Hrun | exact Hst |].
  destruct (compute_pnl_paths _ _ _ _ _ Hrun)
    as (evs & Hev & [(_ & _ & Hbad)|(t' & s' & p' & q' & c' & d' & v' & Ht'
                                      & _ & _ & Hq' & _ & _ & _ & _ & _ & _
                                      & Hres & _ & Hc)]).
  - destruct (Hbad _ eq_refl) as [H|H]; discriminate H.
  - rewrite Ht in Ht'. injection Ht' as <-.
    rewrite Hq in Hq'. injection Hq' as <-.
    injection Hres as <-.
    rewrite (added_app _ _ _ Hev). exact Hc.
Qed.

(** *** What the encoder accepts *)

Lemma is_finite_SF (p : float) :
  is_finite p = match Prim2SF p with
                | S754_nan | S754_infinity _ => false
                | _ => true
                end.
Proof.
  unfold is_finite, is_nan, is_infinity.
  rewrite !eqb_spec, abs_spec.
  change (Prim2SF infinity) with (S754_infinity false).
  destruct (Prim2SF p) as [s|s| |s m e]; try reflexivity.
  - destruct s; reflexivity.
  - unfold SFabs, SFeqb, SFcompare. rewrite Z.compare_refl.
    rewrite Pos.compare_cont_refl.
    destruct s; reflexivity.
Qed.

(** A float between two finite floats is finite. *)
Lemma finite_between (lo hi p : float) :
  is_finite lo = true -> is_finite hi = true ->
  (lo <=? p)%float = true -> (p <=? hi)%float = true ->
  is_finite p = true.
Proof.
  rewrite !is_finite_SF, !leb_spec.
  destruct (Prim2SF p) as [s|s| |s m e]; try reflexivity.
  - destruct s.
    + destruct (Prim2SF lo) as [sl|sl| |sl ml el]; try discriminate;
        intros _ _ H; discriminate H.
    + destruct (Prim2SF hi) as [sh|sh| |sh mh eh]; try discriminate;
        intros _ _ _ H; discriminate H.
  - intros _ _ H. destruct (Prim2SF lo); discriminate H.
Qed.

(** The price of any symbol is finite when the draw is between -5.0 and
    5.0. *)
Lemma table_price_finite (symbol : pyval) (u : float) :
  (-5 <=? u)%float = true -> (u <=? 5)%float = true ->
  is_finite (price_lookup symbol + u) = true.
Proof.
  intros Hlo Hhi.
  destruct (PriceWindow.table_price_window symbol u Hlo Hhi) as (Hl & Hh & _).
  refine (finite_between _ _ _ _ _ Hl Hh).
  all: unfold price_lookup; destruct symbol as [|b|z|f|s|l|d];
    try reflexivity.
  all: destruct (s =? "AAPL")%string;
    [|destruct (s =? "GOOGL")%string; [|destruct (s =? "MSFT")%string]];
    reflexivity.
Qed.

Lemma encodable_obj (items : list (string * pyval)) :
  encodable (obj items) = forallb (fun kv => encodable (snd kv)) items.
Proof.
  unfold obj. cbn [encodable].
  induction items as [|[k v] items IH]; cbn [map forallb fst snd]; [easy|].
  rewrite IH. reflexivity.
Qed.

(** *** Each service on the call of the one before *)

(** The risk service on the call of the P&L service. *)
Lemma serve_risk_assesses (D : draws) (S : system) (tid : string)
    (v : float) (quantity : pyval) (y : num) (tr : string) :
  py_truthy (PyStr tid) = true ->
  as_num quantity = Some y ->
  (D.(risk_env).(random_random) <? 0.03)%float = false ->
  let risk_level := risk_level_rule (PyFloat v) quantity in
  serve_risk D
    {| url := "http://localhost:5003/risk";
       json := obj [("trade_id", PyStr tid); ("pnl_value", PyFloat v);
                    ("quantity", quantity)];
       headers := [("X-Trace-Id", tr)] |} S
  = (Responded 200,
     {| trade_world := S.(trade_world);
        pricing_world := S.(pricing_world);
        pnl_world := S.(pnl_world);
        risk_world :=
          {| store := dict_update S.(risk_world).(store) (PyStr tid)
                        (risk_record risk_level (PyFloat v) quantity);
             events :=
               S.(risk_world).(events)
               ++ [Log INFO "Received risk assessment request" tr;
                   Log INFO "Risk assessed successfully" tr] |} |}).
Proof.
  intros Ht Hy Hr risk_level. unfold serve_risk. cbn [url].
  rewrite String.eqb_refl.
  match goal with
  | |- context [run (assess_trade_risk ?E ?r) ?w] =>
      rewrite (assess_trade_risk_valid E r w (PyStr tid) (PyFloat v) quantity
                 (NFloat v) y eq_refl eq_refl eq_refl Ht eq_refl eq_refl Hy)
  end.
  rewrite Hr. reflexivity.
Qed.

(** The P&L service on the call of the pricing service, with the risk
    service behind it. *)
Lemma serve_pnl_books (D : draws) (S : system) (tid : string)
    (symbol quantity : pyval) (p q : float) (tr : string) :
  forallb py_truthy [PyStr tid; symbol; PyFloat p; quantity] = true ->
  py_hashable symbol = true ->
  to_float quantity = Ok q ->
  encodable symbol = true ->
  encodable quantity = true ->
  is_finite p = true ->
  is_finite ((p - cost_lookup symbol) * q) = true ->
  (D.(pnl_env).(random_random) <? 0.05)%float = false ->
  (D.(risk_env).(random_random) <? 0.03)%float = false ->
  let cost := cost_lookup symbol in
  let pnl_value := ((p - cost) * q)%float in
  let risk_level := risk_level_rule (PyFloat pnl_value) quantity in
  exists w2,
    send (serve_pnl D)
      {| url := "http://localhost:5002/pnl";
         json := obj [("trade_id", PyStr tid); ("symbol", symbol);
                      ("price", PyFloat p); ("quantity", quantity)];
         headers := [("X-Trace-Id", tr)] |} S
    = (Responded 200,
       {| trade_world := S.(trade_world);
          pricing_world := S.(pricing_world);
          pnl_world := w2;
          risk_world :=
            {| store := dict_update S.(risk_world).(store) (PyStr tid)
                          (risk_record risk_level (PyFloat pnl_value)
                             quantity);
               events :=
                 S.(risk_world).(events)
                 ++ [Log INFO "Received risk assessment request" tr;
                     Log INFO "Risk assessed successfully" tr] |} |}) /\
    w2.(store)
    = dict_update S.(pnl_world).(store) (PyStr tid)
        (pnl_record pnl_value symbol (PyFloat p) quantity cost).
Proof.
  intros Hall Hh Hfq Hes Heq Hfp Hfv Hr2 Hr3 cost pnl_value risk_level.
  destruct (to_float_as_num _ _ Hfq) as [y Hy].
  assert (Ht : py_truthy (PyStr tid) = true).
  { cbn [forallb] in Hall. now apply andb_prop in Hall. }
  unfold send. cbn [json]. rewrite encodable_obj.
  cbn [forallb snd encodable]. rewrite Hes, Heq, Hfp. cbn [andb].
  unfold serve_pnl. cbn [url]. rewrite String.eqb_refl. cbv zeta.
  match goal with
  | |- context [run (compute_pnl ?E ?r) ?w] =>
      destruct (compute_pnl_sends E r w tid symbol (PyFloat p) quantity p q
                  eq_refl eq_refl eq_refl eq_refl Hall Hh eq_refl Hfq Hr2)
        as (w2 & Hrun & Hst & Hc)
  end.
  rewrite Hrun, Hc. unfold deliver. cbn [fold_left answered status].
  unfold send. cbn [json]. rewrite encodable_obj.
  cbn [forallb snd encodable]. rewrite Hfv, Heq. cbn [andb].
  rewrite (serve_risk_assesses D _ tid _ quantity y _ Ht Hy Hr3).
  exists w2. split; [reflexivity | exact Hst].
Qed.

(** The pricing service on the call of the trade service, with the P&L
    and risk services behind it. *)
Lemma serve_prices_prices (D : draws) (S : system) (tid : string)
    (symbol quantity : pyval) (q : float) (tr : string) :
  forallb py_truthy [PyStr tid; symbol; quantity] = true ->
  py_hashable symbol = true ->
  to_float quantity = Ok q ->
  encodable symbol = true ->
  encodable quantity = true ->
  is_finite
    ((price_lookup symbol + D.(pricing_env).(random_uniform) (-5) 5
      - cost_lookup symbol) * q) = true ->
  (D.(pricing_env).(random_random) <? 0.1)%float = false ->
  (-5 <=? D.(pricing_env).(random_uniform) (-5) 5)%float = true ->
  (D.(pricing_env).(random_uniform) (-5) 5 <=? 5)%float = true ->
  (D.(pnl_env).(random_random) <? 0.05)%float = false ->
  (D.(risk_env).(random_random) <? 0.03)%float = false ->
  let computed_price :=
    (price_lookup symbol + D.(pricing_env).(random_uniform) (-5) 5)%float in
  let cost := cost_lookup symbol in
  let pnl_value := ((computed_price - cost) * q)%float in
  let risk_level := risk_level_rule (PyFloat pnl_value) quantity in
  exists w1 w2,
    send (serve_prices D)
      {| url := "http://localhost:5001/prices";
         json := obj [("trade_id", PyStr tid); ("symbol", symbol);
                      ("quantity", quantity)];
         headers := [("X-Trace-Id", tr)] |} S
    = (Responded 200,
       {| trade_world := S.(trade_world);
          pricing_world := w1;
          pnl_world := w2;
          risk_world :=
            {| store := dict_update S.(risk_world).(store) (PyStr tid)
                          (risk_record risk_level (PyFloat pnl_value)
                             quantity);
               events :=
                 S.(risk_world).(events)
                 ++ [Log INFO "Received risk assessment request" tr;
                     Log INFO "Risk assessed successfully" tr] |} |}) /\
    w2.(store)
    = dict_update S.(pnl_world).(store) (PyStr tid)
        (pnl_record pnl_value symbol (PyFloat computed_price) quantity cost).
Proof.
  intros Hall Hh Hfq Hes Heq Hfv Hr1 Hlo Hhi Hr2 Hr3 computed_price cost
    pnl_value risk_level.
  pose proof (table_price_finite symbol _ Hlo Hhi) as Hfp.
  unfold send at 1. cbn [json]. rewrite encodable_obj.
  cbn [forallb snd encodable]. rewrite Hes, Heq. cbn [andb].
  cbn [forallb] in Hall.
  apply andb_prop in Hall as [Ht Hall]. apply andb_prop in Hall as [Hs Hall].
  apply andb_prop in Hall as [Hq _].
  assert (Hqn : is_None quantity = false)
    by (destruct quantity; (reflexivity || discriminate Hq)).
  destruct (PriceWindow.table_price_window symbol _ Hlo Hhi) as (_ & _ & Hnz).
  unfold serve_prices. cbn [url]. rewrite String.eqb_refl. cbv zeta.
  match goal with
  | |- context [run (compute_trade_price ?E ?r) ?w] =>
      destruct (compute_trade_price_sends E r w (PyStr tid) symbol quantity
                  eq_refl eq_refl eq_refl Ht Hs Hqn Hh Hr1)
        as (w1 & Hrun & Hc)
  end.
  rewrite Hrun, Hc. unfold deliver. cbn [fold_left answered status].
  match goal with
  | |- context [send (serve_pnl D) ?c ?S1] =>
      destruct (serve_pnl_books D S1 tid symbol quantity computed_price q
                  (trace_id_of
                     (with_requests_post D.(pricing_env)
                        (fun c' => fst (send (serve_pnl D) c' S)))
                     (Some tr)))
        as (w2 & Hserve & Hst)
  end.
  - cbn [forallb py_truthy]. fold computed_price in Hnz.
    cbn [py_truthy] in Ht. rewrite Ht, Hs, Hq, Hnz. reflexivity.
  - exact Hh.
  - exact Hfq.
  - exact Hes.
  - exact Heq.
  - exact Hfp.
  - exact Hfv.
  - exact Hr2.
  - exact Hr3.
  - exists w1, w2. split; [|exact Hst].
    etransitivity; [|exact (f_equal (fun x => (Responded 200, snd x)) Hserve)].
    reflexivity.
Qed.

(** X25.  A trade with a string trade_id, a string symbol and a nonzero
    integer quantity that converts to a float, posted while no simulated
    failure fires and the price draw is between -5.0 and 5.0, and whose
    pnl_value (computed price minus cost, times the quantity, in binary64)
    is finite, goes through the four services: it is answered 201 and
    stored; the P&L service books it at the price the pricing service
    computed (table price plus draw, not the price the client submitted);
    and the risk service stores the level of the rule for that pnl_value
    and quantity, logging under the trace id of the first request.  The
    two conditions on the quantity are needed: beyond the float range the
    product raises [OverflowError], and an infinite pnl_value is not
    encoded, so that the risk service is not called. *)
Theorem accepted_trade_is_assessed :
  forall (D : draws) (req : request) (S : system) (tid s : string) (n : Z)
         (price trade_type : pyval) (q : float),
    py_get req.(get_json) "trade_id" = Ok (PyStr tid) ->
    py_get req.(get_json) "symbol" = Ok (PyStr s) ->
    py_get req.(get_json) "quantity" = Ok (PyInt n) ->
    py_get req.(get_json) "price" = Ok price ->
    py_get req.(get_json) "trade_type" = Ok trade_type ->
    forallb py_truthy [PyStr tid; PyStr s; PyInt n; price; trade_type]
    = true ->
    float_of_Z n = Ok q ->
    (D.(pricing_env).(random_random) <? 0.1)%float = false ->
    (-5 <=? D.(pricing_env).(random_uniform) (-5) 5)%float = true ->
    (D.(pricing_env).(random_uniform) (-5) 5 <=? 5)%float = true ->
    (D.(pnl_env).(random_random) <? 0.05)%float = false ->
    (D.(risk_env).(random_random) <? 0.03)%float = false ->
    let trace_id := trace_id_of D.(trade_env) req.(x_trace_id) in
    let computed_price :=
      (price_lookup (PyStr s)
       + D.(pricing_env).(random_uniform) (-5) 5)%float in
    let cost := cost_lookup (PyStr s) in
    let pnl_value := ((computed_price - cost) * q)%float in
    let risk_level := risk_level_rule (PyFloat pnl_value) (PyInt n) in
    let S' := snd (post_trade D req S) in
    is_finite pnl_value = true ->
    fst (post_trade D req S)
    = Ok {| status := 201;
            body := obj [("message", PyStr "Trade created");
                         ("trade_id", PyStr tid)] |} /\
    dict_find S'.(trade_world).(store) (PyStr tid)
    = Some (create_trade_object D.(trade_env) (PyStr tid) (PyStr s) (PyInt n)
              price trade_type) /\
    dict_find S'.(pnl_world).(store) (PyStr tid)
    = Some (pnl_record pnl_value (PyStr s) (PyFloat computed_price) (PyInt n)
              cost) /\
    dict_find S'.(risk_world).(store) (PyStr tid)
    = Some (risk_record risk_level (PyFloat pnl_value) (PyInt n)) /\
    added S.(risk_world) S'.(risk_world)
    = [Log INFO "Received risk assessment request" trace_id;
       Log INFO "Risk assessed successfully" trace_id].
Proof.
  intros D req S tid s n price trade_type q Ht Hs Hq Hp Hty Hall Hfq Hr1 Hlo
    Hhi Hr2 Hr3 trace_id computed_price cost pnl_value risk_level S' Hfv.
  subst S'. unfold post_trade. cbv zeta.
  match goal with
  | |- context [run (create_trade ?E req) ?w] =>
      destruct (create_trade_sends E req w tid _ _ _ _ Ht Hs Hq Hp Hty Hall)
        as (w0 & Hrun & Hst & Hc)
  end.
  rewrite Hrun, Hc. unfold deliver. cbn [fold_left fst snd].
  assert (Hall3 : forallb py_truthy [PyStr tid; PyStr s; PyInt n] = true).
  { cbn [forallb] in *.
    apply andb_prop in Hall as [H1 Hall]. apply andb_prop in Hall as [H2 Hall].
    apply andb_prop in Hall as [H3 _]. now rewrite H1, H2, H3. }
  match goal with
  | |- context [send (serve_prices D) {| url := _; json := _;
                                          headers := [(_, ?tr)] |} ?S1] =>
      destruct (serve_prices_prices D S1 tid (PyStr s) (PyInt n) q tr Hall3
                  eq_refl Hfq eq_refl eq_refl Hfv Hr1 Hlo Hhi Hr2 Hr3)
        as (w1 & w2 & Hserve & Hst2)
  end.
  rewrite Hserve. cbn [snd trade_world pricing_world pnl_world risk_world].
  conj.
  - reflexivity.
  - rewrite Hst. apply dict_find_update_str.
  - rewrite Hst2. apply dict_find_update_str.
  - cbn [store]. apply dict_find_update_str.
  - apply added_app. reflexivity.
Qed.

Lemma accepted_trade_is_assessed_witness :
  let S' := snd (post_trade quiet_draws traced_request idle) in
  fst (post_trade quiet_draws traced_request idle)
  = Ok {| status := 201;
          body := obj [("message", PyStr "Trade created");
                       ("trade_id", PyStr "T1")] |} /\
  dict_find S'.(trade_world).(store) (PyStr "T1")
  = Some (create_trade_object quiet_env (PyStr "T1") (PyStr "AAPL")
            (PyInt 10) (PyInt 150) (PyStr "buy")) /\
  dict_find S'.(pnl_world).(store) (PyStr "T1")
  = Some (pnl_record ((150 + 0 - 140) * 10) (PyStr "AAPL")
            (PyFloat (150 + 0)) (PyInt 10) 140) /\
  dict_find S'.(risk_world).(store) (PyStr "T1")
  = Some (risk_record "LOW" (PyFloat ((150 + 0 - 140) * 10)) (PyInt 10)) /\
  added idle.(risk_world) S'.(risk_world)
  = [Log INFO "Received risk assessment request" "abc-123";
     Log INFO "Risk assessed successfully" "abc-123"].
Proof.
  apply (accepted_trade_is_assessed quiet_draws traced_request idle "T1"
           "AAPL" 10 (PyInt 150) (PyStr "buy") 10%float);
    vm_compute; reflexivity.
Defined.

(** The pricing service on the call of the trade service when its
    simulated timeout fires. *)
Lemma serve_prices_times_out (D : draws) (S : system)
    (trade_id symbol quantity : pyval) (tr : string) :
  py_truthy trade_id = true ->
  py_truthy symbol = true ->
  is_None quantity = false ->
  encodable trade_id = true ->
  encodable symbol = true ->
  encodable quantity = true ->
  (D.(pricing_env).(random_random) <? 0.1)%float = true ->
  send (serve_prices D)
    {| url := "http://localhost:5001/prices";
       json := obj [("trade_id", trade_id); ("symbol", symbol);
                    ("quantity", quantity)];
       headers := [("X-Trace-Id", tr)] |} S
  = (Responded 504,
     {| trade_world := S.(trade_world);
        pricing_world :=
          {| store := S.(pricing_world).(store);
             events :=
               S.(pricing_world).(events)
               ++ [Log INFO "Received price computation request" tr;
                   Sleep 5;
                   Log ERROR "Price computation timed out" tr] |};
        pnl_world := S.(pnl_world);
        risk_world := S.(risk_world) |}).
Proof.
  intros Ht Hs Hqn Het Hes Heq Hr.
  unfold send at 1. cbn [json]. rewrite encodable_obj.
  cbn [forallb snd]. rewrite Het, Hes, Heq. cbn [andb].
  unfold serve_prices. cbn [url].
  rewrite String.eqb_refl. cbv zeta.
  match goal with
  | |- context [run (compute_trade_price ?E ?r) ?w] =>
      rewrite (compute_trade_price_times_out E r w trade_id symbol quantity
                 eq_refl eq_refl eq_refl Ht Hs Hqn Hr)
  end.
  match goal with
  | |- context [added ?w ?w'] => rewrite (added_app w w' _ eq_refl)
  end.
  reflexivity.
Qed.

(** X26.  When the pricing service times out on a valid trade whose
    symbol and quantity hold no NaN and no infinity (so that the call to
    the pricing service is encoded and sent), the chain stops there: the
    trade is still answered 201 and stored, the pricing service has slept
    its five seconds, and the stores and logs of the P&L and risk
    services are exactly what they were. *)
Theorem pricing_timeout_stops_the_chain :
  forall (D : draws) (req : request) (S : system) (tid : string)
         (symbol quantity price trade_type : pyval),
    py_get req.(get_json) "trade_id" = Ok (PyStr tid) ->
    py_get req.(get_json) "symbol" = Ok symbol ->
    py_get req.(get_json) "quantity" = Ok quantity ->
    py_get req.(get_json) "price" = Ok price ->
    py_get req.(get_json) "trade_type" = Ok trade_type ->
    forallb py_truthy [PyStr tid; symbol; quantity; price; trade_type]
    = true ->
    encodable symbol = true ->
    encodable quantity = true ->
    (D.(pricing_env).(random_random) <? 0.1)%float = true ->
    let S' := snd (post_trade D req S) in
    fst (post_trade D req S)
    = Ok {| status := 201;
            body := obj [("message", PyStr "Trade created");
                         ("trade_id", PyStr tid)] |} /\
    dict_find S'.(trade_world).(store) (PyStr tid)
    = Some (create_trade_object D.(trade_env) (PyStr tid) symbol quantity
              price trade_type) /\
    sleeps (added S.(pricing_world) S'.(pricing_world)) = [5%float] /\
    S'.(pnl_world) = S.(pnl_world) /\
    S'.(risk_world) = S.(risk_world).
Proof.
  intros D req S tid symbol quantity price trade_type Ht Hs Hq Hp Hty Hall
    Hes Heq Hr S'.
  subst S'. unfold post_trade. cbv zeta.
  match goal with
  | |- context [run (create_trade ?E req) ?w] =>
      destruct (create_trade_sends E req w tid _ _ _ _ Ht Hs Hq Hp Hty Hall)
        as (w0 & Hrun & Hst & Hc)
  end.
  rewrite Hrun, Hc. unfold deliver. cbn [fold_left fst snd].
  cbn [forallb] in Hall.
  apply andb_prop in Hall as [H1 Hall]. apply andb_prop in Hall as [H2 Hall].
  apply andb_prop in Hall as [H3 _].
  assert (Hqn : is_None quantity = false)
    by (destruct quantity; (reflexivity || discriminate H3)).
  rewrite (serve_prices_times_out D _ (PyStr tid) symbol quantity _ H1 H2 Hqn
             eq_refl Hes Heq Hr).
  cbn [snd trade_world pricing_world pnl_world risk_world].
  conj; try reflexivity.
  - rewrite Hst. apply dict_find_update_str.
  - match goal with
    | |- context [added ?w ?w'] => rewrite (added_app w w' _ eq_refl)
    end.
    reflexivity.
Qed.

Lemma pricing_timeout_stops_the_chain_witness :
  let S' := snd (post_trade failing_draws traced_request idle) in
  fst (post_trade failing_draws traced_request idle)
  = Ok {| status := 201;
          body := obj [("message", PyStr "Trade created");
                       ("trade_id", PyStr "T1")] |} /\
  dict_find S'.(trade_world).(store) (PyStr "T1")
  = Some (create_trade_object failing_env (PyStr "T1") (PyStr "AAPL")
            (PyInt 10) (PyInt 150) (PyStr "buy")) /\
  sleeps (added idle.(pricing_world) S'.(pricing_world)) = [5%float] /\
  S'.(pnl_world) = idle.(pnl_world) /\
  S'.(risk_world) = idle.(risk_world).
Proof.
  apply (pricing_timeout_stops_the_chain failing_draws traced_request idle
           "T1" (PyStr "AAPL") (PyInt 10) (PyInt 150) (PyStr "buy"));
    vm_compute; reflexivity.
Defined.

(** X29.  A valid trade whose quantity holds a NaN or an infinity is
    answered 201 and stored, and the chain does not start: the call to the
    pricing service is made but its body cannot be encoded, so nothing is
    sent, and the pricing, P&L and risk services are exactly what they
    were. *)
Theorem unencodable_trade_goes_nowhere :
  forall (D : draws) (req : request) (S : system) (tid : string)
         (symbol quantity price trade_type : pyval),
    py_get req.(get_json) "trade_id" = Ok (PyStr tid) ->
    py_get req.(get_json) "symbol" = Ok symbol ->
    py_get req.(get_json) "quantity" = Ok quantity ->
    py_get req.(get_json) "price" = Ok price ->
    py_get req.(get_json) "trade_type" = Ok trade_type ->
    forallb py_truthy [PyStr tid; symbol; quantity; price; trade_type]
    = true ->
    encodable quantity = false ->
    let S' := snd (post_trade D req S) in
    fst (post_trade D req S)
    = Ok {| status := 201;
            body := obj [("message", PyStr "Trade created");
                         ("trade_id", PyStr tid)] |} /\
    dict_find S'.(trade_world).(store) (PyStr tid)
    = Some (create_trade_object D.(trade_env) (PyStr tid) symbol quantity
              price trade_type) /\
    List.length (calls (added S.(trade_world) S'.(trade_world))) = 1%nat /\
    S'.(pricing_world) = S.(pricing_world) /\
    S'.(pnl_world) = S.(pnl_world) /\
    S'.(risk_world) = S.(risk_world).
Proof.
  intros D req S tid symbol quantity price trade_type Ht Hs Hq Hp Hty Hall
    Heq S'.
  subst S'. unfold post_trade. cbv zeta.
  match goal with
  | |- context [run (create_trade ?E req) ?w] =>
      destruct (create_trade_sends E req w tid _ _ _ _ Ht Hs Hq Hp Hty Hall)
        as (w0 & Hrun & Hst & Hc)
  end.
  rewrite Hrun, Hc. unfold deliver. cbn [fold_left fst snd].
  match goal with
  | |- context [send (serve_prices D) ?c ?S1] =>
      assert (Hsend : send (serve_prices D) c S1 = (Failed, S1))
        by (unfold send; cbn [json]; rewrite encodable_obj;
            cbn [forallb snd]; rewrite Heq, !andb_false_r; reflexivity)
  end.
  rewrite !Hsend.
  cbn [snd trade_world pricing_world pnl_world risk_world].
  conj; try reflexivity.
  - rewrite Hst. apply dict_find_update_str.
  - rewrite Hc. reflexivity.
Qed.

Lemma unencodable_trade_goes_nowhere_witness :
  let S' := snd (post_trade quiet_draws boundless_request idle) in
  encodable (PyFloat infinity) = false /\
  fst (post_trade quiet_draws boundless_request idle)
  = Ok {| status := 201;
          body := obj [("message", PyStr "Trade created");
                       ("trade_id", PyStr "T1")] |} /\
  dict_find S'.(trade_world).(store) (PyStr "T1")
  = Some (create_trade_object quiet_env (PyStr "T1") (PyStr "AAPL")
            (PyFloat infinity) (PyFloat 150) (PyStr "buy")) /\
  List.length (calls (added idle.(trade_world) S'.(trade_world))) = 1%nat /\
  S'.(pricing_world) = idle.(pricing_world) /\
  S'.(pnl_world) = idle.(pnl_world) /\
  S'.(risk_world) = idle.(risk_world).
Proof.
  cbv zeta. split; [reflexivity|].
  apply (unencodable_trade_goes_nowhere quiet_draws boundless_request idle
           "T1" (PyStr "AAPL") (PyFloat infinity) (PyFloat 150)
           (PyStr "buy"));
    vm_compute; reflexivity.
Defined.

End Chain.

(** ** One trace id per request *)

Module Tracing.
Import TradeService PricingService PnLService RiskService.

(** Runs the handler of the goal along each of its paths and checks the
    events it added one by one. *)
Ltac traced_paths :=
  match goal with
  | |- context [run ?m ?w] =>
      let H := fresh "H" in
      destruct (run m w) as [? ?] eqn:H; cbn [snd];
      unfold create_trade, compute_trade_price, compute_price, compute_pnl,
        assess_trade_risk, get_trade, get_pnl, get_risk, dict_get in H;
      unfold_handler; cbn [py_hashable] in H; follow H;
      injection H as <- <-;
      erewrite added_app
        by (cbn [events]; rewrite <- ?app_assoc; reflexivity);
      cbn [app store calls]
  end.

(** X27.  Every log record a POST handler writes and every call it makes
    is under one trace id, that of the request (its X-Trace-Id header,
    or the uuid drawn when it has none), on every path and whatever the
    outcome. *)
Theorem post_handlers_keep_one_trace_id :
  forall (E : env) (req : request),
    let tr := trace_id_of E req.(x_trace_id) in
    (forall w : world Trade,
        Forall (traced tr) (added w (snd (run (create_trade E req) w)))) /\
    (forall w : world Empty_set,
        Forall (traced tr)
          (added w (snd (run (compute_trade_price E req) w)))) /\
    (forall w : world pyval,
        Forall (traced tr) (added w (snd (run (compute_pnl E req) w)))) /\
    (forall w : world pyval,
        Forall (traced tr)
          (added w (snd (run (assess_trade_risk E req) w)))).
Proof.
  intros E req tr. subst tr. conj; intros w.
  all: traced_paths.
  all: repeat (constructor; cbn [traced headers]).
Qed.

(** X28.  A GET handler only reads: it leaves the store as it was, makes
    no call, and logs under the trace id of the request, whether the
    record is found or not. *)
Theorem get_handlers_only_read :
  forall (E : env) (x : option string) (trade_id : string),
    let tr := trace_id_of E x in
    (forall w : world Trade,
        let w' := snd (run (get_trade E x trade_id) w) in
        w'.(store) = w.(store) /\ calls (added w w') = [] /\
        Forall (traced tr) (added w w')) /\
    (forall w : world pyval,
        let w' := snd (run (get_pnl E x trade_id) w) in
        w'.(store) = w.(store) /\ calls (added w w') = [] /\
        Forall (traced tr) (added w w')) /\
    (forall w : world pyval,
        let w' := snd (run (get_risk E x trade_id) w) in
        w'.(store) = w.(store) /\ calls (added w w') = [] /\
        Forall (traced tr) (added w w')).
Proof.
  intros E x trade_id tr. subst tr. conj; intros w; cbv zeta.
  all: traced_paths.
  all: conj; [reflexivity | reflexivity |].
  all: repeat (constructor; cbn [traced headers]).
Qed.

End Tracing.
